(** * The generic VT102 backend (vt102-backend-generic.c), shallowly embedded

    The backend keeps the screen of a DEC VT102 terminal: a character
    buffer and a graphic-rendition buffer of [con_width * con_height]
    bytes each, a cursor, a scrolling region and per-line refresh flags.
    Every function of the C module that edits [struct term_data] is
    translated below as a function on a record of the same shape.

    Conventions of the embedding:
    - a C [int] is a [Z]; every [int] addition, subtraction and product
      of the source goes through [wrap], the 32-bit two's complement
      wrap-around; adding an [int] to a pointer does not wrap;
    - a byte buffer is a [list Z], the flag buffer a [list bool];
      [memset], [memmove] and [memcpy] are given pointwise.  An access
      outside the buffer, or with a negative length, is undefined in C
      (the program corrupts its heap or is killed): the functions
      below give such a call a value by convention only, a write
      outside the buffer dropped and a read outside it yielding the
      default element, and no result relies on that value.  The
      results are stated for calls whose accesses all lie inside the
      buffers: on well-formed states ([wf]), for screens whose number
      of cells is an [int] ([op_fits], and the size condition of
      [reachable_init]) and for line counts that neither are negative
      nor overflow the row sum ([line_count_ok]);
    - [malloc] is taken to succeed: a screen whose number of cells is
      not a positive [int], for which the C program exits or gets a
      block of another size, is excluded by the same size conditions;
    - the write through a null pointer in [display_char] is the one
      crash the source provokes itself: operations that may reach it
      return [option term_data], [None] being that crash;
    - a guarded assignment [if (c) t->f = v;] is the assignment of
      [if c then v else f t] to the field [f];
    - calls through the [vt102_backend_ops] table are calls of the
      functions [init_vt102_generic_backend] installs in it. *)

From Stdlib Require Import ZArith List Bool Lia.
Import ListNotations.
Open Scope Z_scope.

(** ** Machine integers *)

Module Int.

Definition min_signed : Z := - 2 ^ 31.
Definition max_signed : Z := 2 ^ 31 - 1.

Definition wrap (z : Z) : Z := (z + 2 ^ 31) mod 2 ^ 32 - 2 ^ 31.

Definition add (a b : Z) : Z := wrap (a + b).
Definition sub (a b : Z) : Z := wrap (a - b).
Definition mul (a b : Z) : Z := wrap (a * b).

(** the value stored when an [int] is assigned to an [unsigned char] *)
Definition to_uchar (z : Z) : Z := z mod 256.

Definition in_range (z : Z) : Prop := min_signed <= z <= max_signed.

(** an [unsigned int] argument *)
Definition in_urange (z : Z) : Prop := 0 <= z < 2 ^ 32.

End Int.

(** ** Buffers *)

Section Buffers.

Context {A : Type}.
Variable d : A.

(** [buf[i]]; outside the buffer, where the C program reads whatever
    lies there, the default element by convention *)
Definition rd (buf : list A) (i : Z) : A :=
  if i <? 0 then d else nth (Z.to_nat i) buf d.

(** the list of length [n] whose [i]-th element is [f i] *)
Definition tabulate (n : nat) (f : Z -> A) : list A :=
  map (fun i => f (Z.of_nat i)) (seq 0 n).

(** is [i] one of the [n] positions starting at [off] *)
Definition in_run (off n i : Z) : bool := (off <=? i) && (i <? off + n).

(** [memset(buf + off, c, n)] for a run of positions inside the
    buffer.  By convention a position outside the buffer is not
    written and a negative [n] writes nothing; the C call is undefined
    there, and so for [memcpy], [memmove] and a store below *)
Definition memset (buf : list A) (off : Z) (c : A) (n : Z) : list A :=
  tabulate (length buf) (fun i => if in_run off n i then c else rd buf i).

(** [memcpy(dst + doff, src + soff, n)] *)
Definition memcpy (dst : list A) (doff : Z) (src : list A) (soff n : Z) : list A :=
  tabulate (length dst)
    (fun i => if in_run doff n i then rd src (soff + (i - doff)) else rd dst i).

(** [memmove(buf + doff, buf + soff, n)]: the source bytes are read
    before any is written *)
Definition memmove (buf : list A) (doff soff n : Z) : list A :=
  memcpy buf doff buf soff n.

(** [buf[i] = v] *)
Definition store (buf : list A) (i : Z) (v : A) : list A := memset buf i v 1.

(** [malloc(n)]; the contents of fresh storage are indeterminate and
    every caller overwrites them before use *)
Definition malloc (n : Z) : list A := repeat d (Z.to_nat n).

End Buffers.

#[global] Arguments rd : simpl never.
#[global] Arguments memset : simpl never.
#[global] Arguments memcpy : simpl never.
#[global] Arguments memmove : simpl never.
#[global] Arguments store : simpl never.
#[global] Arguments malloc : simpl never.
#[global] Arguments Int.wrap : simpl never.

(** ** The screen state: [struct term_data] *)

Record term_data : Type := mk_term_data {
  cur_fg_gc_idx : Z;
  cur_bg_gc_idx : Z;
  con_width : Z;
  con_height : Z;
  chbuf : list Z;
  grbuf : list Z;
  cursor_x : Z;
  cursor_y : Z;
  margin_top : Z;
  margin_bottom : Z;
  must_refresh : bool;
  must_refresh_line_buf : list bool
}.

Definition set_cur_fg_gc_idx (t : term_data) (v : Z) : term_data :=
  mk_term_data v (cur_bg_gc_idx t) (con_width t) (con_height t) (chbuf t) (grbuf t)
    (cursor_x t) (cursor_y t) (margin_top t) (margin_bottom t) (must_refresh t)
    (must_refresh_line_buf t).

Definition set_cur_bg_gc_idx (t : term_data) (v : Z) : term_data :=
  mk_term_data (cur_fg_gc_idx t) v (con_width t) (con_height t) (chbuf t) (grbuf t)
    (cursor_x t) (cursor_y t) (margin_top t) (margin_bottom t) (must_refresh t)
    (must_refresh_line_buf t).

Definition set_con_width (t : term_data) (v : Z) : term_data :=
  mk_term_data (cur_fg_gc_idx t) (cur_bg_gc_idx t) v (con_height t) (chbuf t) (grbuf t)
    (cursor_x t) (cursor_y t) (margin_top t) (margin_bottom t) (must_refresh t)
    (must_refresh_line_buf t).

Definition set_con_height (t : term_data) (v : Z) : term_data :=
  mk_term_data (cur_fg_gc_idx t) (cur_bg_gc_idx t) (con_width t) v (chbuf t) (grbuf t)
    (cursor_x t) (cursor_y t) (margin_top t) (margin_bottom t) (must_refresh t)
    (must_refresh_line_buf t).

Definition set_chbuf (t : term_data) (v : list Z) : term_data :=
  mk_term_data (cur_fg_gc_idx t) (cur_bg_gc_idx t) (con_width t) (con_height t) v
    (grbuf t) (cursor_x t) (cursor_y t) (margin_top t) (margin_bottom t) (must_refresh t)
    (must_refresh_line_buf t).

Definition set_grbuf (t : term_data) (v : list Z) : term_data :=
  mk_term_data (cur_fg_gc_idx t) (cur_bg_gc_idx t) (con_width t) (con_height t) (chbuf t)
    v (cursor_x t) (cursor_y t) (margin_top t) (margin_bottom t) (must_refresh t)
    (must_refresh_line_buf t).

Definition set_cursor_x (t : term_data) (v : Z) : term_data :=
  mk_term_data (cur_fg_gc_idx t) (cur_bg_gc_idx t) (con_width t) (con_height t) (chbuf t)
    (grbuf t) v (cursor_y t) (margin_top t) (margin_bottom t) (must_refresh t)
    (must_refresh_line_buf t).

Definition set_cursor_y (t : term_data) (v : Z) : term_data :=
  mk_term_data (cur_fg_gc_idx t) (cur_bg_gc_idx t) (con_width t) (con_height t) (chbuf t)
    (grbuf t) (cursor_x t) v (margin_top t) (margin_bottom t) (must_refresh t)
    (must_refresh_line_buf t).

Definition set_margin_top (t : term_data) (v : Z) : term_data :=
  mk_term_data (cur_fg_gc_idx t) (cur_bg_gc_idx t) (con_width t) (con_height t) (chbuf t)
    (grbuf t) (cursor_x t) (cursor_y t) v (margin_bottom t) (must_refresh t)
    (must_refresh_line_buf t).

Definition set_margin_bottom (t : term_data) (v : Z) : term_data :=
  mk_term_data (cur_fg_gc_idx t) (cur_bg_gc_idx t) (con_width t) (con_height t) (chbuf t)
    (grbuf t) (cursor_x t) (cursor_y t) (margin_top t) v (must_refresh t)
    (must_refresh_line_buf t).

Definition set_must_refresh (t : term_data) (v : bool) : term_data :=
  mk_term_data (cur_fg_gc_idx t) (cur_bg_gc_idx t) (con_width t) (con_height t) (chbuf t)
    (grbuf t) (cursor_x t) (cursor_y t) (margin_top t) (margin_bottom t) v
    (must_refresh_line_buf t).

Definition set_must_refresh_line_buf (t : term_data) (v : list bool) : term_data :=
  mk_term_data (cur_fg_gc_idx t) (cur_bg_gc_idx t) (con_width t) (con_height t) (chbuf t)
    (grbuf t) (cursor_x t) (cursor_y t) (margin_top t) (margin_bottom t) (must_refresh t)
    v.

(** character constants of the source *)
Definition SPACE : Z := 32.
Definition CHAR_E : Z := 69.

(** [NR_MIN_VT102_SCREEN_COLUMNS], [NR_MIN_VT102_SCREEN_ROWS] *)
Definition NR_MIN_VT102_SCREEN_COLUMNS : Z := 10.
Definition NR_MIN_VT102_SCREEN_ROWS : Z := 2.

(** ** Reading the screen, as a renderer does *)

(** the character of the cell in column [x] of row [y] *)
Definition cell_ch (t : term_data) (x y : Z) : Z :=
  rd 0 (chbuf t) (y * con_width t + x).

(** its rendition byte: bits 0..3 foreground, bits 4..7 background *)
Definition cell_gr (t : term_data) (x y : Z) : Z :=
  rd 0 (grbuf t) (y * con_width t + x).

Definition cell_fg (t : term_data) (x y : Z) : Z := Z.land (cell_gr t x y) 15.
Definition cell_bg (t : term_data) (x y : Z) : Z :=
  Z.land (Z.shiftr (cell_gr t x y) 4) 15.

Definition line_dirty (t : term_data) (y : Z) : bool :=
  rd false (must_refresh_line_buf t) y.

(** ** The backend interface functions *)

(** [move_cursor_relative] *)
Definition move_cursor_relative (t : term_data) (dx dy : Z) : term_data :=
  let t := set_cursor_x t (Int.add (cursor_x t) dx) in
  let t := set_cursor_y t (Int.add (cursor_y t) dy) in
  (* normalize cursor position - make sure it is in bounds *)
  let t := set_cursor_x t (if cursor_x t <? 0 then 0 else cursor_x t) in
  let t := set_cursor_y t (if cursor_y t <? margin_top t then margin_top t
                           else cursor_y t) in
  let t := set_cursor_x t (if con_width t <=? cursor_x t
                           then Int.sub (con_width t) 1 else cursor_x t) in
  let t := set_cursor_y t (if margin_bottom t <? cursor_y t then margin_bottom t
                           else cursor_y t) in
  set_must_refresh t true.

(** [move_cursor_absolute] *)
Definition move_cursor_absolute (t : term_data) (x y : Z) : term_data :=
  let t := set_cursor_x t x in
  let t := set_cursor_y t y in
  (* normalize cursor position - make sure it is in bounds *)
  let t := set_cursor_x t (if cursor_x t <? 0 then 0 else cursor_x t) in
  let t := set_cursor_y t (if cursor_y t <? margin_top t then margin_top t
                           else cursor_y t) in
  let t := set_cursor_x t (if Int.sub (con_width t) 1 <? cursor_x t
                           then Int.sub (con_width t) 1 else cursor_x t) in
  let t := set_cursor_y t (if margin_bottom t <? cursor_y t then margin_bottom t
                           else cursor_y t) in
  set_must_refresh t true.

(** [move_cursor_column_absolute] *)
Definition move_cursor_column_absolute (t : term_data) (x : Z) : term_data :=
  move_cursor_absolute t x (cursor_y t).

(** [handle_linefeed] *)
Definition handle_linefeed (t : term_data) : term_data :=
  let t :=
    if cursor_y t =? margin_bottom t then
      (* scroll up *)
      let dst := Int.mul (margin_top t) (con_width t) in
      let src := Int.mul (Int.add (margin_top t) 1) (con_width t) in
      let n := Int.mul (Int.sub (margin_bottom t) (margin_top t)) (con_width t) in
      let t := set_chbuf t (memmove 0 (chbuf t) dst src n) in
      let t := set_grbuf t (memmove 0 (grbuf t) dst src n) in
      let t := set_chbuf t
                 (memset 0 (chbuf t) (Int.mul (margin_bottom t) (con_width t)) SPACE
                    (con_width t)) in
      let t := set_grbuf t
                 (memset 0 (grbuf t) (Int.mul (margin_bottom t) (con_width t)) 0
                    (con_width t)) in
      set_must_refresh_line_buf t
        (memset false (must_refresh_line_buf t) (margin_top t) true
           (Int.add (Int.sub (margin_bottom t) (margin_top t)) 1))
    else t in
  let t := move_cursor_absolute t (cursor_x t) (Int.add (cursor_y t) 1) in
  set_must_refresh t true.

(** [display_char]; [None] is the write through the null pointer.  The
    line feed at the bottom of the screen is the [handle_linefeed] of
    the operations table. *)
Definition display_char (t : term_data) (ch : Z) : option term_data :=
  if con_width t <=? cursor_x t then None
  else if con_height t <=? cursor_y t then None
  else
    let cx := cursor_x t in
    let cy := cursor_y t in
    let idx := Int.add (Int.mul cy (con_width t)) cx in
    let t := set_chbuf t (store 0 (chbuf t) idx (Int.to_uchar ch)) in
    let gr := Z.lor (cur_fg_gc_idx t) (Int.wrap (Z.shiftl (cur_bg_gc_idx t) 4)) in
    let t := set_grbuf t (store 0 (grbuf t) idx (Int.to_uchar gr)) in
    (* schedule this line for updating *)
    let t := set_must_refresh_line_buf t
               (store false (must_refresh_line_buf t) cy true) in
    (* advance cursor *)
    let t := set_cursor_x t (Int.add (cursor_x t) 1) in
    let t :=
      if cursor_x t =? con_width t then
        let t := set_cursor_x t 0 in
        let t := set_cursor_y t (Int.add (cursor_y t) 1) in
        if cursor_y t =? con_height t then
          let t := set_cursor_y t (Int.sub (cursor_y t) 1) in
          handle_linefeed t
        else
          set_must_refresh_line_buf t
            (store false (must_refresh_line_buf t) (Int.add cy 1) true)
      else t in
    Some (set_must_refresh t true).

(** [erase_line_at_cursor] *)
Definition erase_line_at_cursor (t : term_data) : term_data :=
  let off := Int.mul (cursor_y t) (con_width t) in
  let t := set_chbuf t (memset 0 (chbuf t) off SPACE (con_width t)) in
  let t := set_grbuf t (memset 0 (grbuf t) off 0 (con_width t)) in
  let t := set_must_refresh_line_buf t
             (store false (must_refresh_line_buf t) (cursor_y t) true) in
  set_must_refresh t true.

(** [erase_line_from_beginning_to_cursor] *)
Definition erase_line_from_beginning_to_cursor (t : term_data) : term_data :=
  let off := Int.mul (cursor_y t) (con_width t) in
  let n := Int.add (cursor_x t) 1 in
  let t := set_chbuf t (memset 0 (chbuf t) off SPACE n) in
  let t := set_grbuf t (memset 0 (grbuf t) off 0 n) in
  let t := set_must_refresh_line_buf t
             (store false (must_refresh_line_buf t) (cursor_y t) true) in
  set_must_refresh t true.

(** [erase_line_from_cursor_to_end] *)
Definition erase_line_from_cursor_to_end (t : term_data) : term_data :=
  let off := Int.mul (cursor_y t) (con_width t) + cursor_x t in
  let n := Int.sub (con_width t) (cursor_x t) in
  let t := set_chbuf t (memset 0 (chbuf t) off SPACE n) in
  let t := set_grbuf t (memset 0 (grbuf t) off 0 n) in
  let t := set_must_refresh_line_buf t
             (store false (must_refresh_line_buf t) (cursor_y t) true) in
  set_must_refresh t true.

(** [erase_display] *)
Definition erase_display (t : term_data) : term_data :=
  let n := Int.mul (con_height t) (con_width t) in
  let t := set_chbuf t (memset 0 (chbuf t) 0 SPACE n) in
  let t := set_grbuf t (memset 0 (grbuf t) 0 0 n) in
  let t := set_must_refresh_line_buf t
             (memset false (must_refresh_line_buf t) 0 true (con_height t)) in
  set_must_refresh t true.

(** [erase_display_from_beginning_to_cursor] *)
Definition erase_display_from_beginning_to_cursor (t : term_data) : term_data :=
  let n := Int.add (Int.add (Int.mul (cursor_y t) (con_width t)) (cursor_x t)) 1 in
  let t := set_chbuf t (memset 0 (chbuf t) 0 SPACE n) in
  let t := set_grbuf t (memset 0 (grbuf t) 0 0 n) in
  let t := set_must_refresh_line_buf t
             (memset false (must_refresh_line_buf t) 0 true (Int.add (cursor_y t) 1)) in
  (* erase (the part of) the line containing the cursor *)
  let t := erase_line_from_beginning_to_cursor t in
  set_must_refresh t true.

(** [erase_display_from_cursor_to_end] *)
Definition erase_display_from_cursor_to_end (t : term_data) : term_data :=
  let off := Int.mul (cursor_y t) (con_width t) + cursor_x t in
  let n := Int.sub (Int.mul (con_width t) (con_height t))
             (Int.add (Int.mul (cursor_y t) (con_width t)) (cursor_x t)) in
  let t := set_chbuf t (memset 0 (chbuf t) off SPACE n) in
  let t := set_grbuf t (memset 0 (grbuf t) off 0 n) in
  let t := set_must_refresh_line_buf t
             (memset false (must_refresh_line_buf t) (cursor_y t) true
                (Int.sub (con_height t) (cursor_y t))) in
  (* erase (the part of) the line containing the cursor *)
  let t := erase_line_from_cursor_to_end t in
  set_must_refresh t true.

(** [handle_backspace] *)
Definition handle_backspace (t : term_data) : term_data :=
  set_must_refresh (move_cursor_relative t (-1) 0) true.

(** the loop [while (i--) display_char(tdata, ' ', state)] *)
Fixpoint display_spaces (i : nat) (t : term_data) : option term_data :=
  match i with
  | O => Some t
  | S i' =>
      match display_char t SPACE with
      | None => None
      | Some t' => display_spaces i' t'
      end
  end.

(** the number of columns to the next tab stop:
    [((cursor_x + 8) & ~ 7) - cursor_x] *)
Definition tab_distance (t : term_data) : Z :=
  Int.sub (Z.land (Int.add (cursor_x t) 8) (Z.lnot 7)) (cursor_x t).

(** [handle_horiz_tab]; the characters go through the [display_char]
    of the operations table *)
Definition handle_horiz_tab (t : term_data) : option term_data :=
  match display_spaces (Z.to_nat (tab_distance t)) t with
  | None => None
  | Some t' => Some (set_must_refresh t' true)
  end.

(** [handle_carriage_return] *)
Definition handle_carriage_return (t : term_data) : term_data :=
  set_must_refresh (move_cursor_absolute t 0 (cursor_y t)) true.

(** [set_top_and_bottom_margins] *)
Definition set_top_and_bottom_margins (t : term_data) (top bottom : Z) : term_data :=
  (* normalize parameters *)
  let top := if top <? 0 then 0 else top in
  let top := if Int.sub (con_height t) 2 <=? top then Int.sub (con_height t) 2 else top in
  let bottom := if bottom <=? top then Int.add top 1 else bottom in
  let bottom := if Int.sub (con_height t) 1 <=? bottom
                then Int.sub (con_height t) 1 else bottom in
  let t := set_margin_top t top in
  set_margin_bottom t bottom.

(** [insert_lines_at_cursor]; with the cursor in the scrolling region a
    count that is negative, or overflows [cursor_y + nr_lines], makes
    the C code pass a negative length to [memmove] or [memset]:
    [line_count_ok] says which counts do not *)
Definition insert_lines_at_cursor (t : term_data) (nr_lines : Z) : term_data :=
  if negb ((margin_top t <=? cursor_y t) && (cursor_y t <=? margin_bottom t)) then
    (* cursor outside of scrolling region - do nothing *)
    t
  else
    (* compute destination line number *)
    let i := Int.add (cursor_y t) nr_lines in
    let '(t, nr_lines) :=
      if margin_bottom t <? i then
        (t, Int.add (Int.sub (margin_bottom t) (cursor_y t)) 1)
      else
        (* move lines *)
        let dst := Int.mul i (con_width t) in
        let src := Int.mul (cursor_y t) (con_width t) in
        let n := Int.mul (Int.add (Int.sub (margin_bottom t) i) 1) (con_width t) in
        let t := set_chbuf t (memmove 0 (chbuf t) dst src n) in
        let t := set_grbuf t (memmove 0 (grbuf t) dst src n) in
        (t, nr_lines) in
    let off := Int.mul (cursor_y t) (con_width t) in
    let n := Int.mul nr_lines (con_width t) in
    let t := set_chbuf t (memset 0 (chbuf t) off SPACE n) in
    let t := set_grbuf t (memset 0 (grbuf t) off 0 n) in
    let t := set_must_refresh_line_buf t
               (memset false (must_refresh_line_buf t) (cursor_y t) true
                  (Int.add (Int.sub (margin_bottom t) (cursor_y t)) 1)) in
    set_must_refresh t true.

(** [delete_lines_at_cursor]; the line count as for
    [insert_lines_at_cursor] *)
Definition delete_lines_at_cursor (t : term_data) (nr_lines : Z) : term_data :=
  if negb ((margin_top t <=? cursor_y t) && (cursor_y t <=? margin_bottom t)) then
    (* cursor outside of scrolling region - do nothing *)
    t
  else
    (* compute source line number *)
    let i := Int.add (cursor_y t) nr_lines in
    let '(t, nr_lines) :=
      if margin_bottom t <? i then
        (t, Int.add (Int.sub (margin_bottom t) (cursor_y t)) 1)
      else
        (* move lines *)
        let dst := Int.mul (cursor_y t) (con_width t) in
        let src := Int.mul i (con_width t) in
        let n := Int.mul (Int.add (Int.sub (margin_bottom t) i) 1) (con_width t) in
        let t := set_chbuf t (memmove 0 (chbuf t) dst src n) in
        let t := set_grbuf t (memmove 0 (grbuf t) dst src n) in
        (t, nr_lines) in
    let off := Int.mul (Int.add (Int.sub (margin_bottom t) nr_lines) 1) (con_width t) in
    let n := Int.mul nr_lines (con_width t) in
    let t := set_chbuf t (memset 0 (chbuf t) off SPACE n) in
    let t := set_grbuf t (memset 0 (grbuf t) off 0 n) in
    let t := set_must_refresh_line_buf t
               (memset false (must_refresh_line_buf t) (cursor_y t) true
                  (Int.add (Int.sub (margin_bottom t) (cursor_y t)) 1)) in
    set_must_refresh t true.

(** [delete_characters_at_cursor]; only [chbuf] is touched *)
Definition delete_characters_at_cursor (t : term_data) (nr_characters : Z) : term_data :=
  if nr_characters <=? 0 then t
  else
    let i := Int.sub (con_width t) (cursor_x t) in
    let nr_characters := if i <? nr_characters then i else nr_characters in
    let row := Int.mul (cursor_y t) (con_width t) in
    let t := set_chbuf t
               (memmove 0 (chbuf t) (row + cursor_x t)
                  (row + cursor_x t + nr_characters) (Int.sub i nr_characters)) in
    let t := set_chbuf t
               (memset 0 (chbuf t)
                  (Int.mul (Int.add (cursor_y t) 1) (con_width t) - nr_characters)
                  SPACE nr_characters) in
    let t := set_must_refresh_line_buf t
               (store false (must_refresh_line_buf t) (cursor_y t) true) in
    set_must_refresh t true.

(** [cursor_reverse_index]; the vacated rendition row is filled with
    [' '] and the cursor moves by [(cursor_x, -1)], as the source has it *)
Definition cursor_reverse_index (t : term_data) : term_data :=
  let t :=
    if cursor_y t =? margin_top t then
      (* scroll down *)
      let dst := Int.mul (Int.add (margin_top t) 1) (con_width t) in
      let src := Int.mul (margin_top t) (con_width t) in
      let n := Int.mul (Int.sub (margin_bottom t) (margin_top t)) (con_width t) in
      let t := set_chbuf t (memmove 0 (chbuf t) dst src n) in
      let t := set_grbuf t (memmove 0 (grbuf t) dst src n) in
      let t := set_chbuf t (memset 0 (chbuf t) src SPACE (con_width t)) in
      let t := set_grbuf t (memset 0 (grbuf t) src SPACE (con_width t)) in
      set_must_refresh_line_buf t
        (memset false (must_refresh_line_buf t) (margin_top t) true
           (Int.add (Int.sub (margin_bottom t) (margin_top t)) 1))
    else t in
  let t := move_cursor_relative t (cursor_x t) (-1) in
  set_must_refresh t true.

(** the body of the [switch] of [select_graphic_rendition] for one
    parameter (an [unsigned int]); the [fprintf] of the default case
    and of case 7, which falls through to it, leaves the state alone *)
Definition sgr_param (t : term_data) (p : Z) : term_data :=
  if p =? 0 then
    (* revert to default *)
    set_cur_bg_gc_idx (set_cur_fg_gc_idx t 7) 0
  else if (30 <=? p) && (p <=? 37) then
    set_cur_fg_gc_idx t (Int.wrap ((p - 30) mod 2 ^ 32))
  else if p =? 39 then set_cur_fg_gc_idx t 7
  else if (40 <=? p) && (p <=? 47) then
    set_cur_bg_gc_idx t (Int.wrap ((p - 40) mod 2 ^ 32))
  else if p =? 49 then set_cur_bg_gc_idx t 0
  else if p =? 7 then
    (* negative image *)
    let tmp := cur_bg_gc_idx t in
    let t := set_cur_bg_gc_idx t (cur_fg_gc_idx t) in
    set_cur_fg_gc_idx t tmp
  else t.

(** [select_graphic_rendition]: the parameters [cmd_params[0]] to
    [cmd_params[nr_params - 1]], in order *)
Definition select_graphic_rendition (t : term_data) (cmd_params : list Z)
    (nr_params : Z) : term_data :=
  fold_left sgr_param (firstn (Z.to_nat nr_params) cmd_params) t.

(** [init_vt102_generic_backend]; the command parser it also creates
    holds no screen state.  The allocations are taken to succeed,
    which asks for a number of cells [width * height] that is an
    [int]: [reachable_init] and the theorems on creation carry that
    condition *)
Definition init_vt102_generic_backend (width height : Z) : term_data :=
  (* sanity checks *)
  let width := if width <? NR_MIN_VT102_SCREEN_COLUMNS
               then NR_MIN_VT102_SCREEN_COLUMNS else width in
  let height := if height <? NR_MIN_VT102_SCREEN_ROWS
                then NR_MIN_VT102_SCREEN_ROWS else height in
  let size := Int.mul width height in
  {| cur_fg_gc_idx := 7;
     cur_bg_gc_idx := 0;
     con_width := width;
     con_height := height;
     chbuf := memset 0 (malloc 0 size) 0 CHAR_E size;
     grbuf := memset 0 (malloc 0 size) 0 0 size;
     cursor_x := 0;
     cursor_y := 0;
     margin_top := 0;
     margin_bottom := Int.sub height 1;
     must_refresh := true;
     must_refresh_line_buf := memset false (malloc false height) 0 true height |}.

(** the loop of [vt102_generic_backend_resize_buffers] that copies
    [w] bytes of each of the rows [i], [i + 1], ... of the old buffer
    into the new one; [rows] is the number of rows left *)
Fixpoint copy_rows (rows : nat) (i : Z) (new_buf : list Z) (new_width : Z)
    (old_buf : list Z) (old_width w : Z) : list Z :=
  match rows with
  | O => new_buf
  | S rows' =>
      copy_rows rows' (Int.add i 1)
        (memcpy 0 new_buf (Int.mul i new_width) old_buf (Int.mul i old_width) w)
        new_width old_buf old_width w
  end.

(** [realloc(buf, n)] *)
Definition realloc {A : Type} (d : A) (buf : list A) (n : Z) : list A :=
  firstn (Z.to_nat n) buf ++ repeat d (Z.to_nat n - length buf).

(** [vt102_generic_backend_resize_buffers]; the allocations are taken
    to succeed, as in [init_vt102_generic_backend]: [op_fits] is the
    condition on the new size *)
Definition vt102_generic_backend_resize_buffers (t : term_data)
    (new_width new_height : Z) : term_data :=
  (* sanity checks *)
  let new_width := if new_width <? NR_MIN_VT102_SCREEN_COLUMNS
                   then NR_MIN_VT102_SCREEN_COLUMNS else new_width in
  let new_height := if new_height <? NR_MIN_VT102_SCREEN_ROWS
                    then NR_MIN_VT102_SCREEN_ROWS else new_height in
  let size := Int.mul new_width new_height in
  let new_chbuf := memset 0 (malloc 0 size) 0 SPACE size in
  let new_grbuf := memset 0 (malloc 0 size) 0 0 size in
  let t := set_must_refresh_line_buf t
             (realloc false (must_refresh_line_buf t) new_height) in
  (* retain the previous console window contents *)
  let w := if new_width <? con_width t then new_width else con_width t in
  let h := if new_height <? con_height t then new_height else con_height t in
  let new_chbuf :=
    copy_rows (Z.to_nat h) 0 new_chbuf new_width (chbuf t) (con_width t) w in
  let new_grbuf :=
    copy_rows (Z.to_nat h) 0 new_grbuf new_width (grbuf t) (con_width t) w in
  let t := set_chbuf t new_chbuf in
  let t := set_grbuf t new_grbuf in
  let t := set_must_refresh_line_buf t
             (memset false (must_refresh_line_buf t) 0 true new_height) in
  let t := set_must_refresh t true in
  let t := set_con_width t new_width in
  let t := set_con_height t new_height in
  let t := set_cursor_x t (if con_width t <=? cursor_x t
                           then Int.sub (con_width t) 1 else cursor_x t) in
  let t := set_cursor_y t (if con_height t <=? cursor_y t
                           then Int.sub (con_height t) 1 else cursor_y t) in
  let t := set_margin_top t 0 in
  set_margin_bottom t (Int.sub (con_height t) 1).

(** ** Runs of backend operations *)

Inductive backend_op : Type :=
| OpDisplayChar (ch : Z)
| OpSelectGraphicRendition (cmd_params : list Z) (nr_params : Z)
| OpMoveCursorRelative (dx dy : Z)
| OpMoveCursorAbsolute (x y : Z)
| OpMoveCursorColumnAbsolute (x : Z)
| OpCursorReverseIndex
| OpEraseLineAtCursor
| OpEraseLineFromBeginningToCursor
| OpEraseLineFromCursorToEnd
| OpEraseDisplay
| OpEraseDisplayFromBeginningToCursor
| OpEraseDisplayFromCursorToEnd
| OpInsertLinesAtCursor (nr_lines : Z)
| OpDeleteLinesAtCursor (nr_lines : Z)
| OpDeleteCharactersAtCursor (nr_characters : Z)
| OpHandleBackspace
| OpHandleHorizTab
| OpHandleLinefeed
| OpHandleCarriageReturn
| OpSetTopAndBottomMargins (top bottom : Z)
| OpResizeBuffers (new_width new_height : Z).

(** the arguments are values of their C types; which of these values a
    call can take without leaving the buffers is said by [op_fits] and
    [line_count_ok] *)
Definition op_args_ok (o : backend_op) : Prop :=
  match o with
  | OpDisplayChar ch => Int.in_urange ch
  | OpSelectGraphicRendition ps n => Forall Int.in_urange ps /\ Int.in_range n
  | OpMoveCursorRelative a b
  | OpMoveCursorAbsolute a b
  | OpSetTopAndBottomMargins a b
  | OpResizeBuffers a b => Int.in_range a /\ Int.in_range b
  | OpMoveCursorColumnAbsolute a
  | OpInsertLinesAtCursor a
  | OpDeleteLinesAtCursor a
  | OpDeleteCharactersAtCursor a => Int.in_range a
  | _ => True
  end.

(** the screen a resize asks for has an [int] number of cells *)
Definition op_fits (o : backend_op) : Prop :=
  match o with
  | OpResizeBuffers new_width new_height =>
      Z.max new_width NR_MIN_VT102_SCREEN_COLUMNS
      * Z.max new_height NR_MIN_VT102_SCREEN_ROWS <= Int.max_signed
  | _ => True
  end.

(** the line count of an insertion or deletion is not negative and
    adding it to the cursor row cannot overflow *)
Definition line_count_ok (o : backend_op) (t : term_data) : Prop :=
  match o with
  | OpInsertLinesAtCursor n | OpDeleteLinesAtCursor n =>
      0 <= n /\ cursor_y t + n <= Int.max_signed
  | _ => True
  end.

(** the call [o] can be made in state [t]: its arguments are values of
    their C types, and on a well-formed [t] every buffer access it
    makes lies inside the buffers *)
Definition call_ok (o : backend_op) (t : term_data) : Prop :=
  op_args_ok o /\ op_fits o /\ line_count_ok o t.

(** one call into the backend; [None] is the null-pointer write of
    [display_char].  Where the C program leaves its buffers, in a call
    that is not [call_ok] or in a state that is not well formed, the
    value is the convention of the buffer functions; [reachable] and
    [run_ok] below keep to the calls that stay inside *)
Definition step (o : backend_op) (t : term_data) : option term_data :=
  match o with
  | OpDisplayChar ch => display_char t ch
  | OpSelectGraphicRendition ps n => Some (select_graphic_rendition t ps n)
  | OpMoveCursorRelative dx dy => Some (move_cursor_relative t dx dy)
  | OpMoveCursorAbsolute x y => Some (move_cursor_absolute t x y)
  | OpMoveCursorColumnAbsolute x => Some (move_cursor_column_absolute t x)
  | OpCursorReverseIndex => Some (cursor_reverse_index t)
  | OpEraseLineAtCursor => Some (erase_line_at_cursor t)
  | OpEraseLineFromBeginningToCursor => Some (erase_line_from_beginning_to_cursor t)
  | OpEraseLineFromCursorToEnd => Some (erase_line_from_cursor_to_end t)
  | OpEraseDisplay => Some (erase_display t)
  | OpEraseDisplayFromBeginningToCursor => Some (erase_display_from_beginning_to_cursor t)
  | OpEraseDisplayFromCursorToEnd => Some (erase_display_from_cursor_to_end t)
  | OpInsertLinesAtCursor n => Some (insert_lines_at_cursor t n)
  | OpDeleteLinesAtCursor n => Some (delete_lines_at_cursor t n)
  | OpDeleteCharactersAtCursor n => Some (delete_characters_at_cursor t n)
  | OpHandleBackspace => Some (handle_backspace t)
  | OpHandleHorizTab => handle_horiz_tab t
  | OpHandleLinefeed => Some (handle_linefeed t)
  | OpHandleCarriageReturn => Some (handle_carriage_return t)
  | OpSetTopAndBottomMargins top bottom => Some (set_top_and_bottom_margins t top bottom)
  | OpResizeBuffers w h => Some (vt102_generic_backend_resize_buffers t w h)
  end.

(** the states a terminal can be in: created by
    [init_vt102_generic_backend] with a screen whose number of cells is
    an [int], then driven by backend calls that stay inside the
    buffers and return *)
Inductive reachable : term_data -> Prop :=
| reachable_init (width height : Z) :
    Int.in_range width -> Int.in_range height ->
    Z.max width NR_MIN_VT102_SCREEN_COLUMNS * Z.max height NR_MIN_VT102_SCREEN_ROWS
    <= Int.max_signed ->
    reachable (init_vt102_generic_backend width height)
| reachable_step (o : backend_op) (t t' : term_data) :
    reachable t -> call_ok o t -> step o t = Some t' -> reachable t'.

(** a run of operations, stopping at the first that crashes *)
Fixpoint run (ops : list backend_op) (t : term_data) : option term_data :=
  match ops with
  | [] => Some t
  | o :: ops' =>
      match step o t with
      | None => None
      | Some t' => run ops' t'
      end
  end.


(** ** Invariants of the screen state *)

(** the geometry is that of a screen and the cursor is on it *)
Record cursor_inv (t : term_data) : Prop := mk_cursor_inv {
  inv_width : NR_MIN_VT102_SCREEN_COLUMNS <= con_width t <= Int.max_signed;
  inv_height : NR_MIN_VT102_SCREEN_ROWS <= con_height t <= Int.max_signed;
  inv_margin_top : 0 <= margin_top t < margin_bottom t;
  inv_margin_bottom : margin_bottom t <= con_height t - 1;
  inv_cursor_x : 0 <= cursor_x t < con_width t;
  inv_cursor_y : 0 <= cursor_y t < con_height t
}.

(** moreover the buffers have the size of the screen, and that size is
    an [int] *)
Record wf (t : term_data) : Prop := mk_wf {
  wf_cursor : cursor_inv t;
  wf_size : con_width t * con_height t <= Int.max_signed;
  wf_chbuf : Z.of_nat (length (chbuf t)) = con_width t * con_height t;
  wf_grbuf : Z.of_nat (length (grbuf t)) = con_width t * con_height t;
  wf_lines : Z.of_nat (length (must_refresh_line_buf t)) = con_height t
}.

(** the dimensions and the buffer sizes of [t'] are those of [t] *)
Definition same_shape (t t' : term_data) : Prop :=
  con_width t' = con_width t /\ con_height t' = con_height t /\
  length (chbuf t') = length (chbuf t) /\
  length (grbuf t') = length (grbuf t) /\
  length (must_refresh_line_buf t') = length (must_refresh_line_buf t).

(** ** The erase operations and their documented ranges *)

Inductive erase_op : Type :=
| EraseLineAtCursor
| EraseLineFromBeginningToCursor
| EraseLineFromCursorToEnd
| EraseDisplay
| EraseDisplayFromBeginningToCursor
| EraseDisplayFromCursorToEnd.

Definition erase (e : erase_op) (t : term_data) : term_data :=
  match e with
  | EraseLineAtCursor => erase_line_at_cursor t
  | EraseLineFromBeginningToCursor => erase_line_from_beginning_to_cursor t
  | EraseLineFromCursorToEnd => erase_line_from_cursor_to_end t
  | EraseDisplay => erase_display t
  | EraseDisplayFromBeginningToCursor => erase_display_from_beginning_to_cursor t
  | EraseDisplayFromCursorToEnd => erase_display_from_cursor_to_end t
  end.

(** the range each operation is documented to erase (vt102.h): is the
    cell in column [x] of row [y] in it *)
Definition documented_range (e : erase_op) (t : term_data) (x y : Z) : bool :=
  match e with
  | EraseLineAtCursor => y =? cursor_y t
  | EraseLineFromBeginningToCursor => (y =? cursor_y t) && (x <=? cursor_x t)
  | EraseLineFromCursorToEnd => (y =? cursor_y t) && (cursor_x t <=? x)
  | EraseDisplay => true
  | EraseDisplayFromBeginningToCursor =>
      (y <? cursor_y t) || ((y =? cursor_y t) && (x <=? cursor_x t))
  | EraseDisplayFromCursorToEnd =>
      (cursor_y t <? y) || ((y =? cursor_y t) && (cursor_x t <=? x))
  end.

(** ** The parameters [select_graphic_rendition] acts on *)

Definition sgr_recognized (p : Z) : bool :=
  (p =? 0) || (p =? 7) || ((30 <=? p) && (p <=? 37)) || (p =? 39)
  || ((40 <=? p) && (p <=? 47)) || (p =? 49).

(** ** Sample screens *)

(** a fresh 80 x 24 screen, as qterm.c creates it *)
Definition screen_80_24 : term_data := init_vt102_generic_backend 80 24.

(** the same with the cursor in column 3 of row 5 *)
Definition screen_cursor_3_5 : term_data := move_cursor_absolute screen_80_24 3 5.

(** a fresh 10 x 2 screen *)
Definition screen_10_2 : term_data := init_vt102_generic_backend 10 2.

(** a 10 x 2 screen showing a red-on-blue [A] followed by [B] and [C]
    in the default rendition, the cursor back on the [A] *)
Definition screen_abc : option term_data :=
  run [OpSelectGraphicRendition [31; 44] 2; OpDisplayChar 65;
       OpSelectGraphicRendition [0] 1; OpDisplayChar 66; OpDisplayChar 67;
       OpMoveCursorAbsolute 0 0] screen_10_2.

(** an 80 x 24 screen with the scrolling region set to rows 0 and 1
    while the cursor is on row 5 *)
Definition screen_cursor_below_region : term_data :=
  set_top_and_bottom_margins screen_cursor_3_5 0 1.

(** ** Rendition bytes *)

(** a rendition byte whose two colour indices are ANSI colours 0..7 *)
Definition rendition_ok (b : Z) : bool :=
  (0 <=? b) && (b <? 256) && (Z.land b 15 <=? 7) && (Z.land (Z.shiftr b 4) 15 <=? 7).

(** the current colours and every stored rendition are ANSI colours *)
Definition palette_ok (t : term_data) : Prop :=
  0 <= cur_fg_gc_idx t <= 7 /\ 0 <= cur_bg_gc_idx t <= 7 /\
  Forall (fun b => rendition_ok b = true) (grbuf t).

(** ** Refresh tracking *)

(** [t'] has the dimensions of [t], and every row it leaves unflagged
    was unflagged in [t] and has its cells as in [t] *)
Definition tracked (t t' : term_data) : Prop :=
  con_width t' = con_width t /\ con_height t' = con_height t /\
  forall y, 0 <= y < con_height t -> line_dirty t' y = false ->
    line_dirty t y = false /\
    forall x, 0 <= x < con_width t ->
      cell_ch t' x y = cell_ch t x y /\ cell_gr t' x y = cell_gr t x y.


(** ** The renderer of qterm.c and term3.c *)

(** one call of [update_term_pixmap_stride]: [text_len] characters
    [text], drawn from column [x] of row [y] on with the colours
    [fg_gc_idx] and [bg_gc_idx].  What the X library paints for it is
    outside the program. *)
Record stride : Type := mk_stride {
  stride_x : Z;
  stride_y : Z;
  stride_fg_gc_idx : Z;
  stride_bg_gc_idx : Z;
  stride_text : list Z;
  stride_text_len : Z
}.

(** the [n] bytes at [buf + off] *)
Definition bytes_at (buf : list Z) (off n : Z) : list Z :=
  tabulate (Z.to_nat n) (fun i => rd 0 buf (off + i)).

(** [update_term_pixmap_stride]: the drawing request, and the state
    with [must_refresh] set *)
Definition update_term_pixmap_stride (t : term_data) (x y fg_gc_idx bg_gc_idx : Z)
    (text : list Z) (text_len : Z) : stride * term_data :=
  (mk_stride x y fg_gc_idx bg_gc_idx text text_len, set_must_refresh t true).

(** the loop [for (k = j + 1; k < con_width; k++)] of
    [update_term_pixmap], which stops at the first rendition byte of
    row [i] that differs from [grdata]; [None] when [fuel] iterations
    do not reach the end of the loop *)
Fixpoint stride_end (fuel : nat) (t : term_data) (i k grdata : Z) : option Z :=
  match fuel with
  | O => None
  | S fuel' =>
      if k <? con_width t then
        if negb (rd 0 (grbuf t) (Int.add (Int.mul i (con_width t)) k) =? grdata)
        then Some k
        else stride_end fuel' t i (Int.add k 1) grdata
      else Some k
  end.

(** the loop [for (j = 0; j < con_width; j = k)] over the strides of
    row [i], from column [j] on *)
Fixpoint update_row (fuel : nat) (t : term_data) (i j : Z)
    : option (list stride * term_data) :=
  match fuel with
  | O => None
  | S fuel' =>
      if j <? con_width t then
        let grdata := rd 0 (grbuf t) (Int.add (Int.mul i (con_width t)) j) in
        match stride_end fuel t i (Int.add j 1) grdata with
        | None => None
        | Some k =>
            let '(s, t) :=
              update_term_pixmap_stride t j i (Z.land grdata 7)
                (Z.land (Z.shiftr grdata 4) 7)
                (bytes_at (chbuf t) (Int.mul i (con_width t) + j) (Int.sub k j))
                (Int.sub k j) in
            match update_row fuel' t i k with
            | None => None
            | Some (ss, t) => Some (s :: ss, t)
            end
        end
      else Some ([], t)
  end.

(** the loop [for (i = 0; i < con_height; i++)] of
    [update_term_pixmap], with [rows] rows left *)
Fixpoint update_rows (rows fuel : nat) (t : term_data) (i : Z)
    : option (list stride * term_data) :=
  match rows with
  | O => Some ([], t)
  | S rows' =>
      if negb (rd false (must_refresh_line_buf t) i) then
        update_rows rows' fuel t (Int.add i 1)
      else
        match update_row fuel t i 0 with
        | None => None
        | Some (ss, t) =>
            let t := set_must_refresh_line_buf t
                       (store false (must_refresh_line_buf t) i false) in
            match update_rows rows' fuel t (Int.add i 1) with
            | None => None
            | Some (ss', t) => Some (ss ++ ss', t)
            end
        end
  end.

(** [update_term_pixmap]: the drawing requests in the order they are
    made and the state left behind; a row has at most [con_width]
    strides *)
Definition update_term_pixmap (t : term_data) : option (list stride * term_data) :=
  update_rows (Z.to_nat (con_height t)) (S (Z.to_nat (con_width t))) t 0.

(** column [x] of row [y] is one of the cells stride [s] draws *)
Definition covers (s : stride) (x y : Z) : Prop :=
  stride_y s = y /\ stride_x s <= x < stride_x s + stride_text_len s.

(** stride [s] is a maximal run of cells of one rendition in a row of
    the screen [t], with the characters of these cells as its text and
    the colours of the rendition masked to 0..7 *)
Record stride_of (t : term_data) (s : stride) : Prop := mk_stride_of {
  stride_row : 0 <= stride_y s < con_height t;
  stride_columns :
    0 <= stride_x s /\ 0 < stride_text_len s /\
    stride_x s + stride_text_len s <= con_width t;
  stride_length : Z.of_nat (length (stride_text s)) = stride_text_len s;
  stride_cells :
    forall x, stride_x s <= x < stride_x s + stride_text_len s ->
      rd 0 (stride_text s) (x - stride_x s) = cell_ch t x (stride_y s) /\
      stride_fg_gc_idx s = Z.land (cell_gr t x (stride_y s)) 7 /\
      stride_bg_gc_idx s = Z.land (Z.shiftr (cell_gr t x (stride_y s)) 4) 7;
  stride_maximal :
    stride_x s + stride_text_len s < con_width t ->
    cell_gr t (stride_x s + stride_text_len s) (stride_y s)
    <> cell_gr t (stride_x s) (stride_y s)
}.

(** the branch of the main loop taken when the refresh timeout
    elapses: [update_term_pixmap], then [must_refresh = false]; the
    copy of the canvas to the window and the cursor rectangle drawn in
    between are requests to the X library that leave the state alone *)
Definition refresh (t : term_data) : option (list stride * term_data) :=
  match update_term_pixmap t with
  | Some (ss, t) => Some (ss, set_must_refresh t false)
  | None => None
  end.

(** ** Further sample screens *)

(** a 10 x 2 screen with the cursor in its bottom right corner *)
Definition screen_corner : term_data := move_cursor_absolute screen_10_2 9 1.

(** a 10 x 3 screen with the cursor in its bottom right corner and the
    scrolling region set to rows 0 and 1 *)
Definition screen_corner_below_region : term_data :=
  set_top_and_bottom_margins
    (move_cursor_absolute (init_vt102_generic_backend 10 3) 9 2) 0 1.

(** the 10 x 2 screen after a refresh *)
Definition screen_refreshed : term_data :=
  match refresh screen_10_2 with
  | Some (_, t) => t
  | None => screen_10_2
  end.

(** * Properties *)

(** ** Machine integers *)

Lemma wrap_in_range (z : Z) : Int.in_range (Int.wrap z).
Proof.
  unfold Int.in_range, Int.wrap, Int.min_signed, Int.max_signed.
  pose proof (Z.mod_pos_bound (z + 2 ^ 31) (2 ^ 32) ltac:(lia)). lia.
Qed.

Lemma wrap_small (z : Z) : Int.in_range z -> Int.wrap z = z.
Proof.
  unfold Int.in_range, Int.wrap, Int.min_signed, Int.max_signed. intros H.
  rewrite Z.mod_small; lia.
Qed.

(** both facts at once, in the shape [lia] uses *)
Lemma wrap_cases (z : Z) :
  - 2 ^ 31 <= Int.wrap z <= 2 ^ 31 - 1 /\
  (- 2 ^ 31 <= z <= 2 ^ 31 - 1 -> Int.wrap z = z).
Proof.
  split; [apply wrap_in_range | apply wrap_small].
Qed.

(** name a wrapped expression and keep [wrap_cases] of it *)
Ltac wrap_fact e :=
  let v := fresh "v" in
  let Hv := fresh "Hv" in
  pose proof (wrap_cases e) as Hv;
  remember (Int.wrap e) as v in *;
  match goal with H : v = Int.wrap e |- _ => clear H end.

(** the same for every wrapped expression in sight *)
Ltac wrap_facts :=
  unfold Int.add, Int.sub, Int.mul in *;
  repeat match goal with
         | |- context [Int.wrap ?e] => wrap_fact e
         | H : context [Int.wrap ?e] |- _ => wrap_fact e
         end.

(** split on the comparison an innermost [if] of the goal tests *)
Ltac no_if t :=
  lazymatch t with
  | context [if _ then _ else _] => fail
  | _ => idtac
  end.

Ltac case_if :=
  match goal with
  | |- context [if ?a <? ?b then _ else _] =>
      no_if a; no_if b; destruct (Z.ltb_spec a b)
  | |- context [if ?a <=? ?b then _ else _] =>
      no_if a; no_if b; destruct (Z.leb_spec a b)
  | |- context [if ?a =? ?b then _ else _] =>
      no_if a; no_if b; destruct (Z.eqb_spec a b)
  end.

(** ** Buffers *)

Section BufferFacts.

Context {A : Type}.
Variable d : A.

Lemma length_tabulate (n : nat) (f : Z -> A) : length (tabulate n f) = n.
Proof.
  unfold tabulate. now rewrite length_map, length_seq.
Qed.

Lemma rd_tabulate (n : nat) (f : Z -> A) (i : Z) :
  0 <= i < Z.of_nat n -> rd d (tabulate n f) i = f i.
Proof.
  intros Hi. unfold rd, tabulate.
  destruct (Z.ltb_spec i 0); [lia |].
  rewrite nth_indep with (d' := f 0) by (rewrite length_map, length_seq; lia).
  change (f 0) with ((fun k => f (Z.of_nat k)) 0%nat).
  rewrite map_nth, seq_nth by lia.
  f_equal. lia.
Qed.

Lemma rd_outside (buf : list A) (i : Z) :
  i < 0 \/ Z.of_nat (length buf) <= i -> rd d buf i = d.
Proof.
  intros Hi. unfold rd. destruct (Z.ltb_spec i 0); [reflexivity |].
  apply nth_overflow. lia.
Qed.

Lemma length_memset (buf : list A) (off : Z) (c : A) (n : Z) :
  length (memset d buf off c n) = length buf.
Proof. apply length_tabulate. Qed.

Lemma rd_memset (buf : list A) (off : Z) (c : A) (n i : Z) :
  0 <= i < Z.of_nat (length buf) ->
  rd d (memset d buf off c n) i = if in_run off n i then c else rd d buf i.
Proof. intros Hi. unfold memset. now rewrite rd_tabulate. Qed.

Lemma length_memcpy (dst : list A) (doff : Z) (src : list A) (soff n : Z) :
  length (memcpy d dst doff src soff n) = length dst.
Proof. apply length_tabulate. Qed.

Lemma rd_memcpy (dst : list A) (doff : Z) (src : list A) (soff n i : Z) :
  0 <= i < Z.of_nat (length dst) ->
  rd d (memcpy d dst doff src soff n) i =
  if in_run doff n i then rd d src (soff + (i - doff)) else rd d dst i.
Proof. intros Hi. unfold memcpy. now rewrite rd_tabulate. Qed.

Lemma length_memmove (buf : list A) (doff soff n : Z) :
  length (memmove d buf doff soff n) = length buf.
Proof. apply length_memcpy. Qed.

Lemma rd_memmove (buf : list A) (doff soff n i : Z) :
  0 <= i < Z.of_nat (length buf) ->
  rd d (memmove d buf doff soff n) i =
  if in_run doff n i then rd d buf (soff + (i - doff)) else rd d buf i.
Proof. apply rd_memcpy. Qed.

Lemma length_store (buf : list A) (i : Z) (v : A) :
  length (store d buf i v) = length buf.
Proof. apply length_memset. Qed.

Lemma length_malloc (n : Z) : length (malloc d n) = Z.to_nat n.
Proof. apply repeat_length. Qed.

Lemma length_realloc (buf : list A) (n : Z) :
  length (realloc d buf n) = Z.to_nat n.
Proof.
  unfold realloc. rewrite length_app, length_firstn, repeat_length. lia.
Qed.

End BufferFacts.

Lemma in_run_true (off n i : Z) : in_run off n i = true <-> off <= i < off + n.
Proof. unfold in_run. rewrite andb_true_iff, Z.leb_le, Z.ltb_lt. tauto. Qed.

Lemma in_run_false (off n i : Z) : in_run off n i = false <-> i < off \/ off + n <= i.
Proof.
  unfold in_run. rewrite andb_false_iff, Z.leb_gt, Z.ltb_ge. tauto.
Qed.

(** cells are laid out row after row *)
Lemma cell_index_bounds (w h x y : Z) :
  0 <= x < w -> 0 <= y < h -> 0 <= y * w + x < w * h.
Proof. intros Hx Hy. nia. Qed.

Lemma cell_index_lt (w x y x' y' : Z) :
  0 <= x < w -> 0 <= x' < w ->
  (y * w + x < y' * w + x' <-> y < y' \/ (y = y' /\ x < x')).
Proof. intros Hx Hx'. split; intros H; nia. Qed.

Lemma cell_index_le (w x y x' y' : Z) :
  0 <= x < w -> 0 <= x' < w ->
  (y * w + x <= y' * w + x' <-> y < y' \/ (y = y' /\ x <= x')).
Proof. intros Hx Hx'. split; intros H; nia. Qed.

(** ** The cursor stays on the screen *)

(** compute the fields of a state built by the record updates *)
Ltac fields :=
  cbv beta iota zeta delta
    [set_cur_fg_gc_idx set_cur_bg_gc_idx set_con_width set_con_height set_chbuf
     set_grbuf set_cursor_x set_cursor_y set_margin_top set_margin_bottom
     set_must_refresh set_must_refresh_line_buf
     cur_fg_gc_idx cur_bg_gc_idx con_width con_height chbuf grbuf cursor_x cursor_y
     margin_top margin_bottom must_refresh must_refresh_line_buf].

Ltac fields_in H :=
  cbv beta iota zeta delta
    [set_cur_fg_gc_idx set_cur_bg_gc_idx set_con_width set_con_height set_chbuf
     set_grbuf set_cursor_x set_cursor_y set_margin_top set_margin_bottom
     set_must_refresh set_must_refresh_line_buf
     cur_fg_gc_idx cur_bg_gc_idx con_width con_height chbuf grbuf cursor_x cursor_y
     margin_top margin_bottom must_refresh must_refresh_line_buf] in H.

Ltac open_inv :=
  match goal with
  | H : cursor_inv ?t |- _ =>
      destruct H as [Hw Hh Hmt Hmb Hcx Hcy];
      destruct t as [fg bg w h chb grb cx cy mt mb mr lines];
      unfold NR_MIN_VT102_SCREEN_COLUMNS, NR_MIN_VT102_SCREEN_ROWS, Int.max_signed in *;
      fields_in Hw; fields_in Hh; fields_in Hmt; fields_in Hmb; fields_in Hcx;
      fields_in Hcy
  end.

Ltac close_inv :=
  constructor; fields;
  unfold NR_MIN_VT102_SCREEN_COLUMNS, NR_MIN_VT102_SCREEN_ROWS, Int.max_signed;
  repeat case_if; wrap_facts; lia.

Lemma move_cursor_relative_inv (t : term_data) (dx dy : Z) :
  cursor_inv t -> cursor_inv (move_cursor_relative t dx dy).
Proof.
  intros H. open_inv. unfold move_cursor_relative. close_inv.
Qed.

Lemma move_cursor_absolute_inv (t : term_data) (x y : Z) :
  cursor_inv t -> cursor_inv (move_cursor_absolute t x y).
Proof.
  intros H. open_inv. unfold move_cursor_absolute. close_inv.
Qed.

(** an update of the buffers and refresh flags alone keeps the invariant *)
Lemma cursor_inv_same_geometry (t t' : term_data) :
  con_width t' = con_width t -> con_height t' = con_height t ->
  margin_top t' = margin_top t -> margin_bottom t' = margin_bottom t ->
  cursor_x t' = cursor_x t -> cursor_y t' = cursor_y t ->
  cursor_inv t -> cursor_inv t'.
Proof.
  intros E1 E2 E3 E4 E5 E6 [Hw Hh Hmt Hmb Hcx Hcy].
  constructor; rewrite ?E1, ?E2, ?E3, ?E4, ?E5, ?E6; assumption.
Qed.

Lemma set_must_refresh_inv (t : term_data) (b : bool) :
  cursor_inv t -> cursor_inv (set_must_refresh t b).
Proof. apply cursor_inv_same_geometry; reflexivity. Qed.

Lemma handle_linefeed_inv (t : term_data) :
  cursor_inv t -> cursor_inv (handle_linefeed t).
Proof.
  intros H. unfold handle_linefeed. cbv zeta.
  apply set_must_refresh_inv, move_cursor_absolute_inv.
  destruct (cursor_y t =? margin_bottom t); [| assumption].
  revert H. apply cursor_inv_same_geometry; reflexivity.
Qed.

Lemma display_char_inv (t : term_data) (ch : Z) :
  cursor_inv t -> exists t', display_char t ch = Some t' /\ cursor_inv t'.
Proof.
  intros H. unfold display_char.
  destruct (Z.leb_spec (con_width t) (cursor_x t)) as [Hx | Hx];
    [destruct H; lia |].
  destruct (Z.leb_spec (con_height t) (cursor_y t)) as [Hy | Hy];
    [destruct H; lia |].
  eexists. split; [reflexivity |]. cbv zeta.
  apply set_must_refresh_inv.
  match goal with
  | |- cursor_inv (if ?c then _ else _) => destruct c eqn:Ec
  end.
  - match goal with
    | |- cursor_inv (if ?c then _ else _) => destruct c eqn:Ec'
    end.
    + apply handle_linefeed_inv.
      open_inv. fields_in Hx. fields_in Hy. fields_in Ec. fields_in Ec'.
      apply Z.eqb_eq in Ec, Ec'. revert Ec Ec'. close_inv.
    + open_inv. fields_in Hx. fields_in Hy. fields_in Ec. fields_in Ec'.
      apply Z.eqb_eq in Ec. apply Z.eqb_neq in Ec'. revert Ec Ec'. close_inv.
  - open_inv. fields_in Hx. fields_in Hy. fields_in Ec.
    apply Z.eqb_neq in Ec. revert Ec. close_inv.
Qed.

Lemma display_spaces_inv (i : nat) (t : term_data) :
  cursor_inv t -> exists t', display_spaces i t = Some t' /\ cursor_inv t'.
Proof.
  revert t. induction i as [| i IH]; intros t H; cbn [display_spaces].
  - now exists t.
  - destruct (display_char_inv t SPACE H) as (t1 & -> & H1). now apply IH.
Qed.

Lemma handle_horiz_tab_inv (t : term_data) :
  cursor_inv t -> exists t', handle_horiz_tab t = Some t' /\ cursor_inv t'.
Proof.
  intros H. unfold handle_horiz_tab.
  destruct (display_spaces_inv (Z.to_nat (tab_distance t)) t H) as (t1 & -> & H1).
  eexists. split; [reflexivity |]. now apply set_must_refresh_inv.
Qed.

Lemma cursor_reverse_index_inv (t : term_data) :
  cursor_inv t -> cursor_inv (cursor_reverse_index t).
Proof.
  intros H. unfold cursor_reverse_index. cbv zeta.
  apply set_must_refresh_inv, move_cursor_relative_inv.
  destruct (cursor_y t =? margin_top t); [| assumption].
  revert H. apply cursor_inv_same_geometry; reflexivity.
Qed.

Lemma erase_inv (e : erase_op) (t : term_data) :
  cursor_inv t -> cursor_inv (erase e t).
Proof.
  destruct e; apply cursor_inv_same_geometry; reflexivity.
Qed.

Lemma insert_lines_at_cursor_inv (t : term_data) (n : Z) :
  cursor_inv t -> cursor_inv (insert_lines_at_cursor t n).
Proof.
  unfold insert_lines_at_cursor.
  destruct (negb _); [trivial |].
  destruct (margin_bottom t <? Int.add (cursor_y t) n);
    apply cursor_inv_same_geometry; reflexivity.
Qed.

Lemma delete_lines_at_cursor_inv (t : term_data) (n : Z) :
  cursor_inv t -> cursor_inv (delete_lines_at_cursor t n).
Proof.
  unfold delete_lines_at_cursor.
  destruct (negb _); [trivial |].
  destruct (margin_bottom t <? Int.add (cursor_y t) n);
    apply cursor_inv_same_geometry; reflexivity.
Qed.

Lemma delete_characters_at_cursor_inv (t : term_data) (n : Z) :
  cursor_inv t -> cursor_inv (delete_characters_at_cursor t n).
Proof.
  unfold delete_characters_at_cursor.
  destruct (n <=? 0); [trivial |].
  apply cursor_inv_same_geometry; reflexivity.
Qed.

Lemma handle_backspace_inv (t : term_data) :
  cursor_inv t -> cursor_inv (handle_backspace t).
Proof.
  intros H. apply set_must_refresh_inv. now apply move_cursor_relative_inv.
Qed.

Lemma handle_carriage_return_inv (t : term_data) :
  cursor_inv t -> cursor_inv (handle_carriage_return t).
Proof.
  intros H. apply set_must_refresh_inv. now apply move_cursor_absolute_inv.
Qed.

Lemma set_top_and_bottom_margins_inv (t : term_data) (top bottom : Z) :
  cursor_inv t -> cursor_inv (set_top_and_bottom_margins t top bottom).
Proof.
  intros H. open_inv. unfold set_top_and_bottom_margins. close_inv.
Qed.

Lemma sgr_param_inv (t : term_data) (p : Z) :
  cursor_inv t -> cursor_inv (sgr_param t p).
Proof.
  unfold sgr_param.
  repeat match goal with
         | |- context [if ?b then _ else _] => destruct b
         end; apply cursor_inv_same_geometry; reflexivity.
Qed.

Lemma select_graphic_rendition_inv (t : term_data) (ps : list Z) (n : Z) :
  cursor_inv t -> cursor_inv (select_graphic_rendition t ps n).
Proof.
  unfold select_graphic_rendition.
  generalize (firstn (Z.to_nat n) ps) as l. intros l. revert t.
  induction l as [| p l IH]; intros t H; cbn [fold_left]; [assumption |].
  apply IH. now apply sgr_param_inv.
Qed.

Lemma resize_buffers_inv (t : term_data) (new_width new_height : Z) :
  Int.in_range new_width -> Int.in_range new_height ->
  cursor_inv t ->
  cursor_inv (vt102_generic_backend_resize_buffers t new_width new_height).
Proof.
  unfold Int.in_range, Int.min_signed. intros Hnw Hnh H. open_inv.
  unfold vt102_generic_backend_resize_buffers. close_inv.
Qed.

Lemma init_inv (width height : Z) :
  Int.in_range width -> Int.in_range height ->
  cursor_inv (init_vt102_generic_backend width height).
Proof.
  unfold Int.in_range, Int.min_signed, Int.max_signed. intros Hw Hh.
  unfold init_vt102_generic_backend. close_inv.
Qed.

Lemma step_inv (o : backend_op) (t : term_data) :
  op_args_ok o -> cursor_inv t -> exists t', step o t = Some t' /\ cursor_inv t'.
Proof.
  intros Ho H.
  destruct o; cbn [step];
    try (eexists; split; [reflexivity |]).
  - now apply display_char_inv.
  - now apply select_graphic_rendition_inv.
  - now apply move_cursor_relative_inv.
  - now apply move_cursor_absolute_inv.
  - now apply move_cursor_absolute_inv.
  - now apply cursor_reverse_index_inv.
  - now apply (erase_inv EraseLineAtCursor).
  - now apply (erase_inv EraseLineFromBeginningToCursor).
  - now apply (erase_inv EraseLineFromCursorToEnd).
  - now apply (erase_inv EraseDisplay).
  - now apply (erase_inv EraseDisplayFromBeginningToCursor).
  - now apply (erase_inv EraseDisplayFromCursorToEnd).
  - now apply insert_lines_at_cursor_inv.
  - now apply delete_lines_at_cursor_inv.
  - now apply delete_characters_at_cursor_inv.
  - now apply handle_backspace_inv.
  - now apply handle_horiz_tab_inv.
  - now apply handle_linefeed_inv.
  - now apply handle_carriage_return_inv.
  - now apply set_top_and_bottom_margins_inv.
  - destruct Ho. now apply resize_buffers_inv.
Qed.

Lemma reachable_inv (t : term_data) : reachable t -> cursor_inv t.
Proof.
  induction 1 as [w h Hw Hh Hsz | o t t' Ht IH Ho Hstep].
  - now apply init_inv.
  - destruct (step_inv o t (proj1 Ho) IH) as (t1 & Ht1 & H1). congruence.
Qed.



(** C2: after [init_vt102_generic_backend] and after every backend
    operation the cursor is on the screen:
    [0 <= cursor_x < con_width] and [0 <= cursor_y < con_height].  This
    holds in every reachable state, that is for a screen created and
    resized with a number of cells that is an [int] and for line
    counts that are not negative and do not overflow, whatever the
    other integer arguments are. *)
Theorem cursor_within_screen (t : term_data) :
  reachable t ->
  0 <= cursor_x t < con_width t /\ 0 <= cursor_y t < con_height t.
Proof.
  intros Hr. destruct (reachable_inv t Hr). now split.
Qed.

(** ** The margins *)

(** C9: [set_top_and_bottom_margins] establishes
    [0 <= margin_top < margin_bottom <= con_height - 1] from arbitrary
    arguments and changes nothing else: cursor, buffers, current
    rendition, refresh flags and dimensions are as before.  The cursor
    is not clamped, so it may be left outside the new scrolling region;
    the next relative or absolute cursor move puts it back inside. *)
Theorem set_top_and_bottom_margins_frame (t : term_data) (top bottom : Z) :
  NR_MIN_VT102_SCREEN_ROWS <= con_height t <= Int.max_signed ->
  let t' := set_top_and_bottom_margins t top bottom in
  (0 <= margin_top t' /\ margin_top t' < margin_bottom t' /\
   margin_bottom t' <= con_height t' - 1) /\
  (cursor_x t' = cursor_x t /\ cursor_y t' = cursor_y t) /\
  (chbuf t' = chbuf t /\ grbuf t' = grbuf t) /\
  (cur_fg_gc_idx t' = cur_fg_gc_idx t /\ cur_bg_gc_idx t' = cur_bg_gc_idx t) /\
  (must_refresh_line_buf t' = must_refresh_line_buf t /\
   must_refresh t' = must_refresh t) /\
  (con_width t' = con_width t /\ con_height t' = con_height t) /\
  (forall dx dy,
     margin_top t' <= cursor_y (move_cursor_relative t' dx dy) <= margin_bottom t') /\
  (forall x y,
     margin_top t' <= cursor_y (move_cursor_absolute t' x y) <= margin_bottom t') /\
  (exists t0 top0 bottom0,
     reachable t0 /\
     margin_bottom (set_top_and_bottom_margins t0 top0 bottom0)
     < cursor_y (set_top_and_bottom_margins t0 top0 bottom0)).
Proof.
  unfold NR_MIN_VT102_SCREEN_ROWS, Int.max_signed. intros Hh.
  destruct t as [fg bg w h chb grb cx cy mt mb mr lines]. fields_in Hh.
  unfold set_top_and_bottom_margins. cbv zeta.
  repeat split; try reflexivity.
  1-3: fields; repeat case_if; wrap_facts; lia.
  1-4: unfold move_cursor_relative, move_cursor_absolute; fields;
       repeat case_if; wrap_facts; lia.
  exists screen_cursor_3_5, 0, 1. split.
  - apply reachable_step with (o := OpMoveCursorAbsolute 3 5) (t := screen_80_24).
    + apply reachable_init;
        [unfold Int.in_range, Int.min_signed, Int.max_signed; lia ..
        | vm_compute; discriminate].
    + split; [| split; exact I].
      cbn. unfold Int.in_range, Int.min_signed, Int.max_signed. lia.
    + reflexivity.
  - vm_compute. reflexivity.
Qed.

(** ** The current rendition *)

Lemma sgr_param_range (t : term_data) (p : Z) :
  0 <= cur_fg_gc_idx t <= 7 -> 0 <= cur_bg_gc_idx t <= 7 ->
  0 <= cur_fg_gc_idx (sgr_param t p) <= 7 /\ 0 <= cur_bg_gc_idx (sgr_param t p) <= 7.
Proof.
  intros Hf Hb. destruct t as [fg bg w h chb grb cx cy mt mb mr lines].
  fields_in Hf. fields_in Hb. unfold sgr_param.
  destruct (Z.eqb_spec p 0); [fields; lia |].
  destruct ((30 <=? p) && (p <=? 37)) eqn:E1.
  { apply andb_true_iff in E1. destruct E1 as [E1 E2].
    apply Z.leb_le in E1, E2. fields.
    rewrite Z.mod_small by lia. rewrite wrap_small; [lia |].
    unfold Int.in_range, Int.min_signed, Int.max_signed. lia. }
  destruct (Z.eqb_spec p 39); [fields; lia |].
  destruct ((40 <=? p) && (p <=? 47)) eqn:E2.
  { apply andb_true_iff in E2. destruct E2 as [E2 E3].
    apply Z.leb_le in E2, E3. fields.
    rewrite Z.mod_small by lia. rewrite wrap_small; [lia |].
    unfold Int.in_range, Int.min_signed, Int.max_signed. lia. }
  destruct (Z.eqb_spec p 49); [fields; lia |].
  destruct (Z.eqb_spec p 7); fields; lia.
Qed.

Lemma sgr_param_unrecognized (t : term_data) (p : Z) :
  sgr_recognized p = false -> sgr_param t p = t.
Proof.
  unfold sgr_recognized, sgr_param. intros H.
  repeat (apply orb_false_iff in H; destruct H as [H ?]).
  repeat match goal with
         | E : ?b = false |- context [if ?b then _ else _] => rewrite E
         end.
  reflexivity.
Qed.

Lemma fold_sgr_param_range (l : list Z) (t : term_data) :
  0 <= cur_fg_gc_idx t <= 7 -> 0 <= cur_bg_gc_idx t <= 7 ->
  0 <= cur_fg_gc_idx (fold_left sgr_param l t) <= 7 /\
  0 <= cur_bg_gc_idx (fold_left sgr_param l t) <= 7.
Proof.
  revert t. induction l as [| p l IH]; intros t Hf Hb; cbn [fold_left]; [now split |].
  destruct (sgr_param_range t p Hf Hb). now apply IH.
Qed.

Lemma fold_sgr_param_filter (l : list Z) (t : term_data) :
  fold_left sgr_param l t = fold_left sgr_param (filter sgr_recognized l) t.
Proof.
  revert t. induction l as [| p l IH]; intros t; cbn [fold_left filter]; [reflexivity |].
  destruct (sgr_recognized p) eqn:E; cbn [fold_left].
  - apply IH.
  - rewrite sgr_param_unrecognized by assumption. apply IH.
Qed.

(** C10: [select_graphic_rendition] keeps the current rendition in
    range for every parameter list: foreground and background indices
    in 0..7 before the call are in 0..7 after it.  A parameter outside
    {0, 7, 30..37, 39, 40..47, 49} changes nothing: alone it leaves the
    state as it is, and in a list it can be left out. *)
Theorem select_graphic_rendition_range (t : term_data) (cmd_params : list Z)
    (nr_params : Z) :
  0 <= cur_fg_gc_idx t <= 7 -> 0 <= cur_bg_gc_idx t <= 7 ->
  let t' := select_graphic_rendition t cmd_params nr_params in
  (0 <= cur_fg_gc_idx t' <= 7 /\ 0 <= cur_bg_gc_idx t' <= 7) /\
  (forall p, sgr_recognized p = false ->
     select_graphic_rendition t [p] 1 = t /\
     cur_fg_gc_idx (sgr_param t p) = cur_fg_gc_idx t /\
     cur_bg_gc_idx (sgr_param t p) = cur_bg_gc_idx t) /\
  t' = fold_left sgr_param
         (filter sgr_recognized (firstn (Z.to_nat nr_params) cmd_params)) t.
Proof.
  intros Hf Hb. cbv zeta. unfold select_graphic_rendition. repeat split.
  - now apply fold_sgr_param_range.
  - now apply fold_sgr_param_range.
  - now apply fold_sgr_param_range.
  - now apply fold_sgr_param_range.
  - cbn [Z.to_nat Pos.to_nat Pos.iter_op Nat.add firstn fold_left].
    now apply sgr_param_unrecognized.
  - now rewrite sgr_param_unrecognized.
  - now rewrite sgr_param_unrecognized.
  - apply fold_sgr_param_filter.
Qed.

(** ** Erasing *)

Ltac no_wrap t :=
  lazymatch t with
  | context [Int.wrap _] => fail
  | _ => idtac
  end.

(** remove the wrap-around of the expressions that stay in range *)
Ltac unwrap :=
  unfold Int.add, Int.sub, Int.mul;
  repeat match goal with
         | |- context [Int.wrap ?e] =>
             no_wrap e;
             rewrite (wrap_small e)
               by (unfold Int.in_range, Int.min_signed, Int.max_signed; nia)
         end.

Ltac open_wf :=
  match goal with
  | H : wf ?t |- _ =>
      destruct H as [[Hw Hh Hmt Hmb Hcx Hcy] Hsz Hch Hgr Hln];
      destruct t as [fg bg w h chb grb cx cy mt mb mr lines];
      unfold NR_MIN_VT102_SCREEN_COLUMNS, NR_MIN_VT102_SCREEN_ROWS, Int.max_signed in *;
      fields_in Hw; fields_in Hh; fields_in Hmt; fields_in Hmb; fields_in Hcx;
      fields_in Hcy; fields_in Hsz; fields_in Hch; fields_in Hgr; fields_in Hln
  end.

(** turn boolean tests in the hypotheses into propositions, one case
    for each way a conjunction fails or a disjunction holds *)
Ltac bool_props :=
  repeat match goal with
         | H : in_run _ _ _ = true |- _ => apply in_run_true in H
         | H : in_run _ _ _ = false |- _ => apply in_run_false in H
         | H : _ && _ = true |- _ => apply andb_true_iff in H; destruct H
         | H : _ && _ = false |- _ => apply andb_false_iff in H; destruct H
         | H : _ || _ = true |- _ => apply orb_true_iff in H; destruct H
         | H : _ || _ = false |- _ => apply orb_false_iff in H; destruct H
         | H : (_ =? _) = true |- _ => apply Z.eqb_eq in H
         | H : (_ =? _) = false |- _ => apply Z.eqb_neq in H
         | H : (_ <=? _) = true |- _ => apply Z.leb_le in H
         | H : (_ <=? _) = false |- _ => apply Z.leb_gt in H
         | H : (_ <? _) = true |- _ => apply Z.ltb_lt in H
         | H : (_ <? _) = false |- _ => apply Z.ltb_ge in H
         end.

Ltac unfold_erase :=
  unfold erase, documented_range, erase_display_from_beginning_to_cursor,
    erase_display_from_cursor_to_end, erase_line_at_cursor,
    erase_line_from_beginning_to_cursor, erase_line_from_cursor_to_end, erase_display.

Lemma erase_cells (e : erase_op) (t : term_data) (x y : Z) :
  wf t -> 0 <= x < con_width t -> 0 <= y < con_height t ->
  cell_ch (erase e t) x y = (if documented_range e t x y then SPACE else cell_ch t x y) /\
  cell_gr (erase e t) x y = (if documented_range e t x y then 0 else cell_gr t x y).
Proof.
  intros H Hx Hy. open_wf. fields_in Hx. fields_in Hy.
  pose proof (cell_index_bounds _ _ _ _ Hx Hy) as Hi.
  unfold cell_ch, cell_gr.
  destruct e; unfold_erase; fields; unwrap;
    rewrite !rd_memset by (rewrite ?length_memset; lia).
  all: repeat match goal with
         | |- context [in_run ?a ?b ?c] => destruct (in_run a b c) eqn:?
         end.
  all: try match goal with
           | |- context [if ?b then _ else _] => destruct b eqn:?
           end.
  all: try (split; reflexivity).
  all: exfalso; bool_props.
  all: assert (H0w : 0 <= 0 < w) by lia.
  all: pose proof (cell_index_bounds _ _ _ _ Hcx Hcy).
  all: pose proof (cell_index_lt _ _ y _ cy Hx Hcx).
  all: pose proof (cell_index_le _ _ y _ cy Hx Hcx).
  all: pose proof (cell_index_lt _ _ cy _ y Hcx Hx).
  all: pose proof (cell_index_le _ _ cy _ y Hcx Hx).
  all: pose proof (cell_index_le _ _ cy _ y H0w Hx).
  all: pose proof (cell_index_lt _ _ y _ (cy + 1) Hx H0w).
  all: lia.
Qed.

(** C7: each of the six erase operations sets every cell of its
    documented range to a space with foreground and background 0, and
    leaves the cursor, the margins, the current rendition, the
    dimensions and every cell outside the range as they were. *)
Theorem erase_frame (e : erase_op) (t : term_data) :
  wf t ->
  let t' := erase e t in
  (cursor_x t' = cursor_x t /\ cursor_y t' = cursor_y t) /\
  (margin_top t' = margin_top t /\ margin_bottom t' = margin_bottom t) /\
  (cur_fg_gc_idx t' = cur_fg_gc_idx t /\ cur_bg_gc_idx t' = cur_bg_gc_idx t) /\
  (con_width t' = con_width t /\ con_height t' = con_height t) /\
  (forall x y, 0 <= x < con_width t -> 0 <= y < con_height t ->
     if documented_range e t x y
     then cell_ch t' x y = SPACE /\ cell_fg t' x y = 0 /\ cell_bg t' x y = 0
     else cell_ch t' x y = cell_ch t x y /\ cell_fg t' x y = cell_fg t x y /\
          cell_bg t' x y = cell_bg t x y).
Proof.
  intros H. cbv zeta.
  repeat split; try (destruct e; reflexivity).
  intros x y Hx Hy.
  destruct (erase_cells e t x y H Hx Hy) as [Hch Hgr].
  unfold cell_fg, cell_bg. rewrite Hch, Hgr.
  destruct (documented_range e t x y); repeat split; reflexivity.
Qed.

(** ** Resizing *)

Lemma length_copy_rows (rows : nat) (i : Z) (nb : list Z) (nw : Z) (ob : list Z)
    (ow w : Z) :
  length (copy_rows rows i nb nw ob ow w) = length nb.
Proof.
  revert i nb. induction rows as [| rows IH]; intros i nb; cbn [copy_rows].
  - reflexivity.
  - rewrite IH. apply length_memcpy.
Qed.

(** after the rows [i] to [i + rows - 1] are copied, the cell in column
    [x] of row [y] of the new buffer is the old one if [y] is one of
    these rows and [x < w], and is as before otherwise *)
Lemma rd_copy_rows (nw nh ow oh w : Z) (ob : list Z) (rows : nat) :
  forall (i : Z) (nb : list Z) (x y : Z),
  0 <= w <= nw -> nw * nh <= Int.max_signed -> ow * oh <= Int.max_signed ->
  0 <= ow ->
  0 <= i -> i + Z.of_nat rows <= nh -> i + Z.of_nat rows <= oh ->
  Z.of_nat (length nb) = nw * nh ->
  0 <= x < nw -> 0 <= y < nh ->
  rd 0 (copy_rows rows i nb nw ob ow w) (y * nw + x) =
  if (i <=? y) && (y <? i + Z.of_nat rows) && (x <? w)
  then rd 0 ob (y * ow + x) else rd 0 nb (y * nw + x).
Proof.
  unfold Int.max_signed.
  induction rows as [| rows IH]; intros i nb x y Hw Hn Ho How Hi Hnh Hoh Hlen Hx Hy.
  - cbn [copy_rows].
    destruct ((i <=? y) && (y <? i + Z.of_nat 0) && (x <? w)) eqn:E; [| reflexivity].
    bool_props. lia.
  - cbn [copy_rows].
    assert (Hinw : 0 <= i * nw <= nw * nh) by nia.
    assert (Hiow : 0 <= i * ow <= ow * oh) by nia.
    unwrap.
    rewrite IH; try lia. 2: rewrite length_memcpy; lia.
    pose proof (cell_index_bounds _ _ _ _ Hx Hy) as Hidx.
    rewrite rd_memcpy by lia.
    assert (Hlow : y < i -> y * nw + x < i * nw) by nia.
    assert (Hhigh : i < y -> i * nw + nw <= y * nw + x) by nia.
    destruct ((i + 1 <=? y) && (y <? i + 1 + Z.of_nat rows) && (x <? w)) eqn:E1;
      destruct ((i <=? y) && (y <? i + Z.of_nat (S rows)) && (x <? w)) eqn:E2;
      destruct (in_run (i * nw) w (y * nw + x)) eqn:E3;
      try reflexivity; bool_props; try lia.
    all: assert (y = i) by lia; subst y; f_equal; lia.
Qed.

Lemma rd_fresh (c : Z) (size i : Z) :
  0 <= i < size -> rd 0 (memset 0 (malloc 0 size) 0 c size) i = c.
Proof.
  intros Hi. rewrite rd_memset by (rewrite length_malloc; lia).
  destruct (in_run 0 size i) eqn:E; [reflexivity |]. bool_props; lia.
Qed.

(** the clamped dimensions and cursor of a resize, as [Z.max] and
    [Z.min] *)
Ltac resize_prelude new_width new_height w h cx cy :=
  unfold NR_MIN_VT102_SCREEN_COLUMNS, NR_MIN_VT102_SCREEN_ROWS; fields;
  replace (if new_width <? 10 then 10 else new_width) with (Z.max new_width 10)
    by (case_if; lia);
  replace (if new_height <? 2 then 2 else new_height) with (Z.max new_height 2)
    by (case_if; lia);
  set (w' := Z.max new_width 10); set (h' := Z.max new_height 2);
  assert (Hw' : 10 <= w' <= 2 ^ 31 - 1) by lia;
  assert (Hh' : 2 <= h' <= 2 ^ 31 - 1) by lia;
  clearbody w' h'; intros Hsz';
  replace (if w' <? w then w' else w) with (Z.min w w') by (case_if; lia);
  replace (if h' <? h then h' else h) with (Z.min h h') by (case_if; lia);
  replace (if w' <=? cx then Int.sub w' 1 else cx) with (Z.min cx (w' - 1))
    by (case_if; unwrap; lia);
  replace (if h' <=? cy then Int.sub h' 1 else cy) with (Z.min cy (h' - 1))
    by (case_if; unwrap; lia);
  unwrap.

Lemma resize_buffers_wf (t : term_data) (new_width new_height : Z) :
  wf t -> Int.in_range new_width -> Int.in_range new_height ->
  Z.max new_width NR_MIN_VT102_SCREEN_COLUMNS
  * Z.max new_height NR_MIN_VT102_SCREEN_ROWS <= Int.max_signed ->
  wf (vt102_generic_backend_resize_buffers t new_width new_height).
Proof.
  unfold Int.in_range, Int.min_signed. intros H Hnw Hnh. open_wf.
  unfold vt102_generic_backend_resize_buffers.
  resize_prelude new_width new_height w h cx cy.
  constructor; [constructor |..]; fields;
    unfold NR_MIN_VT102_SCREEN_COLUMNS, NR_MIN_VT102_SCREEN_ROWS, Int.max_signed;
    rewrite ?length_copy_rows, ?length_memset, ?length_malloc, ?length_realloc;
    lia.
Qed.

(** C8: [vt102_generic_backend_resize_buffers], its arguments raised
    to at least 10 columns and 2 rows, yields a screen of these
    dimensions whose top-left [min(w, w') x min(h, h')] cells are those
    of the old screen, characters and renditions, and whose other cells
    are spaces with rendition 0; the margins are [0] and [h' - 1], the
    cursor is clamped to the new bounds and every line is flagged for
    refresh.  The new state is well formed. *)
Theorem resize_buffers_spec (t : term_data) (new_width new_height : Z) :
  wf t -> Int.in_range new_width -> Int.in_range new_height ->
  let w' := Z.max new_width NR_MIN_VT102_SCREEN_COLUMNS in
  let h' := Z.max new_height NR_MIN_VT102_SCREEN_ROWS in
  w' * h' <= Int.max_signed ->
  let t' := vt102_generic_backend_resize_buffers t new_width new_height in
  (con_width t' = w' /\ con_height t' = h') /\
  (forall x y, 0 <= x < w' -> 0 <= y < h' ->
     if (x <? Z.min (con_width t) w') && (y <? Z.min (con_height t) h')
     then cell_ch t' x y = cell_ch t x y /\ cell_gr t' x y = cell_gr t x y
     else cell_ch t' x y = SPACE /\ cell_gr t' x y = 0) /\
  (margin_top t' = 0 /\ margin_bottom t' = h' - 1) /\
  (cursor_x t' = Z.min (cursor_x t) (w' - 1) /\
   cursor_y t' = Z.min (cursor_y t) (h' - 1)) /\
  (Z.of_nat (length (must_refresh_line_buf t')) = h' /\
   forall y, 0 <= y < h' -> line_dirty t' y = true) /\
  wf t'.
Proof.
  intros H Hnw Hnh w' h' Hsz t'.
  pose proof (resize_buffers_wf t new_width new_height H Hnw Hnh Hsz) as Hwf.
  revert Hwf. subst t'. revert Hsz. subst w' h'.
  unfold Int.in_range, Int.min_signed in Hnw, Hnh. open_wf.
  unfold vt102_generic_backend_resize_buffers, line_dirty, cell_ch, cell_gr.
  resize_prelude new_width new_height w h cx cy.
  intros Hwf.
  assert (Hcells : forall x y, 0 <= x < w' -> 0 <= y < h' ->
            forall (c : Z) (ob : list Z),
            rd 0 (copy_rows (Z.to_nat (Z.min h h')) 0
                    (memset 0 (malloc 0 (w' * h')) 0 c (w' * h')) w' ob w (Z.min w w'))
               (y * w' + x) =
            if (x <? Z.min w w') && (y <? Z.min h h')
            then rd 0 ob (y * w + x) else c).
  { intros x y Hx Hy c ob.
    pose proof (cell_index_bounds _ _ _ _ Hx Hy) as Hidx.
    rewrite (rd_copy_rows w' h' w h); unfold Int.max_signed; try lia.
    - rewrite rd_fresh by lia.
      destruct ((0 <=? y) && (y <? 0 + Z.of_nat (Z.to_nat (Z.min h h')))
                && (x <? Z.min w w')) eqn:E1;
        destruct ((x <? Z.min w w') && (y <? Z.min h h')) eqn:E2;
        try reflexivity; bool_props; lia.
    - rewrite length_memset, length_malloc. lia. }
  split; [split; reflexivity |].
  split.
  { intros x y Hx Hy. rewrite !Hcells by assumption.
    destruct ((x <? Z.min w w') && (y <? Z.min h h')); split; reflexivity. }
  split; [split; reflexivity |].
  split; [split; reflexivity |].
  split; [| exact Hwf].
  split.
  - rewrite length_memset, length_realloc. lia.
  - intros y Hy. rewrite rd_memset by (rewrite length_realloc; lia).
    destruct (in_run 0 h' y) eqn:E; [reflexivity |]. bool_props; lia.
Qed.

(** ** Creation *)

(** what [init_vt102_generic_backend] builds, for a screen whose size
    is an [int]: every cell holds the letter E with rendition 0 and
    every line is flagged for refresh *)
Lemma init_screen (width height : Z) :
  Int.in_range width -> Int.in_range height ->
  let w := Z.max width NR_MIN_VT102_SCREEN_COLUMNS in
  let h := Z.max height NR_MIN_VT102_SCREEN_ROWS in
  w * h <= Int.max_signed ->
  let t := init_vt102_generic_backend width height in
  wf t /\
  (con_width t = w /\ con_height t = h) /\
  (forall x y, 0 <= x < w -> 0 <= y < h ->
     cell_ch t x y = CHAR_E /\ cell_gr t x y = 0) /\
  (forall y, 0 <= y < h -> line_dirty t y = true).
Proof.
  unfold Int.in_range, Int.min_signed, Int.max_signed. intros Hw Hh.
  unfold init_vt102_generic_backend, line_dirty, cell_ch, cell_gr.
  unfold NR_MIN_VT102_SCREEN_COLUMNS, NR_MIN_VT102_SCREEN_ROWS. fields.
  assert (Ew : (if width <? 10 then 10 else width) = Z.max width 10)
    by (case_if; lia).
  assert (Eh : (if height <? 2 then 2 else height) = Z.max height 2)
    by (case_if; lia).
  rewrite Ew, Eh. clear Ew Eh.
  set (w := Z.max width 10). set (h := Z.max height 2).
  assert (Hw' : 10 <= w <= 2 ^ 31 - 1) by lia.
  assert (Hh' : 2 <= h <= 2 ^ 31 - 1) by lia.
  clearbody w h. intros Hsz. unwrap.
  repeat split; try reflexivity; fields;
    unfold NR_MIN_VT102_SCREEN_COLUMNS, NR_MIN_VT102_SCREEN_ROWS, Int.max_signed;
    rewrite ?length_memset, ?length_malloc; try lia.
  - pose proof (cell_index_bounds _ _ _ _ H H0). now apply rd_fresh.
  - pose proof (cell_index_bounds _ _ _ _ H H0). now apply rd_fresh.
  - intros y Hy. rewrite rd_memset by (rewrite length_malloc; lia).
    destruct (in_run 0 h y) eqn:E; [reflexivity |]. bool_props; lia.
Qed.

(** C3 (the code differs): on the 80 x 24 screen qterm.c creates,
    [init_vt102_generic_backend] leaves the letter E, not a space, in
    each of the 1920 cells; the renditions are 0 and the 24 line flags
    are set, as claimed. *)
Theorem init_fills_screen_with_E :
  chbuf screen_80_24 = repeat CHAR_E 1920 /\
  grbuf screen_80_24 = repeat 0 1920 /\
  must_refresh_line_buf screen_80_24 = repeat true 24 /\
  cell_ch screen_80_24 0 0 <> SPACE.
Proof.
  split; [| split; [| split]].
  - vm_compute. reflexivity.
  - vm_compute. reflexivity.
  - vm_compute. reflexivity.
  - vm_compute. discriminate.
Qed.

(** ** Scrolling *)

(** run the backend functions on a state given by its fields, values
    first, so that no intermediate state is copied unevaluated *)
Ltac exec :=
  cbv beta iota zeta delta
    [move_cursor_relative move_cursor_absolute move_cursor_column_absolute
     handle_linefeed handle_backspace handle_carriage_return cursor_reverse_index
     erase_line_at_cursor erase_line_from_beginning_to_cursor
     erase_line_from_cursor_to_end erase_display
     erase_display_from_beginning_to_cursor erase_display_from_cursor_to_end
     delete_characters_at_cursor set_top_and_bottom_margins
     set_cur_fg_gc_idx set_cur_bg_gc_idx set_con_width set_con_height set_chbuf
     set_grbuf set_cursor_x set_cursor_y set_margin_top set_margin_bottom
     set_must_refresh set_must_refresh_line_buf
     cur_fg_gc_idx cur_bg_gc_idx con_width con_height chbuf grbuf cursor_x cursor_y
     margin_top margin_bottom must_refresh must_refresh_line_buf].

(** the facts about the rows [r] and [r + 1] that place the cell
    [(x, y)] before, in or after row [r] *)
Ltac row_facts wd r x y Hx :=
  let H0 := fresh "H0w" in
  assert (H0 : 0 <= 0 < wd) by lia;
  pose proof (cell_index_le wd 0 r x y H0 Hx);
  pose proof (cell_index_lt wd x y 0 r Hx H0);
  pose proof (cell_index_le wd 0 (r + 1) x y H0 Hx);
  pose proof (cell_index_lt wd x y 0 (r + 1) Hx H0);
  clear H0.

(** [handle_linefeed] with the cursor on the bottom margin scrolls the
    region up: each row of the region but the last receives the row
    below it, the last row is blanked with rendition 0, every row of the
    region is flagged, the rest of the screen and the cursor stay *)
Lemma handle_linefeed_scrolls_up (t : term_data) :
  wf t -> cursor_y t = margin_bottom t ->
  let t' := handle_linefeed t in
  (forall x y, 0 <= x < con_width t -> 0 <= y < con_height t ->
     cell_ch t' x y =
       (if (margin_top t <=? y) && (y <? margin_bottom t) then cell_ch t x (y + 1)
        else if y =? margin_bottom t then SPACE else cell_ch t x y) /\
     cell_gr t' x y =
       (if (margin_top t <=? y) && (y <? margin_bottom t) then cell_gr t x (y + 1)
        else if y =? margin_bottom t then 0 else cell_gr t x y)) /\
  (forall y, margin_top t <= y <= margin_bottom t -> line_dirty t' y = true) /\
  (forall y, 0 <= y < margin_top t \/ margin_bottom t < y < con_height t ->
     line_dirty t' y = line_dirty t y) /\
  cursor_x t' = cursor_x t /\ cursor_y t' = cursor_y t.
Proof.
  intros H Hcur. unfold handle_linefeed. rewrite Hcur, Z.eqb_refl.
  open_wf. fields_in Hcur. subst cy.
  unfold line_dirty, cell_ch, cell_gr. exec. unwrap.
  split; [| split; [| split; [| split]]].
  - intros x y Hx Hy.
    pose proof (cell_index_bounds _ _ _ _ Hx Hy) as Hi.
    rewrite !rd_memset, !rd_memmove by (rewrite ?length_memmove; lia).
    row_facts w mt x y Hx. row_facts w mb x y Hx.
    destruct (in_run (mb * w) w (y * w + x)) eqn:E1;
      destruct (in_run (mt * w) ((mb - mt) * w) (y * w + x)) eqn:E2;
      destruct ((mt <=? y) && (y <? mb)) eqn:E3;
      destruct (Z.eqb_spec y mb);
      bool_props; try (exfalso; lia); try (split; reflexivity).
    all: split; f_equal; lia.
  - intros y Hy. rewrite rd_memset by lia.
    destruct (in_run mt (mb - mt + 1) y) eqn:E; [reflexivity |]. bool_props; lia.
  - intros y Hy. rewrite rd_memset by lia.
    destruct (in_run mt (mb - mt + 1) y) eqn:E; [| reflexivity]. bool_props; lia.
  - repeat case_if; lia.
  - repeat case_if; lia.
Qed.

(** [cursor_reverse_index] with the cursor on the top margin scrolls
    the region down: each row of the region but the first receives the
    row above it and the first row is blanked; its rendition bytes are
    set to the space character, not to 0 *)
Lemma cursor_reverse_index_scrolls_down (t : term_data) :
  wf t -> cursor_y t = margin_top t ->
  let t' := cursor_reverse_index t in
  (forall x y, 0 <= x < con_width t -> 0 <= y < con_height t ->
     cell_ch t' x y =
       (if (margin_top t <? y) && (y <=? margin_bottom t) then cell_ch t x (y - 1)
        else if y =? margin_top t then SPACE else cell_ch t x y) /\
     cell_gr t' x y =
       (if (margin_top t <? y) && (y <=? margin_bottom t) then cell_gr t x (y - 1)
        else if y =? margin_top t then SPACE else cell_gr t x y)) /\
  (forall y, margin_top t <= y <= margin_bottom t -> line_dirty t' y = true) /\
  (forall y, 0 <= y < margin_top t \/ margin_bottom t < y < con_height t ->
     line_dirty t' y = line_dirty t y) /\
  cursor_y t' = cursor_y t.
Proof.
  intros H Hcur. unfold cursor_reverse_index. rewrite Hcur, Z.eqb_refl.
  open_wf. fields_in Hcur. subst cy.
  unfold line_dirty, cell_ch, cell_gr. exec.
  split; [| split; [| split]].
  - intros x y Hx Hy. unwrap.
    pose proof (cell_index_bounds _ _ _ _ Hx Hy) as Hi.
    rewrite !rd_memset, !rd_memmove by (rewrite ?length_memmove; lia).
    row_facts w mt x y Hx. row_facts w mb x y Hx.
    destruct (in_run (mt * w) w (y * w + x)) eqn:E1;
      destruct (in_run ((mt + 1) * w) ((mb - mt) * w) (y * w + x)) eqn:E2;
      destruct ((mt <? y) && (y <=? mb)) eqn:E3;
      destruct (Z.eqb_spec y mt);
      bool_props; try (exfalso; lia); try (split; reflexivity).
    all: split; f_equal; lia.
  - intros y Hy. unwrap. rewrite rd_memset by lia.
    destruct (in_run mt (mb - mt + 1) y) eqn:E; [reflexivity |]. bool_props; lia.
  - intros y Hy. unwrap. rewrite rd_memset by lia.
    destruct (in_run mt (mb - mt + 1) y) eqn:E; [| reflexivity]. bool_props; lia.
  - repeat case_if; wrap_facts; lia.
Qed.

(** C6 (the code differs): on a fresh 10 x 2 screen, whose cursor is on
    the top margin, [cursor_reverse_index] scrolls the region down and
    fills the rendition bytes of the vacated row 0 with the space
    character 32, which reads as background 2, not with 0; the scroll
    up of [handle_linefeed] at the bottom margin fills them with 0. *)
Theorem reverse_index_scroll_rendition :
  cursor_y screen_10_2 = margin_top screen_10_2 /\
  grbuf (cursor_reverse_index screen_10_2) = repeat SPACE 10 ++ repeat 0 10 /\
  chbuf (cursor_reverse_index screen_10_2) = repeat SPACE 10 ++ repeat CHAR_E 10 /\
  cell_bg (cursor_reverse_index screen_10_2) 0 0 = 2 /\
  grbuf (handle_linefeed (move_cursor_absolute screen_10_2 0 1)) = repeat 0 20 /\
  chbuf (handle_linefeed (move_cursor_absolute screen_10_2 0 1))
  = repeat CHAR_E 10 ++ repeat SPACE 10.
Proof.
  split; [| split; [| split; [| split; [| split]]]]; vm_compute; reflexivity.
Qed.

(** ** Reverse index *)

(** where [cursor_reverse_index] leaves the cursor: the column is
    doubled, up to the last column; the row is one less, kept inside
    the scrolling region *)
Lemma cursor_reverse_index_cursor (t : term_data) :
  wf t ->
  cursor_x (cursor_reverse_index t)
  = Z.min (cursor_x t + cursor_x t) (con_width t - 1) /\
  cursor_y (cursor_reverse_index t)
  = Z.max (margin_top t) (Z.min (cursor_y t - 1) (margin_bottom t)).
Proof.
  intros H. unfold cursor_reverse_index.
  destruct (cursor_y t =? margin_top t); open_wf;
    assert (H2w : w + w <= w * h) by nia; exec;
    repeat case_if; wrap_facts; lia.
Qed.

(** C4 (the code differs): with the cursor in column 3 of row 5 of an
    80 x 24 screen, away from the top margin, [cursor_reverse_index]
    moves it to column 6 of row 4: the row is decremented, but the
    column is not kept. *)
Theorem reverse_index_moves_column :
  cursor_x screen_cursor_3_5 = 3 /\ cursor_y screen_cursor_3_5 = 5 /\
  margin_top screen_cursor_3_5 = 0 /\
  cursor_x (cursor_reverse_index screen_cursor_3_5) = 6 /\
  cursor_y (cursor_reverse_index screen_cursor_3_5) = 4.
Proof.
  split; [| split; [| split; [| split]]]; vm_compute; reflexivity.
Qed.

(** ** Deleting characters *)

Lemma delete_characters_at_cursor_noop (t : term_data) (n : Z) :
  n <= 0 -> delete_characters_at_cursor t n = t.
Proof.
  intros Hn. unfold delete_characters_at_cursor.
  destruct (Z.leb_spec n 0); [reflexivity | lia].
Qed.

Lemma delete_characters_at_cursor_grbuf (t : term_data) (n : Z) :
  grbuf (delete_characters_at_cursor t n) = grbuf t.
Proof.
  unfold delete_characters_at_cursor. destruct (n <=? 0); reflexivity.
Qed.

(** the characters of the cursor row from column [cursor_x + k] on
    move left by [k = min(n, con_width - cursor_x)] columns and the
    last [k] columns are blanked; the other rows stay *)
Lemma delete_characters_at_cursor_chars (t : term_data) (n : Z) :
  wf t -> 0 < n ->
  let k := Z.min n (con_width t - cursor_x t) in
  let t' := delete_characters_at_cursor t n in
  forall x y, 0 <= x < con_width t -> 0 <= y < con_height t ->
  cell_ch t' x y =
    if y =? cursor_y t then
      if x <? cursor_x t then cell_ch t x y
      else if x <? con_width t - k then cell_ch t (x + k) y
      else SPACE
    else cell_ch t x y.
Proof.
  intros H Hn k t' x y Hx Hy. subst k t'. unfold delete_characters_at_cursor.
  destruct (Z.leb_spec n 0); [lia |].
  open_wf. fields_in Hx. fields_in Hy. unfold cell_ch. exec. unwrap.
  assert (Ek : (if w - cx <? n then w - cx else n) = Z.min n (w - cx))
    by (case_if; lia).
  rewrite Ek. clear Ek.
  set (k := Z.min n (w - cx)). assert (Hk : 1 <= k <= w - cx) by lia. clearbody k.
  unwrap.
  pose proof (cell_index_bounds _ _ _ _ Hx Hy) as Hi.
  rewrite rd_memset, rd_memmove by (rewrite ?length_memmove; lia).
  assert (Hxk : 0 <= w - k < w) by lia.
  pose proof (cell_index_le w cx cy x y Hcx Hx).
  pose proof (cell_index_lt w x y (w - k) cy Hx Hxk).
  pose proof (cell_index_le w (w - k) cy x y Hxk Hx).
  row_facts w cy x y Hx.
  destruct (in_run ((cy + 1) * w - k) k (y * w + x)) eqn:E1;
    destruct (in_run (cy * w + cx) (w - cx - k) (y * w + x)) eqn:E2;
    destruct (Z.eqb_spec y cy);
    repeat case_if;
    bool_props; try (exfalso; lia); try reflexivity.
  f_equal. lia.
Qed.

(** C5 (the code differs): on a 10 x 2 screen whose row 0 starts with
    a red-on-blue A (rendition byte 65) followed by B and C in the
    default rendition (byte 7), deleting one character at column 0
    moves B and C left and blanks the last column, but leaves every
    rendition byte where it was: the B now in column 0 shows the
    rendition of the deleted A.  [delete_characters_at_cursor] never
    changes [grbuf]. *)
Theorem delete_characters_keeps_renditions :
  (forall t n, grbuf (delete_characters_at_cursor t n) = grbuf t) /\
  match screen_abc with
  | Some t =>
      let t' := delete_characters_at_cursor t 1 in
      (cursor_x t = 0 /\ cursor_y t = 0) /\
      (cell_ch t 0 0 = 65 /\ cell_gr t 0 0 = 65) /\
      (cell_ch t 1 0 = 66 /\ cell_gr t 1 0 = 7) /\
      (cell_ch t' 0 0 = 66 /\ cell_gr t' 0 0 = 65) /\
      (cell_ch t' 9 0 = SPACE /\ cell_gr t' 9 0 = cell_gr t 9 0)
  | None => False
  end.
Proof.
  split; [apply delete_characters_at_cursor_grbuf |].
  vm_compute. repeat split; reflexivity.
Qed.

(** ** Tabulation *)

Lemma wrap_add_multiple (z k : Z) : Int.wrap (z + k * 2 ^ 32) = Int.wrap z.
Proof.
  unfold Int.wrap.
  replace (z + k * 2 ^ 32 + 2 ^ 31) with (z + 2 ^ 31 + k * 2 ^ 32) by lia.
  now rewrite Z.mod_add by lia.
Qed.

Lemma wrap_multiple (z : Z) : exists k, Int.wrap z = z + k * 2 ^ 32.
Proof.
  exists (- ((z + 2 ^ 31) / 2 ^ 32)). unfold Int.wrap.
  pose proof (Z.div_mod (z + 2 ^ 31) (2 ^ 32) ltac:(lia)). lia.
Qed.

Lemma land_lnot_7 (a : Z) : Z.land a (Z.lnot 7) = a - a mod 8.
Proof.
  rewrite <- Z.ldiff_land. change 7 with (Z.ones 3).
  rewrite Z.ldiff_ones_r by lia.
  rewrite Z.shiftr_div_pow2, Z.shiftl_mul_pow2 by lia.
  change (2 ^ 3) with 8.
  pose proof (Z.div_mod a 8 ltac:(lia)). lia.
Qed.

(** the loop of [handle_horiz_tab] runs between 1 and 8 times, up to
    the next multiple of 8, whatever the cursor column *)
Lemma tab_distance_spec (t : term_data) :
  tab_distance t = 8 - cursor_x t mod 8 /\ 1 <= tab_distance t <= 8.
Proof.
  assert (E : tab_distance t = 8 - cursor_x t mod 8).
  { unfold tab_distance, Int.add, Int.sub.
    destruct (wrap_multiple (cursor_x t + 8)) as [k Hk].
    rewrite land_lnot_7, Hk.
    replace ((cursor_x t + 8 + k * 2 ^ 32) mod 8) with (cursor_x t mod 8).
    - replace (cursor_x t + 8 + k * 2 ^ 32 - cursor_x t mod 8 - cursor_x t)
        with (8 - cursor_x t mod 8 + k * 2 ^ 32) by lia.
      rewrite wrap_add_multiple. apply wrap_small.
      pose proof (Z.mod_pos_bound (cursor_x t) 8 ltac:(lia)).
      unfold Int.in_range, Int.min_signed, Int.max_signed. lia.
    - replace (cursor_x t + 8 + k * 2 ^ 32)
        with (cursor_x t + (1 + k * 2 ^ 29) * 8) by lia.
      now rewrite Z.mod_add by lia. }
  split; [exact E |].
  pose proof (Z.mod_pos_bound (cursor_x t) 8 ltac:(lia)). lia.
Qed.

(** ** Well-formed states stay well formed *)

Lemma same_shape_refl (t : term_data) : same_shape t t.
Proof. repeat split. Qed.

Lemma same_shape_trans (t1 t2 t3 : term_data) :
  same_shape t1 t2 -> same_shape t2 t3 -> same_shape t1 t3.
Proof.
  unfold same_shape. intros (A1 & A2 & A3 & A4 & A5) (B1 & B2 & B3 & B4 & B5).
  repeat split; congruence.
Qed.

Lemma wf_same_shape (t t' : term_data) :
  wf t -> same_shape t t' -> cursor_inv t' -> wf t'.
Proof.
  intros [_ Hsz Hch Hgr Hln] (E1 & E2 & E3 & E4 & E5) Hinv.
  constructor; [assumption | rewrite ?E1, ?E2, ?E3, ?E4, ?E5 ..]; assumption.
Qed.

(** the functions that write through [memset], [memmove] and [store]
    keep every buffer at its size *)
Ltac shape :=
  match goal with
  | |- same_shape ?t _ => destruct t as [fg bg w h chb grb cx cy mt mb mr lines]
  end;
  unfold same_shape; exec;
  repeat first [rewrite length_memset | rewrite length_memmove | rewrite length_store];
  repeat split; reflexivity.

Lemma move_cursor_relative_shape (t : term_data) (dx dy : Z) :
  same_shape t (move_cursor_relative t dx dy).
Proof. shape. Qed.

Lemma move_cursor_absolute_shape (t : term_data) (x y : Z) :
  same_shape t (move_cursor_absolute t x y).
Proof. shape. Qed.

Lemma set_must_refresh_shape (t : term_data) (b : bool) :
  same_shape t (set_must_refresh t b).
Proof. shape. Qed.

Lemma handle_linefeed_shape (t : term_data) :
  same_shape t (handle_linefeed t).
Proof.
  unfold handle_linefeed. destruct (cursor_y t =? margin_bottom t); shape.
Qed.

Lemma display_char_shape (t t' : term_data) (ch : Z) :
  display_char t ch = Some t' -> same_shape t t'.
Proof.
  unfold display_char.
  destruct (con_width t <=? cursor_x t); [discriminate |].
  destruct (con_height t <=? cursor_y t); [discriminate |].
  intros E. injection E as <-. cbv zeta.
  eapply same_shape_trans; [| apply set_must_refresh_shape].
  repeat match goal with
         | |- same_shape _ (if ?c then _ else _) => destruct c
         end.
  - eapply same_shape_trans; [| apply handle_linefeed_shape]. shape.
  - shape.
  - shape.
Qed.

Lemma display_spaces_shape (i : nat) (t t' : term_data) :
  display_spaces i t = Some t' -> same_shape t t'.
Proof.
  revert t. induction i as [| i IH]; intros t; cbn [display_spaces].
  - intros E. injection E as <-. apply same_shape_refl.
  - destruct (display_char t SPACE) as [t1 |] eqn:E1; [| discriminate].
    intros E. eapply same_shape_trans; [eapply display_char_shape, E1 | now apply IH].
Qed.

Lemma handle_horiz_tab_shape (t t' : term_data) :
  handle_horiz_tab t = Some t' -> same_shape t t'.
Proof.
  unfold handle_horiz_tab.
  destruct (display_spaces _ t) as [t1 |] eqn:E1; [| discriminate].
  intros E. injection E as <-.
  eapply same_shape_trans; [eapply display_spaces_shape, E1 |].
  apply set_must_refresh_shape.
Qed.

Lemma cursor_reverse_index_shape (t : term_data) :
  same_shape t (cursor_reverse_index t).
Proof.
  unfold cursor_reverse_index. destruct (cursor_y t =? margin_top t); shape.
Qed.

Lemma erase_shape (e : erase_op) (t : term_data) : same_shape t (erase e t).
Proof. destruct e; unfold erase; shape. Qed.

Lemma insert_lines_at_cursor_shape (t : term_data) (n : Z) :
  same_shape t (insert_lines_at_cursor t n).
Proof.
  unfold insert_lines_at_cursor.
  destruct (negb _); [apply same_shape_refl |].
  destruct (margin_bottom t <? Int.add (cursor_y t) n); shape.
Qed.

Lemma delete_lines_at_cursor_shape (t : term_data) (n : Z) :
  same_shape t (delete_lines_at_cursor t n).
Proof.
  unfold delete_lines_at_cursor.
  destruct (negb _); [apply same_shape_refl |].
  destruct (margin_bottom t <? Int.add (cursor_y t) n); shape.
Qed.

Lemma delete_characters_at_cursor_shape (t : term_data) (n : Z) :
  same_shape t (delete_characters_at_cursor t n).
Proof.
  unfold delete_characters_at_cursor.
  destruct (n <=? 0); [apply same_shape_refl | shape].
Qed.

Lemma set_top_and_bottom_margins_shape (t : term_data) (top bottom : Z) :
  same_shape t (set_top_and_bottom_margins t top bottom).
Proof. shape. Qed.

Lemma sgr_param_shape (t : term_data) (p : Z) : same_shape t (sgr_param t p).
Proof.
  unfold sgr_param.
  repeat match goal with
         | |- context [if ?b then _ else _] => destruct b
         end; shape.
Qed.

Lemma select_graphic_rendition_shape (t : term_data) (ps : list Z) (n : Z) :
  same_shape t (select_graphic_rendition t ps n).
Proof.
  unfold select_graphic_rendition.
  generalize (firstn (Z.to_nat n) ps) as l. intros l. revert t.
  induction l as [| p l IH]; intros t; cbn [fold_left].
  - apply same_shape_refl.
  - eapply same_shape_trans; [apply sgr_param_shape | apply IH].
Qed.

(** every backend call that returns takes a well-formed state to a
    well-formed state, provided a resize asks for a screen whose size
    is an [int] *)
Lemma step_wf (o : backend_op) (t t' : term_data) :
  op_args_ok o -> op_fits o -> wf t -> step o t = Some t' -> wf t'.
Proof.
  intros Ho Hfit H Hstep.
  destruct (step_inv o t Ho (wf_cursor t H)) as (t1 & E1 & Hinv).
  assert (t1 = t') by congruence. subst t1. clear E1.
  destruct o; cbn [step] in Hstep.
  21: { injection Hstep as <-. destruct Ho as [Ho1 Ho2].
        exact (resize_buffers_wf t new_width new_height H Ho1 Ho2 Hfit). }
  all: apply (wf_same_shape t); try assumption.
  all: try (injection Hstep as <-).
  - eapply display_char_shape, Hstep.
  - apply select_graphic_rendition_shape.
  - apply move_cursor_relative_shape.
  - apply move_cursor_absolute_shape.
  - apply move_cursor_absolute_shape.
  - apply cursor_reverse_index_shape.
  - apply (erase_shape EraseLineAtCursor).
  - apply (erase_shape EraseLineFromBeginningToCursor).
  - apply (erase_shape EraseLineFromCursorToEnd).
  - apply (erase_shape EraseDisplay).
  - apply (erase_shape EraseDisplayFromBeginningToCursor).
  - apply (erase_shape EraseDisplayFromCursorToEnd).
  - apply insert_lines_at_cursor_shape.
  - apply delete_lines_at_cursor_shape.
  - apply delete_characters_at_cursor_shape.
  - eapply same_shape_trans;
      [apply move_cursor_relative_shape | apply set_must_refresh_shape].
  - eapply handle_horiz_tab_shape, Hstep.
  - apply handle_linefeed_shape.
  - eapply same_shape_trans;
      [apply move_cursor_absolute_shape | apply set_must_refresh_shape].
  - apply set_top_and_bottom_margins_shape.
Qed.

(** a terminal created with a screen whose size is an [int] and driven
    by calls that can be made is well formed at every moment *)
Lemma reachable_wf (t : term_data) : reachable t -> wf t.
Proof.
  induction 1 as [w h Hw Hh Hsz | o t t' Ht IH (Ho & Hfit & Hn) Hstep].
  - apply (init_screen w h Hw Hh Hsz).
  - exact (step_wf o t t' Ho Hfit IH Hstep).
Qed.

(** ** The theorems at sample screens *)

(** decide a closed arithmetic fact about a sample screen *)
Ltac by_eval := vm_compute; first [reflexivity | discriminate | intuition discriminate].

Ltac wf_by_eval := constructor; [constructor |..]; by_eval.

Lemma reachable_screen_80_24 : reachable screen_80_24.
Proof.
  apply reachable_init;
    [unfold Int.in_range, Int.min_signed, Int.max_signed; lia ..
    | vm_compute; discriminate].
Defined.

Lemma reachable_screen_cursor_3_5 : reachable screen_cursor_3_5.
Proof.
  apply reachable_step with (o := OpMoveCursorAbsolute 3 5) (t := screen_80_24).
  - exact reachable_screen_80_24.
  - split; [| split; exact I].
    cbn. unfold Int.in_range, Int.min_signed, Int.max_signed. lia.
  - reflexivity.
Defined.


Lemma cursor_within_screen_witness :
  reachable (vt102_generic_backend_resize_buffers screen_cursor_3_5 (-5) 3) /\
  0 <= cursor_x (vt102_generic_backend_resize_buffers screen_cursor_3_5 (-5) 3)
    < con_width (vt102_generic_backend_resize_buffers screen_cursor_3_5 (-5) 3) /\
  0 <= cursor_y (vt102_generic_backend_resize_buffers screen_cursor_3_5 (-5) 3)
    < con_height (vt102_generic_backend_resize_buffers screen_cursor_3_5 (-5) 3).
Proof.
  assert (Hr : reachable (vt102_generic_backend_resize_buffers screen_cursor_3_5 (-5) 3)).
  { apply reachable_step with (o := OpResizeBuffers (-5) 3) (t := screen_cursor_3_5).
    - exact reachable_screen_cursor_3_5.
    - split; [| split; [vm_compute; discriminate | exact I]].
      cbn. unfold Int.in_range, Int.min_signed, Int.max_signed. lia.
    - reflexivity. }
  split; [exact Hr |].
  exact (cursor_within_screen _ Hr).
Defined.

Lemma wf_screen_cursor_3_5 : wf screen_cursor_3_5.
Proof. wf_by_eval. Defined.

Lemma erase_frame_witness :
  wf screen_cursor_3_5 /\
  cursor_x (erase EraseDisplayFromBeginningToCursor screen_cursor_3_5) = 3 /\
  cell_ch (erase EraseDisplayFromBeginningToCursor screen_cursor_3_5) 3 5 = SPACE /\
  cell_ch (erase EraseDisplayFromBeginningToCursor screen_cursor_3_5) 4 5 = CHAR_E.
Proof.
  split; [exact wf_screen_cursor_3_5 |].
  destruct (erase_frame EraseDisplayFromBeginningToCursor screen_cursor_3_5
              wf_screen_cursor_3_5) as ((Hx & _) & _ & _ & _ & Hcells).
  split; [exact Hx |].
  split.
  - exact (proj1 (Hcells 3 5 ltac:(vm_compute; intuition discriminate)
                          ltac:(vm_compute; intuition discriminate))).
  - exact (proj1 (Hcells 4 5 ltac:(vm_compute; intuition discriminate)
                          ltac:(vm_compute; intuition discriminate))).
Defined.

Lemma resize_buffers_spec_witness :
  wf screen_cursor_3_5 /\ Int.in_range 10 /\ Int.in_range (-1) /\
  Z.max 10 NR_MIN_VT102_SCREEN_COLUMNS * Z.max (-1) NR_MIN_VT102_SCREEN_ROWS
  <= Int.max_signed /\
  con_width (vt102_generic_backend_resize_buffers screen_cursor_3_5 10 (-1)) = 10 /\
  con_height (vt102_generic_backend_resize_buffers screen_cursor_3_5 10 (-1)) = 2 /\
  cursor_y (vt102_generic_backend_resize_buffers screen_cursor_3_5 10 (-1)) = 1 /\
  wf (vt102_generic_backend_resize_buffers screen_cursor_3_5 10 (-1)).
Proof.
  assert (H1 : Int.in_range 10)
    by (unfold Int.in_range, Int.min_signed, Int.max_signed; lia).
  assert (H2 : Int.in_range (-1))
    by (unfold Int.in_range, Int.min_signed, Int.max_signed; lia).
  assert (H3 : Z.max 10 NR_MIN_VT102_SCREEN_COLUMNS
               * Z.max (-1) NR_MIN_VT102_SCREEN_ROWS <= Int.max_signed)
    by (vm_compute; discriminate).
  destruct (resize_buffers_spec screen_cursor_3_5 10 (-1) wf_screen_cursor_3_5 H1 H2 H3)
    as ((Hw & Hh) & _ & _ & (_ & Hy) & _ & Hwf).
  split; [exact wf_screen_cursor_3_5 |].
  split; [exact H1 |].
  split; [exact H2 |].
  split; [exact H3 |].
  split; [exact Hw |].
  split; [exact Hh |].
  split; [exact Hy | exact Hwf].
Defined.

Lemma set_top_and_bottom_margins_frame_witness :
  NR_MIN_VT102_SCREEN_ROWS <= con_height screen_cursor_3_5 <= Int.max_signed /\
  margin_top screen_cursor_below_region = 0 /\
  margin_bottom screen_cursor_below_region = 1 /\
  cursor_y screen_cursor_below_region = cursor_y screen_cursor_3_5 /\
  chbuf screen_cursor_below_region = chbuf screen_cursor_3_5.
Proof.
  assert (H : NR_MIN_VT102_SCREEN_ROWS <= con_height screen_cursor_3_5 <= Int.max_signed)
    by (vm_compute; intuition discriminate).
  destruct (set_top_and_bottom_margins_frame screen_cursor_3_5 0 1 H)
    as (_ & (_ & Hy) & (Hch & _) & _).
  split; [exact H |].
  split; [vm_compute; reflexivity |].
  split; [vm_compute; reflexivity |].
  split; [exact Hy | exact Hch].
Defined.

Lemma select_graphic_rendition_range_witness :
  0 <= cur_fg_gc_idx screen_10_2 <= 7 /\ 0 <= cur_bg_gc_idx screen_10_2 <= 7 /\
  0 <= cur_fg_gc_idx (select_graphic_rendition screen_10_2 [31; 44; 7; 99] 4) <= 7 /\
  0 <= cur_bg_gc_idx (select_graphic_rendition screen_10_2 [31; 44; 7; 99] 4) <= 7.
Proof.
  assert (Hf : 0 <= cur_fg_gc_idx screen_10_2 <= 7)
    by (vm_compute; intuition discriminate).
  assert (Hb : 0 <= cur_bg_gc_idx screen_10_2 <= 7)
    by (vm_compute; intuition discriminate).
  destruct (select_graphic_rendition_range screen_10_2 [31; 44; 7; 99] 4 Hf Hb)
    as ((Hf' & Hb') & _).
  split; [exact Hf |].
  split; [exact Hb |].
  split; [exact Hf' | exact Hb'].
Defined.

(** * Further properties of the backend *)

(** ** Invariants of every terminal *)

(** X1: in every reachable state, that is on a screen created and
    resized with a number of cells that is an [int] and edited by
    calls that stay inside the buffers, the screen has at least 10
    columns and 2 rows and the scrolling region is a proper part of
    it: [0 <= margin_top < margin_bottom <= con_height - 1], whatever
    arguments [set_top_and_bottom_margins] was given. *)
Theorem margins_within_screen (t : term_data) :
  reachable t ->
  NR_MIN_VT102_SCREEN_COLUMNS <= con_width t /\
  NR_MIN_VT102_SCREEN_ROWS <= con_height t /\
  0 <= margin_top t /\ margin_top t < margin_bottom t /\
  margin_bottom t <= con_height t - 1.
Proof.
  intros Hr. destruct (reachable_inv t Hr) as [Hw Hh Hmt Hmb _ _].
  repeat split; lia.
Qed.

Lemma margins_within_screen_witness :
  reachable screen_cursor_below_region /\
  margin_top screen_cursor_below_region < margin_bottom screen_cursor_below_region /\
  margin_bottom screen_cursor_below_region <= con_height screen_cursor_below_region - 1.
Proof.
  assert (Hr : reachable screen_cursor_below_region).
  { apply reachable_step with (o := OpSetTopAndBottomMargins 0 1)
                              (t := screen_cursor_3_5).
    - exact reachable_screen_cursor_3_5.
    - split; [| split; exact I].
      cbn. unfold Int.in_range, Int.min_signed, Int.max_signed. lia.
    - reflexivity. }
  split; [exact Hr |].
  destruct (margins_within_screen _ Hr) as (_ & _ & _ & H1 & H2).
  split; [exact H1 | exact H2].
Defined.


(** ** Writing characters *)

(** run any backend function on a state given by its fields *)
Ltac exec_all :=
  cbv beta iota zeta delta
    [display_char insert_lines_at_cursor delete_lines_at_cursor sgr_param
     move_cursor_relative move_cursor_absolute move_cursor_column_absolute
     handle_linefeed handle_backspace handle_carriage_return cursor_reverse_index
     erase_line_at_cursor erase_line_from_beginning_to_cursor
     erase_line_from_cursor_to_end erase_display
     erase_display_from_beginning_to_cursor erase_display_from_cursor_to_end
     delete_characters_at_cursor set_top_and_bottom_margins
     set_cur_fg_gc_idx set_cur_bg_gc_idx set_con_width set_con_height set_chbuf
     set_grbuf set_cursor_x set_cursor_y set_margin_top set_margin_bottom
     set_must_refresh set_must_refresh_line_buf
     cur_fg_gc_idx cur_bg_gc_idx con_width con_height chbuf grbuf cursor_x cursor_y
     margin_top margin_bottom must_refresh must_refresh_line_buf].

(** the rendition byte [display_char] stores *)
Lemma rendition_byte (fg bg : Z) :
  0 <= fg <= 7 -> 0 <= bg <= 7 ->
  Int.to_uchar (Z.lor fg (Int.wrap (Z.shiftl bg 4))) = fg + 16 * bg /\
  Z.land (fg + 16 * bg) 15 = fg /\
  Z.land (Z.shiftr (fg + 16 * bg) 4) 15 = bg.
Proof.
  intros Hf Hb.
  assert (Ef : fg = 0 \/ fg = 1 \/ fg = 2 \/ fg = 3 \/ fg = 4 \/ fg = 5 \/ fg = 6 \/ fg = 7)
    by lia.
  assert (Eb : bg = 0 \/ bg = 1 \/ bg = 2 \/ bg = 3 \/ bg = 4 \/ bg = 5 \/ bg = 6 \/ bg = 7)
    by lia.
  repeat (destruct Ef as [-> | Ef]); try subst fg;
    repeat (destruct Eb as [-> | Eb]); try subst bg;
    vm_compute; repeat split; reflexivity.
Qed.

(** away from the bottom right corner [display_char] changes one cell
    and moves the cursor to the next position in reading order *)
Lemma display_char_next (t : term_data) (ch : Z) :
  wf t -> cursor_x t + 1 < con_width t \/ cursor_y t + 1 < con_height t ->
  exists t',
    display_char t ch = Some t' /\
    (cursor_x t' = (if cursor_x t + 1 =? con_width t then 0 else cursor_x t + 1) /\
     cursor_y t' = (if cursor_x t + 1 =? con_width t then cursor_y t + 1
                    else cursor_y t)) /\
    (forall x y, 0 <= x < con_width t -> 0 <= y < con_height t ->
       cell_ch t' x y =
         (if (x =? cursor_x t) && (y =? cursor_y t) then Int.to_uchar ch
          else cell_ch t x y) /\
       cell_gr t' x y =
         (if (x =? cursor_x t) && (y =? cursor_y t)
          then Int.to_uchar
                 (Z.lor (cur_fg_gc_idx t) (Int.wrap (Z.shiftl (cur_bg_gc_idx t) 4)))
          else cell_gr t x y)) /\
    (forall y, 0 <= y < con_height t ->
       line_dirty t' y =
         if (y =? cursor_y t) || ((y =? cursor_y t') && negb (cursor_y t' =? cursor_y t))
         then true else line_dirty t y) /\
    must_refresh t' = true.
Proof.
  intros H Hpos. open_wf. fields_in Hpos.
  unfold cell_ch, cell_gr, line_dirty. exec_all.
  set (gr := Int.to_uchar (Z.lor fg (Int.wrap (Z.shiftl bg 4)))). clearbody gr.
  destruct (Z.leb_spec w cx); [lia |].
  destruct (Z.leb_spec h cy); [lia |].
  eexists. split; [reflexivity |]. unwrap.
  destruct (Z.eqb_spec (cx + 1) w) as [Ex | Ex]; fields.
  - assert (Hcy1 : cy + 1 < h) by lia.
    destruct (Z.eqb_spec (cy + 1) h); [lia |]. fields.
    split; [split; reflexivity |].
    split; [| split; [| reflexivity]].
    + intros x y Hx Hy.
      pose proof (cell_index_bounds _ _ _ _ Hx Hy) as Hi.
      unfold store. rewrite !rd_memset by lia.
      pose proof (cell_index_lt w x y cx cy Hx Hcx).
      pose proof (cell_index_lt w cx cy x y Hcx Hx).
      destruct (in_run (cy * w + cx) 1 (y * w + x)) eqn:E1;
        destruct ((x =? cx) && (y =? cy)) eqn:E2;
        bool_props; try (exfalso; lia); split; reflexivity.
    + intros y Hy. unfold store.
      rewrite !rd_memset by (rewrite ?length_memset; lia).
      destruct (in_run (cy + 1) 1 y) eqn:E1;
        destruct (in_run cy 1 y) eqn:E2;
        destruct ((y =? cy) || (y =? cy + 1) && negb (cy + 1 =? cy)) eqn:E3;
        bool_props; try (exfalso; lia); try reflexivity.
      all: destruct (Z.eqb_spec (cy + 1) cy); try lia; cbn in *; try discriminate.
  - split; [split; reflexivity |].
    split; [| split; [| reflexivity]].
    + intros x y Hx Hy.
      pose proof (cell_index_bounds _ _ _ _ Hx Hy) as Hi.
      unfold store. rewrite !rd_memset by lia.
      pose proof (cell_index_lt w x y cx cy Hx Hcx).
      pose proof (cell_index_lt w cx cy x y Hcx Hx).
      destruct (in_run (cy * w + cx) 1 (y * w + x)) eqn:E1;
        destruct ((x =? cx) && (y =? cy)) eqn:E2;
        bool_props; try (exfalso; lia); split; reflexivity.
    + intros y Hy. unfold store. rewrite !rd_memset by lia.
      rewrite Z.eqb_refl, andb_false_r, orb_false_r.
      destruct (in_run cy 1 y) eqn:E2; destruct (Z.eqb_spec y cy);
        bool_props; try (exfalso; lia); reflexivity.
Qed.

(** at the bottom right corner of a screen whose scrolling region ends
    on the last row, [display_char] writes the cell and scrolls the
    region up: the character ends on the row above *)
Lemma display_char_corner_scroll (t : term_data) (ch : Z) :
  wf t -> cursor_x t = con_width t - 1 -> cursor_y t = con_height t - 1 ->
  margin_bottom t = con_height t - 1 ->
  exists t',
    display_char t ch = Some t' /\
    (cursor_x t' = 0 /\ cursor_y t' = con_height t - 1) /\
    (forall x y, 0 <= x < con_width t -> 0 <= y < con_height t ->
       cell_ch t' x y =
         (if (margin_top t <=? y) && (y <? con_height t - 1) then
            if (x =? con_width t - 1) && (y =? con_height t - 2) then Int.to_uchar ch
            else cell_ch t x (y + 1)
          else if y =? con_height t - 1 then SPACE else cell_ch t x y) /\
       cell_gr t' x y =
         (if (margin_top t <=? y) && (y <? con_height t - 1) then
            if (x =? con_width t - 1) && (y =? con_height t - 2)
            then Int.to_uchar
                   (Z.lor (cur_fg_gc_idx t) (Int.wrap (Z.shiftl (cur_bg_gc_idx t) 4)))
            else cell_gr t x (y + 1)
          else if y =? con_height t - 1 then 0 else cell_gr t x y)) /\
    (forall y, margin_top t <= y < con_height t -> line_dirty t' y = true) /\
    (forall y, 0 <= y < margin_top t -> line_dirty t' y = line_dirty t y).
Proof.
  intros H Ex Ey Emb. open_wf. fields_in Ex. fields_in Ey. fields_in Emb. subst cx cy mb.
  unfold cell_ch, cell_gr, line_dirty. exec_all.
  set (gr := Int.to_uchar (Z.lor fg (Int.wrap (Z.shiftl bg 4)))). clearbody gr.
  destruct (Z.leb_spec w (w - 1)); [lia |].
  destruct (Z.leb_spec h (h - 1)); [lia |].
  eexists. split; [reflexivity |].
  assert (Hrow : 0 <= (h - 1) * w /\ (h - 1) * w + w = w * h) by nia.
  assert (Hmtw : 0 <= mt * w /\ mt * w + w <= (h - 1) * w) by nia.
  replace (Int.add (w - 1) 1) with w by (unwrap; lia).
  replace (Int.add (h - 1) 1) with h by (unwrap; lia).
  rewrite !Z.eqb_refl. fields.
  replace (Int.sub h 1) with (h - 1) by (unwrap; lia).
  rewrite !Z.eqb_refl. fields.
  replace (Int.add (h - 1) 1) with h by (unwrap; lia).
  replace (Int.sub w 1) with (w - 1) by (unwrap; lia).
  replace (Int.mul (h - 1) w) with ((h - 1) * w) by (unwrap; lia).
  replace (Int.mul mt w) with (mt * w) by (unwrap; lia).
  replace (Int.add mt 1) with (mt + 1) by (unwrap; lia).
  replace (Int.mul (mt + 1) w) with ((mt + 1) * w) by (unwrap; lia).
  replace (Int.sub (h - 1) mt) with (h - 1 - mt) by (unwrap; lia).
  replace (Int.mul (h - 1 - mt) w) with ((h - 1 - mt) * w) by (unwrap; lia).
  replace (Int.add ((h - 1) * w) (w - 1)) with ((h - 1) * w + (w - 1)) by (unwrap; lia).
  replace (Int.add (h - 1 - mt) 1) with (h - mt) by (unwrap; lia).
  split; [| split; [| split]].
  - split; repeat case_if; lia.
  - intros x y Hx Hy.
    pose proof (cell_index_bounds _ _ _ _ Hx Hy) as Hi.
    unfold store.
    rewrite !rd_memset, !rd_memmove by (rewrite ?length_memmove, ?length_memset; lia).
    row_facts w mt x y Hx. row_facts w (h - 1) x y Hx.
    assert (Hlast : 0 <= w - 1 < w) by lia.
    pose proof (cell_index_lt w x (y + 1) (w - 1) (h - 1) Hx Hlast).
    pose proof (cell_index_lt w (w - 1) (h - 1) x (y + 1) Hlast Hx).
    destruct (in_run ((h - 1) * w) w (y * w + x)) eqn:E1;
      destruct (in_run (mt * w) ((h - 1 - mt) * w) (y * w + x)) eqn:E2;
      destruct ((mt <=? y) && (y <? h - 1)) eqn:E3;
      destruct (Z.eqb_spec y (h - 1));
      bool_props; try (exfalso; lia); try (split; reflexivity).
    all: rewrite !rd_memset by lia.
    all: repeat match goal with
           | |- context [in_run ?a ?b ?c] => destruct (in_run a b c) eqn:?
           end.
    all: repeat match goal with
           | |- context [if ?b then _ else _] => destruct b eqn:?
           end.
    all: bool_props; try (exfalso; lia); try (split; reflexivity).
    all: split; f_equal; lia.
  - intros y Hy. unfold store. rewrite !rd_memset by (rewrite ?length_memset; lia).
    destruct (in_run mt (h - mt) y) eqn:E; [reflexivity |]. bool_props; lia.
  - intros y Hy. unfold store. rewrite !rd_memset by (rewrite ?length_memset; lia).
    destruct (in_run mt (h - mt) y) eqn:E1; destruct (in_run (h - 1) 1 y) eqn:E2;
      bool_props; try (exfalso; lia); reflexivity.
Qed.

(** at the bottom right corner of a screen whose scrolling region ends
    above the last row, [display_char] writes the cell and, instead of
    scrolling, moves the cursor to the first column of the bottom margin *)
Lemma display_char_corner_jump (t : term_data) (ch : Z) :
  wf t -> cursor_x t = con_width t - 1 -> cursor_y t = con_height t - 1 ->
  margin_bottom t < con_height t - 1 ->
  exists t',
    display_char t ch = Some t' /\
    (cursor_x t' = 0 /\ cursor_y t' = margin_bottom t) /\
    (forall x y, 0 <= x < con_width t -> 0 <= y < con_height t ->
       cell_ch t' x y =
         (if (x =? con_width t - 1) && (y =? con_height t - 1) then Int.to_uchar ch
          else cell_ch t x y) /\
       cell_gr t' x y =
         (if (x =? con_width t - 1) && (y =? con_height t - 1)
          then Int.to_uchar
                 (Z.lor (cur_fg_gc_idx t) (Int.wrap (Z.shiftl (cur_bg_gc_idx t) 4)))
          else cell_gr t x y)) /\
    (forall y, 0 <= y < con_height t ->
       line_dirty t' y = if y =? con_height t - 1 then true else line_dirty t y).
Proof.
  intros H Ex Ey Emb. open_wf. fields_in Ex. fields_in Ey. fields_in Emb. subst cx cy.
  unfold cell_ch, cell_gr, line_dirty. exec_all.
  set (gr := Int.to_uchar (Z.lor fg (Int.wrap (Z.shiftl bg 4)))). clearbody gr.
  destruct (Z.leb_spec w (w - 1)); [lia |].
  destruct (Z.leb_spec h (h - 1)); [lia |].
  eexists. split; [reflexivity |].
  assert (Hrow : 0 <= (h - 1) * w /\ (h - 1) * w + w = w * h) by nia.
  replace (Int.add (w - 1) 1) with w by (unwrap; lia).
  replace (Int.add (h - 1) 1) with h by (unwrap; lia).
  rewrite !Z.eqb_refl. fields.
  replace (Int.sub h 1) with (h - 1) by (unwrap; lia).
  destruct (Z.eqb_spec (h - 1) mb); [lia |]. fields.
  replace (Int.add (h - 1) 1) with h by (unwrap; lia).
  replace (Int.sub w 1) with (w - 1) by (unwrap; lia).
  replace (Int.mul (h - 1) w) with ((h - 1) * w) by (unwrap; lia).
  replace (Int.add ((h - 1) * w) (w - 1)) with ((h - 1) * w + (w - 1)) by (unwrap; lia).
  split; [| split].
  - split; repeat case_if; lia.
  - intros x y Hx Hy.
    pose proof (cell_index_bounds _ _ _ _ Hx Hy) as Hi.
    unfold store. rewrite !rd_memset by lia.
    assert (Hlast : 0 <= w - 1 < w) by lia.
    pose proof (cell_index_lt w x y (w - 1) (h - 1) Hx Hlast).
    pose proof (cell_index_lt w (w - 1) (h - 1) x y Hlast Hx).
    destruct (in_run ((h - 1) * w + (w - 1)) 1 (y * w + x)) eqn:E1;
      destruct ((x =? w - 1) && (y =? h - 1)) eqn:E2;
      bool_props; try (exfalso; lia); split; reflexivity.
  - intros y Hy. unfold store. rewrite !rd_memset by lia.
    destruct (in_run (h - 1) 1 y) eqn:E1; destruct (Z.eqb_spec y (h - 1));
      bool_props; try (exfalso; lia); reflexivity.
Qed.

(** what [display_char] never changes *)
Lemma display_char_frame_cases (t : term_data) (ch : Z) :
  match display_char t ch with
  | Some t' =>
      con_width t' = con_width t /\ con_height t' = con_height t /\
      margin_top t' = margin_top t /\ margin_bottom t' = margin_bottom t /\
      cur_fg_gc_idx t' = cur_fg_gc_idx t /\ cur_bg_gc_idx t' = cur_bg_gc_idx t /\
      must_refresh t' = true
  | None => True
  end.
Proof.
  destruct t as [fg bg w h chb grb cx cy mt mb mr lines]. exec_all.
  destruct (w <=? cx); [exact I |].
  destruct (h <=? cy); [exact I |].
  destruct (Int.add cx 1 =? w); fields; [| repeat split; reflexivity].
  destruct (Int.add cy 1 =? h); fields; [| repeat split; reflexivity].
  destruct (Int.sub (Int.add cy 1) 1 =? mb); fields; repeat split; reflexivity.
Qed.

Lemma display_char_frame (t t' : term_data) (ch : Z) :
  display_char t ch = Some t' ->
  con_width t' = con_width t /\ con_height t' = con_height t /\
  margin_top t' = margin_top t /\ margin_bottom t' = margin_bottom t /\
  cur_fg_gc_idx t' = cur_fg_gc_idx t /\ cur_bg_gc_idx t' = cur_bg_gc_idx t /\
  must_refresh t' = true.
Proof.
  intros E. pose proof (display_char_frame_cases t ch) as H. now rewrite E in H.
Qed.

(** X3: away from the bottom right corner, [display_char] stores the
    character and the current rendition in the cell under the cursor
    and nowhere else, flags the rows it touched, and moves the cursor
    one column right or, from the last column, to the start of the next
    row, even when that row lies below the scrolling region.  With the
    current colours in 0..7 the cell reads back with exactly these
    colours. *)
Theorem display_char_writes_and_advances (t : term_data) (ch : Z) :
  wf t -> cursor_x t + 1 < con_width t \/ cursor_y t + 1 < con_height t ->
  0 <= cur_fg_gc_idx t <= 7 -> 0 <= cur_bg_gc_idx t <= 7 ->
  exists t',
    display_char t ch = Some t' /\
    (cursor_x t' = (if cursor_x t + 1 =? con_width t then 0 else cursor_x t + 1) /\
     cursor_y t' = (if cursor_x t + 1 =? con_width t then cursor_y t + 1
                    else cursor_y t)) /\
    (cell_ch t' (cursor_x t) (cursor_y t) = ch mod 256 /\
     cell_fg t' (cursor_x t) (cursor_y t) = cur_fg_gc_idx t /\
     cell_bg t' (cursor_x t) (cursor_y t) = cur_bg_gc_idx t) /\
    (forall x y, 0 <= x < con_width t -> 0 <= y < con_height t ->
       x <> cursor_x t \/ y <> cursor_y t ->
       cell_ch t' x y = cell_ch t x y /\ cell_gr t' x y = cell_gr t x y) /\
    (line_dirty t' (cursor_y t) = true /\ line_dirty t' (cursor_y t') = true /\
     must_refresh t' = true).
Proof.
  intros H Hpos Hfg Hbg.
  destruct (display_char_next t ch H Hpos) as (t' & E & (Ex & Ey) & Hcells & Hdirty & Hr).
  pose proof (wf_cursor t H) as [_ _ _ _ Hcx Hcy].
  exists t'. split; [exact E |]. split; [split; assumption |].
  destruct (rendition_byte _ _ Hfg Hbg) as (Eb & Efg & Ebg).
  split; [| split; [| split; [| split]]].
  - destruct (Hcells _ _ Hcx Hcy) as [Hc Hg]. unfold cell_fg, cell_bg.
    rewrite Hc, Hg, !Z.eqb_refl. cbn [andb]. rewrite Eb.
    repeat split; assumption.
  - intros x y Hx Hy Hne. destruct (Hcells x y Hx Hy) as [Hc Hg]. rewrite Hc, Hg.
    destruct ((x =? cursor_x t) && (y =? cursor_y t)) eqn:E1; [| split; reflexivity].
    bool_props. lia.
  - rewrite (Hdirty _ Hcy), Z.eqb_refl. reflexivity.
  - assert (Hy' : 0 <= cursor_y t' < con_height t)
      by (rewrite Ey; destruct (Z.eqb_spec (cursor_x t + 1) (con_width t)); lia).
    rewrite (Hdirty _ Hy'), Z.eqb_refl.
    destruct (cursor_y t' =? cursor_y t); reflexivity.
  - exact Hr.
Qed.

(** X4: at the bottom right corner of a screen whose scrolling region
    reaches the last row, [display_char] writes the character and
    scrolls the region up by one row: the character ends in the last
    column of the row above, the last row is blank with rendition 0,
    rows above the region are untouched and the cursor is at the start
    of the last row. *)
Theorem display_char_scrolls_at_corner (t : term_data) (ch : Z) :
  wf t -> cursor_x t = con_width t - 1 -> cursor_y t = con_height t - 1 ->
  margin_bottom t = con_height t - 1 ->
  exists t',
    display_char t ch = Some t' /\
    (cursor_x t' = 0 /\ cursor_y t' = con_height t - 1) /\
    cell_ch t' (con_width t - 1) (con_height t - 2) = ch mod 256 /\
    (forall x, 0 <= x < con_width t ->
       cell_ch t' x (con_height t - 1) = SPACE /\
       cell_gr t' x (con_height t - 1) = 0) /\
    (forall x y, 0 <= x < con_width t -> margin_top t <= y < con_height t - 1 ->
       x <> con_width t - 1 \/ y <> con_height t - 2 ->
       cell_ch t' x y = cell_ch t x (y + 1) /\ cell_gr t' x y = cell_gr t x (y + 1)) /\
    (forall x y, 0 <= x < con_width t -> 0 <= y < margin_top t ->
       cell_ch t' x y = cell_ch t x y /\ cell_gr t' x y = cell_gr t x y) /\
    (forall y, margin_top t <= y < con_height t -> line_dirty t' y = true).
Proof.
  intros H Ex Ey Emb.
  destruct (display_char_corner_scroll t ch H Ex Ey Emb)
    as (t' & E & Hcur & Hcells & Hdirty & _).
  pose proof (wf_cursor t H) as [Hw Hh Hmt Hmb Hcx Hcy].
  unfold NR_MIN_VT102_SCREEN_COLUMNS, NR_MIN_VT102_SCREEN_ROWS in *.
  exists t'. split; [exact E |]. split; [exact Hcur |].
  split; [| split; [| split; [| split]]].
  - destruct (Hcells (con_width t - 1) (con_height t - 2)) as [Hc _]; try lia.
    rewrite Hc, !Z.eqb_refl.
    destruct ((margin_top t <=? con_height t - 2)
              && (con_height t - 2 <? con_height t - 1)) eqn:E1; [reflexivity |].
    bool_props; lia.
  - intros x Hx. destruct (Hcells x (con_height t - 1)) as [Hc Hg]; try lia.
    rewrite Hc, Hg, Z.eqb_refl.
    destruct ((margin_top t <=? con_height t - 1)
              && (con_height t - 1 <? con_height t - 1)) eqn:E1; [| split; reflexivity].
    bool_props; lia.
  - intros x y Hx Hy Hne. destruct (Hcells x y) as [Hc Hg]; try lia.
    rewrite Hc, Hg.
    destruct ((margin_top t <=? y) && (y <? con_height t - 1)) eqn:E1;
      [| bool_props; lia].
    destruct ((x =? con_width t - 1) && (y =? con_height t - 2)) eqn:E2;
      [bool_props; lia | split; reflexivity].
  - intros x y Hx Hy. destruct (Hcells x y) as [Hc Hg]; try lia.
    rewrite Hc, Hg.
    destruct ((margin_top t <=? y) && (y <? con_height t - 1)) eqn:E1;
      [bool_props; lia |].
    destruct (Z.eqb_spec y (con_height t - 1)); [lia | split; reflexivity].
  - exact Hdirty.
Qed.

(** X5: at the bottom right corner of a screen whose scrolling region
    ends above the last row, [display_char] writes the character
    without scrolling and the cursor jumps to the first column of the
    bottom margin row. *)
Theorem display_char_corner_below_region (t : term_data) (ch : Z) :
  wf t -> cursor_x t = con_width t - 1 -> cursor_y t = con_height t - 1 ->
  margin_bottom t < con_height t - 1 ->
  exists t',
    display_char t ch = Some t' /\
    (cursor_x t' = 0 /\ cursor_y t' = margin_bottom t) /\
    cell_ch t' (con_width t - 1) (con_height t - 1) = ch mod 256 /\
    (forall x y, 0 <= x < con_width t -> 0 <= y < con_height t ->
       x <> con_width t - 1 \/ y <> con_height t - 1 ->
       cell_ch t' x y = cell_ch t x y /\ cell_gr t' x y = cell_gr t x y).
Proof.
  intros H Ex Ey Emb.
  destruct (display_char_corner_jump t ch H Ex Ey Emb)
    as (t' & E & Hcur & Hcells & _).
  pose proof (wf_cursor t H) as [Hw Hh Hmt Hmb Hcx Hcy].
  unfold NR_MIN_VT102_SCREEN_COLUMNS, NR_MIN_VT102_SCREEN_ROWS in *.
  exists t'. split; [exact E |]. split; [exact Hcur |]. split.
  - destruct (Hcells (con_width t - 1) (con_height t - 1)) as [Hc _]; try lia.
    rewrite Hc, !Z.eqb_refl. reflexivity.
  - intros x y Hx Hy Hne. destruct (Hcells x y Hx Hy) as [Hc Hg]. rewrite Hc, Hg.
    destruct ((x =? con_width t - 1) && (y =? con_height t - 1)) eqn:E1;
      [bool_props; lia | split; reflexivity].
Qed.

(** ** Line feed, carriage return, backspace *)

(** X6: [handle_linefeed] keeps the column and moves the cursor one row
    down, kept inside the scrolling region: from a row below the region
    the cursor jumps up to the bottom margin.  Away from the bottom
    margin nothing else changes; on the bottom margin the region
    scrolls up by one row, its last row is blanked with rendition 0 and
    its rows are flagged, while the rows outside the region stay. *)
Theorem handle_linefeed_spec (t : term_data) :
  wf t ->
  let t' := handle_linefeed t in
  (cursor_x t' = cursor_x t /\
   cursor_y t' = Z.max (margin_top t) (Z.min (cursor_y t + 1) (margin_bottom t))) /\
  (cursor_y t <> margin_bottom t ->
   chbuf t' = chbuf t /\ grbuf t' = grbuf t /\
   must_refresh_line_buf t' = must_refresh_line_buf t) /\
  (cursor_y t = margin_bottom t ->
   (forall x y, 0 <= x < con_width t -> margin_top t <= y < margin_bottom t ->
      cell_ch t' x y = cell_ch t x (y + 1) /\ cell_gr t' x y = cell_gr t x (y + 1)) /\
   (forall x, 0 <= x < con_width t ->
      cell_ch t' x (margin_bottom t) = SPACE /\ cell_gr t' x (margin_bottom t) = 0) /\
   (forall x y, 0 <= x < con_width t ->
      0 <= y < margin_top t \/ margin_bottom t < y < con_height t ->
      cell_ch t' x y = cell_ch t x y /\ cell_gr t' x y = cell_gr t x y) /\
   (forall y, margin_top t <= y <= margin_bottom t -> line_dirty t' y = true)) /\
  must_refresh t' = true.
Proof.
  intros H. cbv zeta.
  pose proof (wf_cursor t H) as Hinv.
  split; [| split; [| split; [| reflexivity]]].
  - unfold handle_linefeed.
    destruct (cursor_y t =? margin_bottom t); open_inv; exec;
      split; repeat case_if; wrap_facts; lia.
  - intros Hne. unfold handle_linefeed.
    destruct (Z.eqb_spec (cursor_y t) (margin_bottom t)); [contradiction |].
    repeat split.
  - intros Heq.
    destruct (handle_linefeed_scrolls_up t H Heq) as (Hcells & Hdirty & _).
    destruct Hinv as [Hw Hh Hmt Hmb Hcx Hcy].
    split; [| split; [| split]].
    + intros x y Hx Hy. destruct (Hcells x y) as [Hc Hg]; try lia.
      rewrite Hc, Hg.
      destruct ((margin_top t <=? y) && (y <? margin_bottom t)) eqn:E;
        [split; reflexivity | bool_props; lia].
    + intros x Hx. destruct (Hcells x (margin_bottom t)) as [Hc Hg]; try lia.
      rewrite Hc, Hg, Z.eqb_refl.
      destruct ((margin_top t <=? margin_bottom t)
                && (margin_bottom t <? margin_bottom t)) eqn:E;
        [bool_props; lia | split; reflexivity].
    + intros x y Hx Hy. destruct (Hcells x y) as [Hc Hg]; try lia.
      rewrite Hc, Hg.
      destruct ((margin_top t <=? y) && (y <? margin_bottom t)) eqn:E;
        [bool_props; lia |].
      destruct (Z.eqb_spec y (margin_bottom t)); [lia | split; reflexivity].
    + exact Hdirty.
Qed.

(** X7: [handle_carriage_return] puts the cursor in column 0 and, since
    it goes through [move_cursor_absolute], also brings a cursor that
    is outside the scrolling region onto the nearest margin row; it
    changes no cell and no line flag, and doing it twice is doing it
    once. *)
Theorem handle_carriage_return_spec (t : term_data) :
  cursor_inv t ->
  let t' := handle_carriage_return t in
  cursor_x t' = 0 /\
  cursor_y t' = Z.max (margin_top t) (Z.min (cursor_y t) (margin_bottom t)) /\
  (chbuf t' = chbuf t /\ grbuf t' = grbuf t /\
   must_refresh_line_buf t' = must_refresh_line_buf t) /\
  handle_carriage_return t' = t'.
Proof.
  intros H. cbv zeta. open_inv. exec.
  split; [| split; [| split]].
  - repeat case_if; wrap_facts; lia.
  - repeat case_if; wrap_facts; lia.
  - repeat split.
  - f_equal; repeat case_if; wrap_facts; lia.
Qed.

(** X8: with the cursor in the scrolling region and not in the bottom
    right corner of the screen, a character followed by a backspace
    leaves the character in its cell.  When the character was not
    written in the last column the cursor is back on it.  From the last
    column the character wraps the cursor to the next row, and the
    backspace, which never moves left across rows, leaves it in column
    0: of the next row, or of the same row when that is the bottom
    margin row, because the move brings the cursor back into the
    scrolling region. *)
Theorem display_char_then_backspace (t : term_data) (ch : Z) :
  wf t -> margin_top t <= cursor_y t <= margin_bottom t ->
  cursor_x t + 1 < con_width t \/ cursor_y t + 1 < con_height t ->
  exists t1,
    display_char t ch = Some t1 /\
    let t2 := handle_backspace t1 in
    cell_ch t2 (cursor_x t) (cursor_y t) = ch mod 256 /\
    (cursor_x t + 1 < con_width t ->
     cursor_x t2 = cursor_x t /\ cursor_y t2 = cursor_y t) /\
    (cursor_x t + 1 = con_width t ->
     cursor_x t2 = 0 /\ cursor_y t2 = Z.min (cursor_y t + 1) (margin_bottom t)).
Proof.
  intros H Hreg Hpos.
  pose proof (wf_cursor t H) as [Hw Hh Hmt Hmb Hcx Hcy].
  destruct (display_char_next t ch H Hpos) as (t1 & E & (Ex & Ey) & Hcells & _ & _).
  destruct (display_char_frame t t1 ch E) as (Ew & Eh & Emt & Emb & _).
  exists t1. split; [exact E |]. cbv zeta.
  destruct (Hcells _ _ Hcx Hcy) as [Hc _].
  rewrite !Z.eqb_refl in Hc. cbn [andb] in Hc.
  unfold cell_ch in *.
  destruct t as [fg bg w h chb grb cx cy mt mb mr lines].
  destruct t1 as [fg1 bg1 w1 h1 chb1 grb1 cx1 cy1 mt1 mb1 mr1 lines1].
  unfold NR_MIN_VT102_SCREEN_COLUMNS, NR_MIN_VT102_SCREEN_ROWS, Int.max_signed in *.
  revert Ex Ey Ew Eh Emt Emb Hc Hreg Hpos Hw Hh Hmt Hmb Hcx Hcy. exec.
  intros Ex Ey Ew Eh Emt Emb Hc Hreg Hpos Hw Hh Hmt Hmb Hcx Hcy. subst.
  split; [exact Hc |].
  split; intros Hcol.
  - destruct (Z.eqb_spec (cx + 1) w); [lia |].
    split; repeat case_if; wrap_facts; lia.
  - destruct (Z.eqb_spec (cx + 1) w); [| lia].
    split; repeat case_if; wrap_facts; lia.
Qed.

(** ** Tabulation *)

(** [i] spaces that fit in the row fill the cells from the cursor on
    with the current rendition and leave the cursor behind them *)
Lemma display_spaces_in_row (i : nat) :
  forall t : term_data,
  wf t -> cursor_x t + Z.of_nat i < con_width t ->
  exists t',
    display_spaces i t = Some t' /\ wf t' /\
    (con_width t' = con_width t /\ con_height t' = con_height t) /\
    (cursor_x t' = cursor_x t + Z.of_nat i /\ cursor_y t' = cursor_y t) /\
    (forall x y, 0 <= x < con_width t -> 0 <= y < con_height t ->
       cell_ch t' x y =
         (if (y =? cursor_y t) && (cursor_x t <=? x) && (x <? cursor_x t + Z.of_nat i)
          then SPACE else cell_ch t x y) /\
       cell_gr t' x y =
         (if (y =? cursor_y t) && (cursor_x t <=? x) && (x <? cursor_x t + Z.of_nat i)
          then Int.to_uchar
                 (Z.lor (cur_fg_gc_idx t) (Int.wrap (Z.shiftl (cur_bg_gc_idx t) 4)))
          else cell_gr t x y)).
Proof.
  induction i as [| i IH]; intros t H Hfit; cbn [display_spaces].
  - exists t. split; [reflexivity |]. split; [exact H |].
    split; [split; reflexivity |]. split; [split; lia |].
    intros x y Hx Hy.
    destruct ((y =? cursor_y t) && (cursor_x t <=? x) && (x <? cursor_x t + Z.of_nat 0))
      eqn:E; [bool_props; lia | split; reflexivity].
  - assert (Hpos : cursor_x t + 1 < con_width t \/ cursor_y t + 1 < con_height t)
      by lia.
    destruct (display_char_next t SPACE H Hpos)
      as (t1 & E & (Ex & Ey) & Hcells & _ & _).
    destruct (display_char_frame t t1 SPACE E) as (Ew & Eh & _ & _ & Efg & Ebg & _).
    assert (H1 : wf t1).
    { apply (step_wf (OpDisplayChar SPACE) t t1); try exact I; try assumption.
      cbn. unfold Int.in_urange, SPACE. lia. }
    rewrite E.
    destruct (Z.eqb_spec (cursor_x t + 1) (con_width t)); [lia |].
    destruct (IH t1 H1) as (t' & E' & H' & (Ew' & Eh') & (Ex' & Ey') & Hcells');
      [rewrite Ex, Ew; lia |].
    exists t'. split; [exact E' |]. split; [exact H' |].
    split; [split; congruence |]. split; [split; lia |].
    intros x y Hx Hy.
    destruct (Hcells' x y) as [Hc' Hg']; [rewrite Ew; lia | rewrite Eh; lia |].
    destruct (Hcells x y Hx Hy) as [Hc Hg].
    rewrite Hc', Hg', Hc, Hg, Ex, Ey, Efg, Ebg.
    change (Int.to_uchar SPACE) with SPACE.
    destruct ((y =? cursor_y t) && (cursor_x t + 1 <=? x)
              && (x <? cursor_x t + 1 + Z.of_nat i)) eqn:E1;
      destruct ((y =? cursor_y t) && (cursor_x t <=? x)
                && (x <? cursor_x t + Z.of_nat (S i))) eqn:E2;
      destruct ((x =? cursor_x t) && (y =? cursor_y t)) eqn:E3;
      bool_props; try (exfalso; lia); split; reflexivity.
Qed.

(** X9: when the next multiple of 8 is still on the row,
    [handle_horiz_tab] moves the cursor to that column of the same row
    and overwrites the cells it passes with spaces in the current
    rendition; every other cell stays. *)
Theorem handle_horiz_tab_in_row (t : term_data) :
  wf t -> cursor_x t + (8 - cursor_x t mod 8) < con_width t ->
  exists t',
    handle_horiz_tab t = Some t' /\
    (cursor_x t' = cursor_x t + (8 - cursor_x t mod 8) /\ cursor_x t' mod 8 = 0 /\
     cursor_y t' = cursor_y t) /\
    (forall x y, 0 <= x < con_width t -> 0 <= y < con_height t ->
       cell_ch t' x y =
         (if (y =? cursor_y t) && (cursor_x t <=? x) && (x <? cursor_x t')
          then SPACE else cell_ch t x y) /\
       cell_gr t' x y =
         (if (y =? cursor_y t) && (cursor_x t <=? x) && (x <? cursor_x t')
          then Int.to_uchar
                 (Z.lor (cur_fg_gc_idx t) (Int.wrap (Z.shiftl (cur_bg_gc_idx t) 4)))
          else cell_gr t x y)).
Proof.
  intros H Hfit. unfold handle_horiz_tab.
  destruct (tab_distance_spec t) as [Ed Hd].
  destruct (display_spaces_in_row (Z.to_nat (tab_distance t)) t H)
    as (t1 & E & _ & (Ew & _) & (Ex & Ey) & Hcells); [rewrite Z2Nat.id; lia |].
  rewrite Z2Nat.id in Ex, Hcells by lia. rewrite Ed in Ex, Hcells.
  rewrite E. eexists. split; [reflexivity |].
  unfold cell_ch, cell_gr in *.
  change (cursor_x (set_must_refresh t1 true)) with (cursor_x t1).
  change (cursor_y (set_must_refresh t1 true)) with (cursor_y t1).
  change (chbuf (set_must_refresh t1 true)) with (chbuf t1).
  change (grbuf (set_must_refresh t1 true)) with (grbuf t1).
  change (con_width (set_must_refresh t1 true)) with (con_width t1).
  rewrite Ex, Ey, Ew. rewrite Ew in Hcells.
  split; [| exact Hcells].
  split; [reflexivity |]. split; [| reflexivity].
  pose proof (Z.div_mod (cursor_x t) 8 ltac:(lia)) as Hdm.
  replace (cursor_x t + (8 - cursor_x t mod 8)) with ((cursor_x t / 8 + 1) * 8) by lia.
  apply Z.mod_mul. lia.
Qed.

(** ** Inserting and deleting lines *)

(** remove the wrap-around where linear arithmetic over the facts in
    sight shows the expression in range *)
Ltac unwrap_lia :=
  unfold Int.add, Int.sub, Int.mul;
  repeat match goal with
         | |- context [Int.wrap ?e] =>
             no_wrap e;
             rewrite (wrap_small e)
               by (unfold Int.in_range, Int.min_signed, Int.max_signed; lia)
         end.

Lemma row_offset_bounds (w h r : Z) :
  0 <= w -> 0 <= r <= h -> 0 <= r * w <= w * h.
Proof. intros Hw Hr. nia. Qed.

(** a run of whole rows contains a cell exactly when it contains its row *)
Lemma in_run_rows (w r k x y : Z) :
  0 <= x < w ->
  in_run (r * w) (k * w) (y * w + x) = (r <=? y) && (y <? r + k).
Proof.
  intros Hx.
  assert (H0 : 0 <= 0 < w) by lia.
  pose proof (cell_index_le w 0 r x y H0 Hx).
  pose proof (cell_index_lt w x y 0 (r + k) Hx H0).
  destruct (in_run (r * w) (k * w) (y * w + x)) eqn:E1;
    destruct ((r <=? y) && (y <? r + k)) eqn:E2;
    bool_props; try reflexivity; exfalso; lia.
Qed.

Section RowFacts.

Context {A : Type}.
Variable d : A.

(** [memset] over whole rows, read at a cell *)
Lemma rd_memset_rows (buf : list A) (w h r k : Z) (c : A) (x y : Z) :
  Z.of_nat (length buf) = w * h -> 0 <= x < w -> 0 <= y < h ->
  rd d (memset d buf (r * w) c (k * w)) (y * w + x) =
  if (r <=? y) && (y <? r + k) then c else rd d buf (y * w + x).
Proof.
  intros Hlen Hx Hy. pose proof (cell_index_bounds _ _ _ _ Hx Hy).
  rewrite rd_memset by lia. now rewrite in_run_rows.
Qed.

(** [memmove] of whole rows, read at a cell *)
Lemma rd_memmove_rows (buf : list A) (w h rdst rsrc k x y : Z) :
  Z.of_nat (length buf) = w * h -> 0 <= x < w -> 0 <= y < h ->
  rd d (memmove d buf (rdst * w) (rsrc * w) (k * w)) (y * w + x) =
  if (rdst <=? y) && (y <? rdst + k) then rd d buf ((y - rdst + rsrc) * w + x)
  else rd d buf (y * w + x).
Proof.
  intros Hlen Hx Hy. pose proof (cell_index_bounds _ _ _ _ Hx Hy).
  rewrite rd_memmove by lia. rewrite in_run_rows by assumption.
  destruct ((rdst <=? y) && (y <? rdst + k)); [| reflexivity].
  f_equal. lia.
Qed.

(** [memset] of line flags, read at a row *)
Lemma rd_memset_flags (buf : list A) (h r k : Z) (c : A) (y : Z) :
  Z.of_nat (length buf) = h -> 0 <= y < h ->
  rd d (memset d buf r c k) y = if (r <=? y) && (y <? r + k) then c else rd d buf y.
Proof. intros Hlen Hy. rewrite rd_memset by lia. reflexivity. Qed.

End RowFacts.

(** decide the row tests of the goal and close it by arithmetic *)
Ltac row_cases :=
  repeat match goal with
         | |- context [if ?b then _ else _] => destruct b eqn:?
         end;
  bool_props; try (exfalso; lia); try reflexivity; try (f_equal; lia).

(** [insert_lines_at_cursor] with the cursor in the scrolling region:
    the rows from the cursor to the bottom margin move down by
    [k = min(n, margin_bottom - cursor_y + 1)] rows and the first [k]
    of them are blanked *)
Lemma insert_lines_at_cursor_cells (t : term_data) (n : Z) :
  wf t -> margin_top t <= cursor_y t <= margin_bottom t ->
  0 <= n -> cursor_y t + n <= Int.max_signed ->
  let k := Z.min n (margin_bottom t - cursor_y t + 1) in
  let t' := insert_lines_at_cursor t n in
  (forall x y, 0 <= x < con_width t -> 0 <= y < con_height t ->
     cell_ch t' x y =
       (if (cursor_y t <=? y) && (y <=? margin_bottom t) then
          if y <? cursor_y t + k then SPACE else cell_ch t x (y - k)
        else cell_ch t x y) /\
     cell_gr t' x y =
       (if (cursor_y t <=? y) && (y <=? margin_bottom t) then
          if y <? cursor_y t + k then 0 else cell_gr t x (y - k)
        else cell_gr t x y)) /\
  (forall y, 0 <= y < con_height t ->
     line_dirty t' y =
       if (cursor_y t <=? y) && (y <=? margin_bottom t) then true else line_dirty t y).
Proof.
  intros H Hreg Hn Hov k t'. subst k t'. unfold insert_lines_at_cursor.
  destruct (negb _) eqn:Eneg.
  { apply negb_true_iff in Eneg. bool_props; lia. }
  clear Eneg. open_wf. fields_in Hreg. fields_in Hov.
  unfold cell_ch, cell_gr, line_dirty. fields.
  pose proof (row_offset_bounds w h cy ltac:(lia) ltac:(lia)) as Hcyw.
  pose proof (row_offset_bounds w h (mb + 1) ltac:(lia) ltac:(lia)) as Hmbw.
  replace (Int.add cy n) with (cy + n) by (unwrap; lia).
  destruct (Z.ltb_spec mb (cy + n)) as [Hbig | Hsmall]; fields.
  - replace (Z.min n (mb - cy + 1)) with (mb - cy + 1) by lia.
    unwrap_lia. split.
    + intros x y Hx Hy.
      rewrite !(rd_memset_rows 0 _ w h) by assumption.
      split; row_cases.
    + intros y Hy. rewrite (rd_memset_flags false _ h) by assumption. row_cases.
  - replace (Z.min n (mb - cy + 1)) with n by lia.
    pose proof (row_offset_bounds w h n ltac:(lia) ltac:(lia)) as Hnw.
    pose proof (row_offset_bounds w h (cy + n) ltac:(lia) ltac:(lia)) as Hiw.
    pose proof (row_offset_bounds w h (mb - (cy + n) + 1) ltac:(lia) ltac:(lia)) as Hmw.
    pose proof (row_offset_bounds w h (mb - n + 1) ltac:(lia) ltac:(lia)) as Hrw.
    unwrap_lia. split.
    + intros x y Hx Hy.
      rewrite !(rd_memset_rows 0 _ w h), !(rd_memmove_rows 0 _ w h)
        by (rewrite ?length_memmove; assumption).
      split; row_cases.
    + intros y Hy. rewrite (rd_memset_flags false _ h) by assumption. row_cases.
Qed.

(** [delete_lines_at_cursor] with the cursor in the scrolling region:
    the rows below the [k = min(n, margin_bottom - cursor_y + 1)]
    deleted ones move up by [k] rows and the last [k] rows of the
    region are blanked *)
Lemma delete_lines_at_cursor_cells (t : term_data) (n : Z) :
  wf t -> margin_top t <= cursor_y t <= margin_bottom t ->
  0 <= n -> cursor_y t + n <= Int.max_signed ->
  let k := Z.min n (margin_bottom t - cursor_y t + 1) in
  let t' := delete_lines_at_cursor t n in
  (forall x y, 0 <= x < con_width t -> 0 <= y < con_height t ->
     cell_ch t' x y =
       (if (cursor_y t <=? y) && (y <=? margin_bottom t) then
          if y <=? margin_bottom t - k then cell_ch t x (y + k) else SPACE
        else cell_ch t x y) /\
     cell_gr t' x y =
       (if (cursor_y t <=? y) && (y <=? margin_bottom t) then
          if y <=? margin_bottom t - k then cell_gr t x (y + k) else 0
        else cell_gr t x y)) /\
  (forall y, 0 <= y < con_height t ->
     line_dirty t' y =
       if (cursor_y t <=? y) && (y <=? margin_bottom t) then true else line_dirty t y).
Proof.
  intros H Hreg Hn Hov k t'. subst k t'. unfold delete_lines_at_cursor.
  destruct (negb _) eqn:Eneg.
  { apply negb_true_iff in Eneg. bool_props; lia. }
  clear Eneg. open_wf. fields_in Hreg. fields_in Hov.
  unfold cell_ch, cell_gr, line_dirty. fields.
  pose proof (row_offset_bounds w h cy ltac:(lia) ltac:(lia)) as Hcyw.
  pose proof (row_offset_bounds w h (mb + 1) ltac:(lia) ltac:(lia)) as Hmbw.
  replace (Int.add cy n) with (cy + n) by (unwrap; lia).
  destruct (Z.ltb_spec mb (cy + n)) as [Hbig | Hsmall]; fields.
  - replace (Z.min n (mb - cy + 1)) with (mb - cy + 1) by lia.
    unwrap_lia. split.
    + intros x y Hx Hy.
      rewrite !(rd_memset_rows 0 _ w h) by assumption.
      split; row_cases.
    + intros y Hy. rewrite (rd_memset_flags false _ h) by assumption. row_cases.
  - replace (Z.min n (mb - cy + 1)) with n by lia.
    pose proof (row_offset_bounds w h n ltac:(lia) ltac:(lia)) as Hnw.
    pose proof (row_offset_bounds w h (cy + n) ltac:(lia) ltac:(lia)) as Hiw.
    pose proof (row_offset_bounds w h (mb - (cy + n) + 1) ltac:(lia) ltac:(lia)) as Hmw.
    pose proof (row_offset_bounds w h (mb - n + 1) ltac:(lia) ltac:(lia)) as Hrw.
    unwrap_lia. split.
    + intros x y Hx Hy.
      rewrite !(rd_memset_rows 0 _ w h), !(rd_memmove_rows 0 _ w h)
        by (rewrite ?length_memmove; assumption).
      split; row_cases.
    + intros y Hy. rewrite (rd_memset_flags false _ h) by assumption. row_cases.
Qed.

Lemma insert_lines_at_cursor_frame (t : term_data) (n : Z) :
  let t' := insert_lines_at_cursor t n in
  (cursor_x t' = cursor_x t /\ cursor_y t' = cursor_y t) /\
  (margin_top t' = margin_top t /\ margin_bottom t' = margin_bottom t) /\
  (con_width t' = con_width t /\ con_height t' = con_height t) /\
  (cur_fg_gc_idx t' = cur_fg_gc_idx t /\ cur_bg_gc_idx t' = cur_bg_gc_idx t).
Proof.
  cbv zeta. unfold insert_lines_at_cursor.
  destruct (negb _); [repeat split |].
  destruct (margin_bottom t <? Int.add (cursor_y t) n); repeat split.
Qed.

Lemma delete_lines_at_cursor_frame (t : term_data) (n : Z) :
  let t' := delete_lines_at_cursor t n in
  (cursor_x t' = cursor_x t /\ cursor_y t' = cursor_y t) /\
  (margin_top t' = margin_top t /\ margin_bottom t' = margin_bottom t) /\
  (con_width t' = con_width t /\ con_height t' = con_height t) /\
  (cur_fg_gc_idx t' = cur_fg_gc_idx t /\ cur_bg_gc_idx t' = cur_bg_gc_idx t).
Proof.
  cbv zeta. unfold delete_lines_at_cursor.
  destruct (negb _); [repeat split |].
  destruct (margin_bottom t <? Int.add (cursor_y t) n); repeat split.
Qed.

(** X10: [insert_lines_at_cursor] does nothing when the cursor is
    outside the scrolling region.  Inside it, with
    [k = min(n, margin_bottom - cursor_y + 1)], the [k] rows at the
    cursor become blank with rendition 0, the rows that were there move
    down by [k], those pushed past the bottom margin are lost, the rows
    outside [cursor_y .. margin_bottom] stay, and the cursor does not
    move. *)
Theorem insert_lines_at_cursor_spec (t : term_data) (n : Z) :
  wf t -> 0 <= n -> cursor_y t + n <= Int.max_signed ->
  let k := Z.min n (margin_bottom t - cursor_y t + 1) in
  let t' := insert_lines_at_cursor t n in
  (cursor_y t < margin_top t \/ margin_bottom t < cursor_y t -> t' = t) /\
  (margin_top t <= cursor_y t <= margin_bottom t ->
   (forall x y, 0 <= x < con_width t -> cursor_y t <= y < cursor_y t + k ->
      cell_ch t' x y = SPACE /\ cell_gr t' x y = 0) /\
   (forall x y, 0 <= x < con_width t -> cursor_y t + k <= y <= margin_bottom t ->
      cell_ch t' x y = cell_ch t x (y - k) /\ cell_gr t' x y = cell_gr t x (y - k)) /\
   (forall x y, 0 <= x < con_width t ->
      0 <= y < cursor_y t \/ margin_bottom t < y < con_height t ->
      cell_ch t' x y = cell_ch t x y /\ cell_gr t' x y = cell_gr t x y) /\
   (forall y, cursor_y t <= y <= margin_bottom t -> line_dirty t' y = true)) /\
  (cursor_x t' = cursor_x t /\ cursor_y t' = cursor_y t).
Proof.
  intros H Hn Hov k t'.
  pose proof (wf_cursor t H) as [Hw Hh Hmt Hmb Hcx Hcy].
  split; [| split].
  - intros Hout. subst t'. unfold insert_lines_at_cursor.
    destruct (negb _) eqn:E; [reflexivity |].
    apply negb_false_iff in E. bool_props; lia.
  - intros Hreg.
    destruct (insert_lines_at_cursor_cells t n H Hreg Hn Hov) as [Hcells Hdirty].
    fold k t' in Hcells, Hdirty.
    assert (Hk : 0 <= k <= margin_bottom t - cursor_y t + 1) by (subst k; lia).
    split; [| split; [| split]].
    + intros x y Hx Hy. destruct (Hcells x y) as [Hc Hg]; try lia.
      rewrite Hc, Hg. split; row_cases.
    + intros x y Hx Hy. destruct (Hcells x y) as [Hc Hg]; try lia.
      rewrite Hc, Hg. split; row_cases.
    + intros x y Hx Hy. destruct (Hcells x y) as [Hc Hg]; try lia.
      rewrite Hc, Hg. split; row_cases.
    + intros y Hy. rewrite Hdirty by lia. row_cases.
  - apply (insert_lines_at_cursor_frame t n).
Qed.

(** X11: [delete_lines_at_cursor] does nothing when the cursor is
    outside the scrolling region.  Inside it, with
    [k = min(n, margin_bottom - cursor_y + 1)], the rows below the [k]
    deleted ones move up by [k], the last [k] rows of the region become
    blank with rendition 0, the rows outside
    [cursor_y .. margin_bottom] stay, and the cursor does not move. *)
Theorem delete_lines_at_cursor_spec (t : term_data) (n : Z) :
  wf t -> 0 <= n -> cursor_y t + n <= Int.max_signed ->
  let k := Z.min n (margin_bottom t - cursor_y t + 1) in
  let t' := delete_lines_at_cursor t n in
  (cursor_y t < margin_top t \/ margin_bottom t < cursor_y t -> t' = t) /\
  (margin_top t <= cursor_y t <= margin_bottom t ->
   (forall x y, 0 <= x < con_width t -> cursor_y t <= y <= margin_bottom t - k ->
      cell_ch t' x y = cell_ch t x (y + k) /\ cell_gr t' x y = cell_gr t x (y + k)) /\
   (forall x y, 0 <= x < con_width t -> margin_bottom t - k < y <= margin_bottom t ->
      cell_ch t' x y = SPACE /\ cell_gr t' x y = 0) /\
   (forall x y, 0 <= x < con_width t ->
      0 <= y < cursor_y t \/ margin_bottom t < y < con_height t ->
      cell_ch t' x y = cell_ch t x y /\ cell_gr t' x y = cell_gr t x y) /\
   (forall y, cursor_y t <= y <= margin_bottom t -> line_dirty t' y = true)) /\
  (cursor_x t' = cursor_x t /\ cursor_y t' = cursor_y t).
Proof.
  intros H Hn Hov k t'.
  pose proof (wf_cursor t H) as [Hw Hh Hmt Hmb Hcx Hcy].
  split; [| split].
  - intros Hout. subst t'. unfold delete_lines_at_cursor.
    destruct (negb _) eqn:E; [reflexivity |].
    apply negb_false_iff in E. bool_props; lia.
  - intros Hreg.
    destruct (delete_lines_at_cursor_cells t n H Hreg Hn Hov) as [Hcells Hdirty].
    fold k t' in Hcells, Hdirty.
    assert (Hk : 0 <= k <= margin_bottom t - cursor_y t + 1) by (subst k; lia).
    split; [| split; [| split]].
    + intros x y Hx Hy. destruct (Hcells x y) as [Hc Hg]; try lia.
      rewrite Hc, Hg. split; row_cases.
    + intros x y Hx Hy. destruct (Hcells x y) as [Hc Hg]; try lia.
      rewrite Hc, Hg. split; row_cases.
    + intros x y Hx Hy. destruct (Hcells x y) as [Hc Hg]; try lia.
      rewrite Hc, Hg. split; row_cases.
    + intros y Hy. rewrite Hdirty by lia. row_cases.
  - apply (delete_lines_at_cursor_frame t n).
Qed.

(** X12: with the cursor inside the scrolling region, inserting [n]
    lines at the cursor and then deleting [n] lines there does not
    restore the screen: the rows from the cursor down are back in
    place, but the last [k = min(n, margin_bottom - cursor_y + 1)] rows
    of the scrolling region are blank.  With the cursor outside the
    region both calls do nothing. *)
Theorem insert_then_delete_lines (t : term_data) (n : Z) :
  wf t -> 0 <= n -> cursor_y t + n <= Int.max_signed ->
  let k := Z.min n (margin_bottom t - cursor_y t + 1) in
  let t' := delete_lines_at_cursor (insert_lines_at_cursor t n) n in
  (cursor_y t < margin_top t \/ margin_bottom t < cursor_y t -> t' = t) /\
  (margin_top t <= cursor_y t <= margin_bottom t ->
   forall x y, 0 <= x < con_width t -> 0 <= y < con_height t ->
   cell_ch t' x y =
     (if (margin_bottom t - k <? y) && (y <=? margin_bottom t) then SPACE
      else cell_ch t x y) /\
   cell_gr t' x y =
     (if (margin_bottom t - k <? y) && (y <=? margin_bottom t) then 0
      else cell_gr t x y)).
Proof.
  intros H Hn Hov k t'.
  pose proof (wf_cursor t H) as [Hw Hh Hmt Hmb Hcx Hcy].
  split.
  { intros Hout. subst t'.
    assert (E : insert_lines_at_cursor t n = t).
    { unfold insert_lines_at_cursor. destruct (negb _) eqn:E; [reflexivity |].
      apply negb_false_iff in E. bool_props; lia. }
    rewrite E. unfold delete_lines_at_cursor. destruct (negb _) eqn:E'; [reflexivity |].
    apply negb_false_iff in E'. bool_props; lia. }
  intros Hreg x y Hx Hy.
  destruct (insert_lines_at_cursor_frame t n)
    as ((_ & Ey) & (Emt & Emb) & (Ew & Eh) & _).
  destruct (insert_lines_at_cursor_cells t n H Hreg Hn Hov) as [Hins _].
  assert (H1 : wf (insert_lines_at_cursor t n)).
  { apply (step_wf (OpInsertLinesAtCursor n) t); try exact I; try assumption.
    - cbn. unfold Int.in_range, Int.min_signed, Int.max_signed in *. lia.
    - reflexivity. }
  destruct (delete_lines_at_cursor_cells (insert_lines_at_cursor t n) n H1)
    as [Hdel _]; try (rewrite ?Ey, ?Emt, ?Emb; lia).
  rewrite Ey, Emb, Ew, Eh in Hdel. fold k in Hdel, Hins.
  assert (Hk : 0 <= k <= margin_bottom t - cursor_y t + 1) by (subst k; lia).
  subst t'. destruct (Hdel x y Hx Hy) as [Hc Hg]. rewrite Hc, Hg.
  destruct ((cursor_y t <=? y) && (y <=? margin_bottom t)) eqn:E1.
  - destruct (Z.leb_spec y (margin_bottom t - k)).
    + destruct (Hins x (y + k)) as [Hc' Hg']; try (bool_props; lia).
      rewrite Hc', Hg'. replace (y + k - k) with y by lia.
      bool_props. split; row_cases.
    + bool_props. split; row_cases.
  - destruct (Hins x y Hx Hy) as [Hc' Hg']. rewrite Hc', Hg', E1.
    bool_props; split; row_cases.
Qed.

(** ** Colours stay in the palette *)

Section ForallFacts.

Context {A : Type}.
Variable d : A.
Variable P : A -> Prop.
Hypothesis Pd : P d.

Lemma Forall_tabulate (n : nat) (f : Z -> A) :
  (forall i, P (f i)) -> Forall P (tabulate n f).
Proof.
  intros Hf. unfold tabulate. apply Forall_forall. intros a Ha.
  apply in_map_iff in Ha. destruct Ha as (i & <- & _). apply Hf.
Qed.

Lemma rd_Forall (buf : list A) (i : Z) : Forall P buf -> P (rd d buf i).
Proof.
  intros Hbuf. unfold rd. destruct (i <? 0); [exact Pd |].
  destruct (Nat.lt_ge_cases (Z.to_nat i) (length buf)) as [Hlt | Hge].
  - eapply Forall_forall; [exact Hbuf |]. now apply nth_In.
  - now rewrite nth_overflow.
Qed.

Lemma Forall_memset (buf : list A) (off : Z) (c : A) (n : Z) :
  Forall P buf -> P c -> Forall P (memset d buf off c n).
Proof.
  intros Hbuf Hc. apply Forall_tabulate. intros i.
  destruct (in_run off n i); [exact Hc | now apply rd_Forall].
Qed.

Lemma Forall_memcpy (dst : list A) (doff : Z) (src : list A) (soff n : Z) :
  Forall P dst -> Forall P src -> Forall P (memcpy d dst doff src soff n).
Proof.
  intros Hdst Hsrc. apply Forall_tabulate. intros i.
  destruct (in_run doff n i); now apply rd_Forall.
Qed.

Lemma Forall_memmove (buf : list A) (doff soff n : Z) :
  Forall P buf -> Forall P (memmove d buf doff soff n).
Proof. intros Hbuf. now apply Forall_memcpy. Qed.

Lemma Forall_store (buf : list A) (i : Z) (v : A) :
  Forall P buf -> P v -> Forall P (store d buf i v).
Proof. apply Forall_memset. Qed.

Lemma Forall_malloc (n : Z) : Forall P (malloc d n).
Proof.
  unfold malloc. apply Forall_forall. intros a Ha.
  apply repeat_spec in Ha. now subst a.
Qed.

End ForallFacts.

Lemma Forall_copy_rows (P : Z -> Prop) (rows : nat) (i : Z) (nb : list Z) (nw : Z)
    (ob : list Z) (ow w : Z) :
  P 0 -> Forall P nb -> Forall P ob -> Forall P (copy_rows rows i nb nw ob ow w).
Proof.
  intros P0 Hnb Hob. revert i nb Hnb.
  induction rows as [| rows IH]; intros i nb Hnb; cbn [copy_rows]; [exact Hnb |].
  apply IH. now apply Forall_memcpy.
Qed.

Lemma rendition_ok_byte (fg bg : Z) :
  0 <= fg <= 7 -> 0 <= bg <= 7 ->
  rendition_ok (Int.to_uchar (Z.lor fg (Int.wrap (Z.shiftl bg 4)))) = true.
Proof.
  intros Hf Hb. destruct (rendition_byte fg bg Hf Hb) as (E & Efg & Ebg).
  rewrite E. unfold rendition_ok. rewrite Efg, Ebg.
  repeat (apply andb_true_iff; split); try apply Z.leb_le; try apply Z.ltb_lt; lia.
Qed.

(** close a goal [palette_ok] of a state given by its fields *)
Ltac palette :=
  match goal with
  | H : palette_ok ?t |- _ =>
      destruct H as (Hfg & Hbg & Hgr);
      destruct t as [fg bg w h chb grb cx cy mt mb mr lines];
      fields_in Hfg; fields_in Hbg; fields_in Hgr
  end;
  unfold palette_ok; exec_all;
  split; [assumption | split; [assumption |]];
  repeat first
    [ assumption
    | apply Forall_memset
    | apply Forall_memmove
    | apply Forall_store
    | reflexivity
    | apply rendition_ok_byte ].

Lemma handle_linefeed_palette (t : term_data) :
  palette_ok t -> palette_ok (handle_linefeed t).
Proof.
  intros H. unfold handle_linefeed.
  destruct (cursor_y t =? margin_bottom t); palette.
Qed.

Lemma display_char_palette (t t' : term_data) (ch : Z) :
  palette_ok t -> display_char t ch = Some t' -> palette_ok t'.
Proof.
  intros H. unfold display_char.
  destruct (con_width t <=? cursor_x t); [discriminate |].
  destruct (con_height t <=? cursor_y t); [discriminate |].
  intros E. injection E as <-. cbv zeta.
  assert (Hset : forall s b, palette_ok s -> palette_ok (set_must_refresh s b))
    by (intros s b Hs; exact Hs).
  apply Hset.
  repeat match goal with
         | |- palette_ok (if ?c then _ else _) => destruct c
         end.
  - apply handle_linefeed_palette. palette.
  - palette.
  - palette.
Qed.

Lemma display_spaces_palette (i : nat) (t t' : term_data) :
  palette_ok t -> display_spaces i t = Some t' -> palette_ok t'.
Proof.
  revert t. induction i as [| i IH]; intros t H; cbn [display_spaces].
  - intros E. now injection E as <-.
  - destruct (display_char t SPACE) as [t1 |] eqn:E1; [| discriminate].
    apply IH. eapply display_char_palette; eassumption.
Qed.

Lemma sgr_param_palette (t : term_data) (p : Z) :
  palette_ok t -> palette_ok (sgr_param t p).
Proof.
  intros (Hfg & Hbg & Hgr).
  destruct (sgr_param_range t p Hfg Hbg) as [Hfg' Hbg'].
  split; [exact Hfg' | split; [exact Hbg' |]].
  unfold sgr_param.
  repeat match goal with
         | |- context [if ?b then _ else _] => destruct b
         end; exact Hgr.
Qed.

Lemma step_palette (o : backend_op) (t t' : term_data) :
  palette_ok t -> step o t = Some t' -> palette_ok t'.
Proof.
  intros H Hstep. destruct o; cbn [step] in Hstep.
  1: exact (display_char_palette t t' ch H Hstep).
  16: { unfold handle_horiz_tab in Hstep.
        destruct (display_spaces _ t) as [t1 |] eqn:E1; [| discriminate].
        injection Hstep as <-.
        exact (display_spaces_palette _ t t1 H E1). }
  all: injection Hstep as <-.
  - unfold select_graphic_rendition.
    generalize (firstn (Z.to_nat nr_params) cmd_params) as l. intros l.
    revert t H. induction l as [| p l IH]; intros t H; cbn [fold_left]; [exact H |].
    apply IH. now apply sgr_param_palette.
  - palette.
  - palette.
  - palette.
  - unfold cursor_reverse_index. destruct (cursor_y t =? margin_top t); palette.
  - palette.
  - palette.
  - palette.
  - palette.
  - palette.
  - palette.
  - unfold insert_lines_at_cursor. destruct (negb _); [exact H |].
    destruct (margin_bottom t <? Int.add (cursor_y t) nr_lines); palette.
  - unfold delete_lines_at_cursor. destruct (negb _); [exact H |].
    destruct (margin_bottom t <? Int.add (cursor_y t) nr_lines); palette.
  - unfold delete_characters_at_cursor. destruct (nr_characters <=? 0); [exact H |].
    palette.
  - palette.
  - apply handle_linefeed_palette, H.
  - palette.
  - palette.
  - destruct H as (Hfg & Hbg & Hgr).
    split; [exact Hfg | split; [exact Hbg |]].
    unfold vt102_generic_backend_resize_buffers. cbv zeta.
    cbv beta iota zeta delta
      [set_margin_bottom set_margin_top set_cursor_y set_cursor_x set_con_height
       set_con_width set_must_refresh set_must_refresh_line_buf set_grbuf set_chbuf
       grbuf].
    apply Forall_copy_rows; [reflexivity | | exact Hgr].
    apply Forall_memset; [reflexivity | | reflexivity].
    apply Forall_malloc. reflexivity.
Qed.

Lemma init_palette (width height : Z) :
  palette_ok (init_vt102_generic_backend width height).
Proof.
  unfold palette_ok, init_vt102_generic_backend. cbn [cur_fg_gc_idx cur_bg_gc_idx grbuf].
  split; [lia | split; [lia |]].
  apply Forall_memset; [reflexivity | | reflexivity].
  apply Forall_malloc. reflexivity.
Qed.

Lemma reachable_palette (t : term_data) : reachable t -> palette_ok t.
Proof.
  induction 1 as [w h Hw Hh Hsz | o t t' Ht IH Ho Hstep].
  - apply init_palette.
  - eapply step_palette; eassumption.
Qed.

(** X13: in every reachable state, that is on a screen created and
    resized with a number of cells that is an [int] and edited by
    calls that stay inside the buffers, the current foreground and
    background and the two colours packed in every rendition byte are
    ANSI colour indices 0..7, so a renderer can index an 8-entry colour
    table with them. *)
Theorem colours_within_palette (t : term_data) :
  reachable t ->
  (0 <= cur_fg_gc_idx t <= 7 /\ 0 <= cur_bg_gc_idx t <= 7) /\
  forall x y, 0 <= cell_fg t x y <= 7 /\ 0 <= cell_bg t x y <= 7.
Proof.
  intros Hr. destruct (reachable_palette t Hr) as (Hfg & Hbg & Hgr). split; [split; assumption |].
  intros x y. unfold cell_fg, cell_bg, cell_gr.
  assert (Hb : rendition_ok (rd 0 (grbuf t) (y * con_width t + x)) = true)
    by (apply rd_Forall; [reflexivity | exact Hgr]).
  unfold rendition_ok in Hb. bool_props.
  pose proof (Z.land_nonneg (rd 0 (grbuf t) (y * con_width t + x)) 15).
  pose proof (Z.land_nonneg (Z.shiftr (rd 0 (grbuf t) (y * con_width t + x)) 4) 15).
  lia.
Qed.

(** ** Changed rows are flagged *)

Lemma tracked_refl (t : term_data) : tracked t t.
Proof. repeat split; trivial. Qed.

Lemma tracked_trans (t1 t2 t3 : term_data) :
  tracked t1 t2 -> tracked t2 t3 -> tracked t1 t3.
Proof.
  intros (Ew & Eh & H12) (Ew' & Eh' & H23).
  split; [congruence | split; [congruence |]].
  intros y Hy Hf.
  destruct (H23 y) as [Hf2 Hc23]; [rewrite Eh; exact Hy | exact Hf |].
  destruct (H12 y Hy Hf2) as [Hf1 Hc12].
  split; [exact Hf1 |]. intros x Hx.
  destruct (Hc23 x) as [Hc Hg]; [rewrite Ew; exact Hx |].
  destruct (Hc12 x Hx) as [Hc' Hg']. split; congruence.
Qed.

(** a state with the buffers and flags of [t] *)
Lemma tracked_same_buffers (t t' : term_data) :
  con_width t' = con_width t -> con_height t' = con_height t ->
  chbuf t' = chbuf t -> grbuf t' = grbuf t ->
  must_refresh_line_buf t' = must_refresh_line_buf t ->
  tracked t t'.
Proof.
  intros Ew Eh Ec Eg Ef. split; [exact Ew | split; [exact Eh |]].
  unfold line_dirty, cell_ch, cell_gr. rewrite Ew, Ec, Eg, Ef.
  intros y Hy Hf. split; [exact Hf |]. intros x Hx. split; reflexivity.
Qed.

(** a state that flags the rows [flagged] and changes no other row *)
Lemma tracked_rows (t t' : term_data) (flagged : Z -> bool) :
  con_width t' = con_width t -> con_height t' = con_height t ->
  (forall y, 0 <= y < con_height t ->
     line_dirty t' y = if flagged y then true else line_dirty t y) ->
  (forall x y, 0 <= x < con_width t -> 0 <= y < con_height t -> flagged y = false ->
     cell_ch t' x y = cell_ch t x y /\ cell_gr t' x y = cell_gr t x y) ->
  tracked t t'.
Proof.
  intros Ew Eh Hflags Hcells. split; [exact Ew | split; [exact Eh |]].
  intros y Hy Hf. rewrite (Hflags y Hy) in Hf.
  destruct (flagged y) eqn:E; [discriminate |].
  split; [exact Hf |]. intros x Hx. now apply Hcells.
Qed.

Lemma handle_linefeed_tracked (t : term_data) : wf t -> tracked t (handle_linefeed t).
Proof.
  intros H. destruct (Z.eq_dec (cursor_y t) (margin_bottom t)) as [Heq | Hne].
  - destruct (handle_linefeed_scrolls_up t H Heq) as (Hcells & Hin & Hout & _).
    pose proof (wf_cursor t H) as [_ _ Hmt Hmb _ _].
    apply tracked_rows
      with (flagged := fun y => (margin_top t <=? y) && (y <=? margin_bottom t)).
    + apply (handle_linefeed_shape t).
    + apply (handle_linefeed_shape t).
    + intros y Hy.
      destruct ((margin_top t <=? y) && (y <=? margin_bottom t)) eqn:E; bool_props.
      * apply Hin. lia.
      * apply Hout. lia.
      * apply Hout. lia.
    + intros x y Hx Hy E. destruct (Hcells x y Hx Hy) as [Hc Hg]. rewrite Hc, Hg.
      bool_props; split; row_cases.
  - unfold handle_linefeed.
    destruct (Z.eqb_spec (cursor_y t) (margin_bottom t)); [contradiction |].
    apply tracked_same_buffers; reflexivity.
Qed.

Lemma cursor_reverse_index_tracked (t : term_data) :
  wf t -> tracked t (cursor_reverse_index t).
Proof.
  intros H. destruct (Z.eq_dec (cursor_y t) (margin_top t)) as [Heq | Hne].
  - destruct (cursor_reverse_index_scrolls_down t H Heq) as (Hcells & Hin & Hout & _).
    pose proof (wf_cursor t H) as [_ _ Hmt Hmb _ _].
    apply tracked_rows
      with (flagged := fun y => (margin_top t <=? y) && (y <=? margin_bottom t)).
    + apply (cursor_reverse_index_shape t).
    + apply (cursor_reverse_index_shape t).
    + intros y Hy.
      destruct ((margin_top t <=? y) && (y <=? margin_bottom t)) eqn:E; bool_props.
      * apply Hin. lia.
      * apply Hout. lia.
      * apply Hout. lia.
    + intros x y Hx Hy E. destruct (Hcells x y Hx Hy) as [Hc Hg]. rewrite Hc, Hg.
      bool_props; split; row_cases.
  - unfold cursor_reverse_index.
    destruct (Z.eqb_spec (cursor_y t) (margin_top t)); [contradiction |].
    apply tracked_same_buffers; reflexivity.
Qed.

Lemma display_char_tracked (t t' : term_data) (ch : Z) :
  wf t -> display_char t ch = Some t' -> tracked t t'.
Proof.
  intros H E.
  pose proof (wf_cursor t H) as [Hw Hh Hmt Hmb Hcx Hcy].
  destruct (display_char_frame t t' ch E) as (Ew & Eh & _).
  destruct (Z_lt_le_dec (cursor_x t + 1) (con_width t)) as [Hx1 | Hx1];
    [| destruct (Z_lt_le_dec (cursor_y t + 1) (con_height t)) as [Hy1 | Hy1]].
  - destruct (display_char_next t ch H (or_introl Hx1))
      as (t1 & E1 & (_ & Ey) & Hcells & Hdirty & _).
    assert (t1 = t') by congruence. subst t1.
    destruct (Z.eqb_spec (cursor_x t + 1) (con_width t)); [lia |].
    apply tracked_rows with (flagged := fun y => y =? cursor_y t); try assumption.
    + intros y Hy. rewrite (Hdirty y Hy), Ey, Z.eqb_refl. cbn [negb].
      now rewrite andb_false_r, orb_false_r.
    + intros x y Hx Hy Hf. destruct (Hcells x y Hx Hy) as [Hc Hg]. rewrite Hc, Hg, Hf.
      rewrite andb_false_r. split; reflexivity.
  - destruct (display_char_next t ch H (or_intror Hy1))
      as (t1 & E1 & (_ & Ey) & Hcells & Hdirty & _).
    assert (t1 = t') by congruence. subst t1.
    destruct (Z.eqb_spec (cursor_x t + 1) (con_width t)); [| lia].
    apply tracked_rows
      with (flagged := fun y => (y =? cursor_y t) || (y =? cursor_y t + 1));
      try assumption.
    + intros y Hy. rewrite (Hdirty y Hy), Ey.
      destruct (Z.eqb_spec (cursor_y t + 1) (cursor_y t)); [lia |].
      cbn [negb]. now rewrite andb_true_r.
    + intros x y Hx Hy Hf. destruct (Hcells x y Hx Hy) as [Hc Hg]. rewrite Hc, Hg.
      apply orb_false_iff in Hf. destruct Hf as [Hf _]. rewrite Hf, andb_false_r.
      split; reflexivity.
  - assert (Ex0 : cursor_x t = con_width t - 1) by lia.
    assert (Ey0 : cursor_y t = con_height t - 1) by lia.
    destruct (Z.eq_dec (margin_bottom t) (con_height t - 1)) as [Emb | Emb].
    + destruct (display_char_corner_scroll t ch H Ex0 Ey0 Emb)
        as (t1 & E1 & _ & Hcells & Hin & Hout).
      assert (t1 = t') by congruence. subst t1.
      apply tracked_rows with (flagged := fun y => margin_top t <=? y); try assumption.
      * intros y Hy. destruct (Z.leb_spec (margin_top t) y); [apply Hin | apply Hout]; lia.
      * intros x y Hx Hy Hf. destruct (Hcells x y Hx Hy) as [Hc Hg]. rewrite Hc, Hg, Hf.
        cbn [andb]. destruct (Z.eqb_spec y (con_height t - 1)); [| split; reflexivity].
        bool_props; lia.
    + destruct (display_char_corner_jump t ch H Ex0 Ey0 ltac:(lia))
        as (t1 & E1 & _ & Hcells & Hdirty).
      assert (t1 = t') by congruence. subst t1.
      apply tracked_rows with (flagged := fun y => y =? con_height t - 1);
        try assumption.
      intros x y Hx Hy Hf. destruct (Hcells x y Hx Hy) as [Hc Hg]. rewrite Hc, Hg, Hf.
      rewrite andb_false_r. split; reflexivity.
Qed.

Lemma display_spaces_tracked (i : nat) (t t' : term_data) :
  wf t -> display_spaces i t = Some t' -> tracked t t'.
Proof.
  revert t. induction i as [| i IH]; intros t H; cbn [display_spaces].
  - intros E. injection E as <-. apply tracked_refl.
  - destruct (display_char t SPACE) as [t1 |] eqn:E1; [| discriminate].
    intros E. apply tracked_trans with t1; [now apply (display_char_tracked t t1 SPACE) |].
    apply IH; [| exact E].
    apply (step_wf (OpDisplayChar SPACE) t t1); try exact I; try assumption.
    cbn. unfold Int.in_urange, SPACE. lia.
Qed.

(** the line flags after an erase operation *)
Lemma erase_flags (e : erase_op) (t : term_data) (y : Z) :
  wf t -> 0 <= y < con_height t ->
  line_dirty (erase e t) y =
  if match e with
     | EraseLineAtCursor | EraseLineFromBeginningToCursor
     | EraseLineFromCursorToEnd => y =? cursor_y t
     | EraseDisplay => true
     | EraseDisplayFromBeginningToCursor => y <=? cursor_y t
     | EraseDisplayFromCursorToEnd => cursor_y t <=? y
     end
  then true else line_dirty t y.
Proof.
  intros H Hy. open_wf. fields_in Hy. unfold line_dirty.
  destruct e; unfold_erase; fields; unwrap_lia; unfold store;
    rewrite !rd_memset by (rewrite ?length_memset; lia);
    repeat match goal with
           | |- context [in_run ?a ?b ?c] => destruct (in_run a b c) eqn:?
           end;
    row_cases.
Qed.

Lemma erase_tracked (e : erase_op) (t : term_data) : wf t -> tracked t (erase e t).
Proof.
  intros H.
  apply tracked_rows
    with (flagged := fun y =>
            match e with
            | EraseLineAtCursor | EraseLineFromBeginningToCursor
            | EraseLineFromCursorToEnd => y =? cursor_y t
            | EraseDisplay => true
            | EraseDisplayFromBeginningToCursor => y <=? cursor_y t
            | EraseDisplayFromCursorToEnd => cursor_y t <=? y
            end).
  - apply (erase_shape e t).
  - apply (erase_shape e t).
  - intros y Hy. now apply erase_flags.
  - intros x y Hx Hy Hf. destruct (erase_cells e t x y H Hx Hy) as [Hc Hg].
    rewrite Hc, Hg.
    destruct e; cbn [documented_range]; try discriminate;
      bool_props; split; row_cases.
Qed.

Lemma delete_characters_at_cursor_flags (t : term_data) (n y : Z) :
  wf t -> 0 < n -> 0 <= y < con_height t ->
  line_dirty (delete_characters_at_cursor t n) y =
  if y =? cursor_y t then true else line_dirty t y.
Proof.
  intros H Hn Hy. unfold delete_characters_at_cursor.
  destruct (Z.leb_spec n 0); [lia |].
  open_wf. fields_in Hy. unfold line_dirty. fields. unfold store.
  rewrite rd_memset by lia.
  destruct (in_run cy 1 y) eqn:E; row_cases.
Qed.

Lemma delete_characters_at_cursor_tracked (t : term_data) (n : Z) :
  wf t -> tracked t (delete_characters_at_cursor t n).
Proof.
  intros H. destruct (Z_le_gt_dec n 0) as [Hn | Hn].
  - rewrite delete_characters_at_cursor_noop by assumption. apply tracked_refl.
  - apply tracked_rows with (flagged := fun y => y =? cursor_y t).
    + apply (delete_characters_at_cursor_shape t n).
    + apply (delete_characters_at_cursor_shape t n).
    + intros y Hy. apply delete_characters_at_cursor_flags; [assumption | lia | assumption].
    + intros x y Hx Hy Hf. split.
      * rewrite (delete_characters_at_cursor_chars t n H ltac:(lia) x y Hx Hy), Hf.
        reflexivity.
      * unfold cell_gr. rewrite delete_characters_at_cursor_grbuf.
        destruct (delete_characters_at_cursor_shape t n) as (-> & _). reflexivity.
Qed.

Lemma insert_lines_at_cursor_tracked (t : term_data) (n : Z) :
  wf t -> 0 <= n -> cursor_y t + n <= Int.max_signed ->
  tracked t (insert_lines_at_cursor t n).
Proof.
  intros H Hn Hov.
  destruct (insert_lines_at_cursor_frame t n) as (_ & _ & (Ew & Eh) & _).
  destruct ((margin_top t <=? cursor_y t) && (cursor_y t <=? margin_bottom t)) eqn:E.
  - bool_props.
    destruct (insert_lines_at_cursor_cells t n H ltac:(lia) Hn Hov) as [Hcells Hdirty].
    apply tracked_rows
      with (flagged := fun y => (cursor_y t <=? y) && (y <=? margin_bottom t));
      try assumption.
    intros x y Hx Hy Hf. destruct (Hcells x y Hx Hy) as [Hc Hg].
    rewrite Hc, Hg, Hf. split; reflexivity.
  - unfold insert_lines_at_cursor. rewrite E. apply tracked_refl.
Qed.

Lemma delete_lines_at_cursor_tracked (t : term_data) (n : Z) :
  wf t -> 0 <= n -> cursor_y t + n <= Int.max_signed ->
  tracked t (delete_lines_at_cursor t n).
Proof.
  intros H Hn Hov.
  destruct (delete_lines_at_cursor_frame t n) as (_ & _ & (Ew & Eh) & _).
  destruct ((margin_top t <=? cursor_y t) && (cursor_y t <=? margin_bottom t)) eqn:E.
  - bool_props.
    destruct (delete_lines_at_cursor_cells t n H ltac:(lia) Hn Hov) as [Hcells Hdirty].
    apply tracked_rows
      with (flagged := fun y => (cursor_y t <=? y) && (y <=? margin_bottom t));
      try assumption.
    intros x y Hx Hy Hf. destruct (Hcells x y Hx Hy) as [Hc Hg].
    rewrite Hc, Hg, Hf. split; reflexivity.
  - unfold delete_lines_at_cursor. rewrite E. apply tracked_refl.
Qed.

Lemma sgr_param_buffers (t : term_data) (p : Z) :
  con_width (sgr_param t p) = con_width t /\
  con_height (sgr_param t p) = con_height t /\
  chbuf (sgr_param t p) = chbuf t /\ grbuf (sgr_param t p) = grbuf t /\
  must_refresh_line_buf (sgr_param t p) = must_refresh_line_buf t /\
  (cursor_x (sgr_param t p) = cursor_x t /\ cursor_y (sgr_param t p) = cursor_y t) /\
  must_refresh (sgr_param t p) = must_refresh t.
Proof.
  unfold sgr_param.
  repeat match goal with
         | |- context [if ?b then _ else _] => destruct b
         end; repeat split.
Qed.

Lemma select_graphic_rendition_buffers (t : term_data) (ps : list Z) (n : Z) :
  let t' := select_graphic_rendition t ps n in
  con_width t' = con_width t /\ con_height t' = con_height t /\
  chbuf t' = chbuf t /\ grbuf t' = grbuf t /\
  must_refresh_line_buf t' = must_refresh_line_buf t /\
  (cursor_x t' = cursor_x t /\ cursor_y t' = cursor_y t) /\
  must_refresh t' = must_refresh t.
Proof.
  cbv zeta. unfold select_graphic_rendition.
  generalize (firstn (Z.to_nat n) ps) as l. intros l. revert t.
  induction l as [| p l IH]; intros t; cbn [fold_left]; [repeat split |].
  destruct (IH (sgr_param t p)) as (A1 & A2 & A3 & A4 & A5 & (A6 & A7) & A8).
  destruct (sgr_param_buffers t p) as (B1 & B2 & B3 & B4 & B5 & (B6 & B7) & B8).
  repeat split; congruence.
Qed.

Lemma resize_buffers_flags (t : term_data) (new_width new_height y : Z) :
  0 <= y < con_height (vt102_generic_backend_resize_buffers t new_width new_height) ->
  line_dirty (vt102_generic_backend_resize_buffers t new_width new_height) y = true.
Proof.
  destruct t as [fg bg w h chb grb cx cy mt mb mr lines].
  unfold vt102_generic_backend_resize_buffers, line_dirty. fields. intros Hy.
  rewrite rd_memset by (rewrite length_realloc; lia).
  destruct (in_run 0 _ y) eqn:E; [reflexivity |]. bool_props; lia.
Qed.

(** apart from a resize, every backend call keeps the dimensions and
    flags the rows it changes *)
Lemma step_tracked (o : backend_op) (t t' : term_data) :
  wf t -> op_args_ok o -> line_count_ok o t -> step o t = Some t' ->
  (exists w h, o = OpResizeBuffers w h) \/ tracked t t'.
Proof.
  intros H Ho Hn Hstep.
  destruct o; cbn [step] in Hstep; try (left; eauto; fail); right.
  - exact (display_char_tracked t t' ch H Hstep).
  - injection Hstep as <-.
    destruct (select_graphic_rendition_buffers t cmd_params nr_params)
      as (A1 & A2 & A3 & A4 & A5 & _).
    now apply tracked_same_buffers.
  - injection Hstep as <-. apply tracked_same_buffers; reflexivity.
  - injection Hstep as <-. apply tracked_same_buffers; reflexivity.
  - injection Hstep as <-. apply tracked_same_buffers; reflexivity.
  - injection Hstep as <-. now apply cursor_reverse_index_tracked.
  - injection Hstep as <-. now apply (erase_tracked EraseLineAtCursor).
  - injection Hstep as <-. now apply (erase_tracked EraseLineFromBeginningToCursor).
  - injection Hstep as <-. now apply (erase_tracked EraseLineFromCursorToEnd).
  - injection Hstep as <-. now apply (erase_tracked EraseDisplay).
  - injection Hstep as <-. now apply (erase_tracked EraseDisplayFromBeginningToCursor).
  - injection Hstep as <-. now apply (erase_tracked EraseDisplayFromCursorToEnd).
  - injection Hstep as <-. destruct Hn. now apply insert_lines_at_cursor_tracked.
  - injection Hstep as <-. destruct Hn. now apply delete_lines_at_cursor_tracked.
  - injection Hstep as <-. now apply delete_characters_at_cursor_tracked.
  - injection Hstep as <-. apply tracked_same_buffers; reflexivity.
  - unfold handle_horiz_tab in Hstep.
    destruct (display_spaces _ t) as [t1 |] eqn:E1; [| discriminate].
    injection Hstep as <-.
    apply tracked_trans with t1; [exact (display_spaces_tracked _ t t1 H E1) |].
    apply tracked_same_buffers; reflexivity.
  - injection Hstep as <-. now apply handle_linefeed_tracked.
  - injection Hstep as <-. apply tracked_same_buffers; reflexivity.
  - injection Hstep as <-. apply tracked_same_buffers; reflexivity.
Qed.

(** X14: a row that is not flagged for refresh after a backend call
    was not flagged before it and none of its cells was changed by the
    call, so repainting the flagged rows brings a display up to date.
    This holds for every operation on a well-formed screen, with line
    counts that are not negative. *)
Theorem changed_rows_are_flagged (o : backend_op) (t t' : term_data) (y : Z) :
  wf t -> op_args_ok o -> line_count_ok o t -> step o t = Some t' ->
  0 <= y < con_height t' -> line_dirty t' y = false ->
  (con_width t' = con_width t /\ con_height t' = con_height t) /\
  line_dirty t y = false /\
  forall x, 0 <= x < con_width t ->
    cell_ch t' x y = cell_ch t x y /\ cell_gr t' x y = cell_gr t x y.
Proof.
  intros H Ho Hn Hstep Hy Hf.
  destruct (step_tracked o t t' H Ho Hn Hstep) as [(w & h & ->) | (Ew & Eh & Htr)].
  - cbn [step] in Hstep. injection Hstep as <-.
    rewrite resize_buffers_flags in Hf by exact Hy. discriminate.
  - split; [split; assumption |]. apply Htr; [rewrite <- Eh; exact Hy | exact Hf].
Qed.

(** ** The refresh request *)

(** X15: a backend call that changes a cell, a line flag, the cursor
    or the dimensions also sets [must_refresh], the flag the main loop
    tests before it repaints. *)
Theorem must_refresh_signals_changes (o : backend_op) (t t' : term_data) :
  step o t = Some t' ->
  must_refresh t' = true \/
  (chbuf t' = chbuf t /\ grbuf t' = grbuf t /\
   must_refresh_line_buf t' = must_refresh_line_buf t /\
   (cursor_x t' = cursor_x t /\ cursor_y t' = cursor_y t) /\
   (con_width t' = con_width t /\ con_height t' = con_height t) /\
   must_refresh t' = must_refresh t).
Proof.
  destruct o; cbn [step]; intros E; try (injection E as <-).
  - left. apply (display_char_frame t t' ch E).
  - right.
    destruct (select_graphic_rendition_buffers t cmd_params nr_params)
      as (A1 & A2 & A3 & A4 & A5 & A6 & A7).
    repeat split; tauto.
  - left. reflexivity.
  - left. reflexivity.
  - left. reflexivity.
  - left. reflexivity.
  - left. reflexivity.
  - left. reflexivity.
  - left. reflexivity.
  - left. reflexivity.
  - left. reflexivity.
  - left. reflexivity.
  - unfold insert_lines_at_cursor. destruct (negb _).
    + right. repeat split.
    + left. destruct (margin_bottom t <? Int.add (cursor_y t) nr_lines); reflexivity.
  - unfold delete_lines_at_cursor. destruct (negb _).
    + right. repeat split.
    + left. destruct (margin_bottom t <? Int.add (cursor_y t) nr_lines); reflexivity.
  - unfold delete_characters_at_cursor. destruct (nr_characters <=? 0).
    + right. repeat split.
    + left. reflexivity.
  - left. reflexivity.
  - left. unfold handle_horiz_tab in E.
    destruct (display_spaces _ t); [| discriminate]. injection E as <-. reflexivity.
  - left. reflexivity.
  - left. reflexivity.
  - right. repeat split.
  - left. reflexivity.
Qed.

(** ** Cursor addressing *)

Lemma move_cursor_absolute_cursor (t : term_data) (x y : Z) :
  cursor_inv t ->
  cursor_x (move_cursor_absolute t x y) = Z.max 0 (Z.min x (con_width t - 1)) /\
  cursor_y (move_cursor_absolute t x y) =
    Z.max (margin_top t) (Z.min y (margin_bottom t)).
Proof.
  intros H. open_inv. exec. unwrap. split; repeat case_if; lia.
Qed.

(** X16: [move_cursor_absolute] puts the cursor at the requested
    position clamped to the screen columns and to the rows of the
    scrolling region, for every pair of arguments, and touches neither
    buffers nor line flags.  [move_cursor_column_absolute] is the same
    move with the current row, so it also brings a cursor that is
    outside the scrolling region onto the nearest margin row. *)
Theorem move_cursor_absolute_clamps (t : term_data) (x y : Z) :
  cursor_inv t ->
  let t' := move_cursor_absolute t x y in
  (cursor_x t' = Z.max 0 (Z.min x (con_width t - 1)) /\
   cursor_y t' = Z.max (margin_top t) (Z.min y (margin_bottom t))) /\
  (chbuf t' = chbuf t /\ grbuf t' = grbuf t /\
   must_refresh_line_buf t' = must_refresh_line_buf t) /\
  (cursor_x (move_cursor_column_absolute t x) = cursor_x t' /\
   cursor_y (move_cursor_column_absolute t x) =
     Z.max (margin_top t) (Z.min (cursor_y t) (margin_bottom t))) /\
  move_cursor_absolute t' x y = t'.
Proof.
  intros H. cbv zeta.
  split; [apply (move_cursor_absolute_cursor t x y H) |].
  split; [repeat split |].
  split.
  - unfold move_cursor_column_absolute.
    destruct (move_cursor_absolute_cursor t x y H) as [-> _].
    apply (move_cursor_absolute_cursor t x (cursor_y t) H).
  - open_inv. exec. unwrap. repeat case_if; reflexivity.
Qed.

(** X17: when the sums do not overflow, [move_cursor_relative] is
    [move_cursor_absolute] to the position the offsets lead to, so the
    cursor stops at the screen edges and at the margins of the
    scrolling region; [handle_backspace] is the move by [(-1, 0)] and
    stops in column 0.  A move that stays inside the region is undone
    by the opposite move. *)
Theorem move_cursor_relative_clamps (t : term_data) (dx dy : Z) :
  cursor_inv t ->
  Int.in_range (cursor_x t + dx) -> Int.in_range (cursor_y t + dy) ->
  let t' := move_cursor_relative t dx dy in
  t' = move_cursor_absolute t (cursor_x t + dx) (cursor_y t + dy) /\
  (cursor_x t' = Z.max 0 (Z.min (cursor_x t + dx) (con_width t - 1)) /\
   cursor_y t' = Z.max (margin_top t) (Z.min (cursor_y t + dy) (margin_bottom t))) /\
  (cursor_x (handle_backspace t) = Z.max 0 (cursor_x t - 1) /\
   cursor_y (handle_backspace t) =
     Z.max (margin_top t) (Z.min (cursor_y t) (margin_bottom t))) /\
  (0 <= cursor_x t + dx < con_width t ->
   margin_top t <= cursor_y t <= margin_bottom t ->
   margin_top t <= cursor_y t + dy <= margin_bottom t ->
   cursor_x (move_cursor_relative t' (- dx) (- dy)) = cursor_x t /\
   cursor_y (move_cursor_relative t' (- dx) (- dy)) = cursor_y t).
Proof.
  unfold Int.in_range, Int.min_signed, Int.max_signed. intros H Hx Hy. cbv zeta.
  assert (E : move_cursor_relative t dx dy =
              move_cursor_absolute t (cursor_x t + dx) (cursor_y t + dy)).
  { open_inv. fields_in Hx. fields_in Hy. exec. unwrap.
    f_equal; repeat case_if; lia. }
  split; [exact E |].
  split; [rewrite E; apply (move_cursor_absolute_cursor _ _ _ H) |].
  split.
  - open_inv. exec. unwrap. split; repeat case_if; lia.
  - intros Hx' Hy0 Hy'. open_inv.
    fields_in Hx. fields_in Hy. fields_in Hx'. fields_in Hy0. fields_in Hy'.
    exec. unwrap.
    replace (if cx + dx <? 0 then 0 else cx + dx) with (cx + dx) by (case_if; lia).
    replace (if cy + dy <? mt then mt else cy + dy) with (cy + dy) by (case_if; lia).
    replace (if w <=? cx + dx then w - 1 else cx + dx) with (cx + dx) by (case_if; lia).
    replace (if mb <? cy + dy then mb else cy + dy) with (cy + dy) by (case_if; lia).
    unwrap. split; repeat case_if; lia.
Qed.

(** ** Renditions *)

Lemma fold_sgr_param_frame (l : list Z) (t : term_data) :
  fold_left sgr_param l t =
  set_cur_bg_gc_idx
    (set_cur_fg_gc_idx t (cur_fg_gc_idx (fold_left sgr_param l t)))
    (cur_bg_gc_idx (fold_left sgr_param l t)).
Proof.
  revert t. induction l as [| p l IH]; intros t; cbn [fold_left].
  - destruct t. reflexivity.
  - rewrite IH at 1. generalize (fold_left sgr_param l (sgr_param t p)). intros t1.
    destruct t as [fg bg w h chb grb cx cy mt mb mr lines]. unfold sgr_param.
    repeat match goal with
           | |- context [if ?b then _ else _] => destruct b
           end; reflexivity.
Qed.

(** X18: [select_graphic_rendition] changes nothing but the current
    foreground and background: cursor, margins, buffers, flags and
    dimensions are those of the state it was given.  With
    [nr_params <= 0] it changes nothing at all, and with [nr_params]
    the length of the list it applies every parameter from left to
    right. *)
Theorem select_graphic_rendition_frame (t : term_data) (cmd_params : list Z)
    (nr_params : Z) :
  let t' := select_graphic_rendition t cmd_params nr_params in
  t' = set_cur_bg_gc_idx (set_cur_fg_gc_idx t (cur_fg_gc_idx t')) (cur_bg_gc_idx t') /\
  (nr_params <= 0 -> t' = t) /\
  (nr_params = Z.of_nat (length cmd_params) -> t' = fold_left sgr_param cmd_params t).
Proof.
  cbv zeta. unfold select_graphic_rendition. split; [apply fold_sgr_param_frame |].
  split.
  - intros Hn. replace (Z.to_nat nr_params) with 0%nat by lia. reflexivity.
  - intros ->. now rewrite Nat2Z.id, firstn_all.
Qed.

Lemma sgr_param_colour (t : term_data) (c : Z) :
  0 <= c <= 7 ->
  sgr_param t (30 + c) = set_cur_fg_gc_idx t c /\
  sgr_param t (40 + c) = set_cur_bg_gc_idx t c.
Proof.
  intros Hc. unfold sgr_param.
  assert (Hc' : c = 0 \/ c = 1 \/ c = 2 \/ c = 3 \/ c = 4 \/ c = 5 \/ c = 6 \/ c = 7)
    by lia.
  destruct Hc' as [-> | [-> | [-> | [-> | [-> | [-> | [-> | ->]]]]]]];
    split; reflexivity.
Qed.

(** X19: the parameters of [select_graphic_rendition] act in order: a
    list split in two can be given in two calls; a final 0 resets the
    rendition to white on black whatever came before; 30 + c and
    40 + c set the foreground and the background to colour c and keep
    the other; and parameter 7, which swaps foreground and background,
    given twice restores the state. *)
Theorem select_graphic_rendition_sequence (t : term_data) (ps1 ps2 : list Z)
    (n2 c : Z) :
  0 <= n2 -> 0 <= c <= 7 ->
  let n1 := Z.of_nat (length ps1) in
  select_graphic_rendition t (ps1 ++ ps2) (n1 + n2) =
    select_graphic_rendition (select_graphic_rendition t ps1 n1) ps2 n2 /\
  (cur_fg_gc_idx (select_graphic_rendition t (ps1 ++ [0]) (n1 + 1)) = 7 /\
   cur_bg_gc_idx (select_graphic_rendition t (ps1 ++ [0]) (n1 + 1)) = 0) /\
  (cur_fg_gc_idx (select_graphic_rendition t [30 + c] 1) = c /\
   cur_bg_gc_idx (select_graphic_rendition t [30 + c] 1) = cur_bg_gc_idx t) /\
  (cur_bg_gc_idx (select_graphic_rendition t [40 + c] 1) = c /\
   cur_fg_gc_idx (select_graphic_rendition t [40 + c] 1) = cur_fg_gc_idx t) /\
  (cur_fg_gc_idx (select_graphic_rendition t [7] 1) = cur_bg_gc_idx t /\
   cur_bg_gc_idx (select_graphic_rendition t [7] 1) = cur_fg_gc_idx t) /\
  select_graphic_rendition t [7; 7] 2 = t.
Proof.
  intros Hn Hc n1. subst n1. unfold select_graphic_rendition.
  assert (Happ : forall (l : list Z) (n : Z), 0 <= n ->
            firstn (Z.to_nat (Z.of_nat (length ps1) + n)) (ps1 ++ l) =
            ps1 ++ firstn (Z.to_nat n) l).
  { intros l n Hn'.
    replace (Z.to_nat (Z.of_nat (length ps1) + n))
      with (length ps1 + Z.to_nat n)%nat by lia.
    apply firstn_app_2. }
  rewrite !Happ by lia. rewrite !fold_left_app.
  rewrite Nat2Z.id, firstn_all.
  change (firstn (Z.to_nat 1) [0]) with [0].
  change (firstn (Z.to_nat 1) [30 + c]) with [30 + c].
  change (firstn (Z.to_nat 1) [40 + c]) with [40 + c].
  change (firstn (Z.to_nat 1) [7]) with [7].
  change (firstn (Z.to_nat 2) [7; 7]) with [7; 7].
  cbn [fold_left].
  destruct (sgr_param_colour t c Hc) as [-> ->].
  split; [reflexivity |].
  split; [split; reflexivity |].
  split; [split; reflexivity |].
  split; [split; reflexivity |].
  split; [split; reflexivity |].
  destruct t. reflexivity.
Qed.

(** ** Creation, for every size *)

(** X20: [init_vt102_generic_backend] raises the requested size to at
    least 10 columns and 2 rows and creates a well-formed screen of
    that size: the cursor is in the top left corner, the scrolling
    region is the whole screen, the current rendition is white on
    black, every cell holds the letter E with rendition 0, and every
    row and the screen as a whole are flagged for refresh. *)
Theorem init_creates_screen (width height : Z) :
  Int.in_range width -> Int.in_range height ->
  let w := Z.max width NR_MIN_VT102_SCREEN_COLUMNS in
  let h := Z.max height NR_MIN_VT102_SCREEN_ROWS in
  w * h <= Int.max_signed ->
  let t := init_vt102_generic_backend width height in
  wf t /\
  t = init_vt102_generic_backend w h /\
  (con_width t = w /\ con_height t = h) /\
  (cursor_x t = 0 /\ cursor_y t = 0) /\
  (margin_top t = 0 /\ margin_bottom t = h - 1) /\
  (cur_fg_gc_idx t = 7 /\ cur_bg_gc_idx t = 0) /\
  (forall x y, 0 <= x < w -> 0 <= y < h -> cell_ch t x y = CHAR_E /\ cell_gr t x y = 0) /\
  (forall y, 0 <= y < h -> line_dirty t y = true) /\
  must_refresh t = true.
Proof.
  intros Hw Hh w h Hsz t.
  destruct (init_screen width height Hw Hh Hsz) as (Hwf & Hdim & Hcells & Hflags).
  split; [exact Hwf |].
  assert (Ew : (if width <? NR_MIN_VT102_SCREEN_COLUMNS
                then NR_MIN_VT102_SCREEN_COLUMNS else width) = w)
    by (subst w; case_if; lia).
  assert (Eh : (if height <? NR_MIN_VT102_SCREEN_ROWS
                then NR_MIN_VT102_SCREEN_ROWS else height) = h)
    by (subst h; case_if; lia).
  assert (Ew' : (if w <? NR_MIN_VT102_SCREEN_COLUMNS
                 then NR_MIN_VT102_SCREEN_COLUMNS else w) = w)
    by (subst w; case_if; lia).
  assert (Eh' : (if h <? NR_MIN_VT102_SCREEN_ROWS
                 then NR_MIN_VT102_SCREEN_ROWS else h) = h)
    by (subst h; case_if; lia).
  assert (Hh' : Int.sub h 1 = h - 1).
  { unfold Int.in_range, Int.min_signed, Int.max_signed in Hh.
    unfold NR_MIN_VT102_SCREEN_ROWS in h. unfold Int.sub. apply wrap_small.
    unfold Int.in_range, Int.min_signed, Int.max_signed. lia. }
  split.
  { subst t. unfold init_vt102_generic_backend. cbv zeta. now rewrite Ew, Eh, Ew', Eh'. }
  split; [exact Hdim |].
  split; [split; reflexivity |].
  split.
  { split; [reflexivity |]. subst t. unfold init_vt102_generic_backend. cbv zeta.
    rewrite Eh. exact Hh'. }
  split; [split; reflexivity |].
  split; [exact Hcells |].
  split; [exact Hflags | reflexivity].
Qed.

(** ** Deleting characters, for every screen *)

(** X21: [delete_characters_at_cursor] with a count [n <= 0] does
    nothing.  Otherwise, with [k = min(n, con_width - cursor_x)], the
    characters of the cursor row right of the deleted ones move left
    by [k] columns and the last [k] columns of the row hold spaces;
    the other rows, every rendition byte and the cursor are unchanged,
    and the cursor row is flagged. *)
Theorem delete_characters_at_cursor_spec (t : term_data) (n : Z) :
  wf t ->
  let k := Z.min n (con_width t - cursor_x t) in
  let t' := delete_characters_at_cursor t n in
  (n <= 0 -> t' = t) /\
  (0 < n ->
   (forall x, 0 <= x < cursor_x t ->
      cell_ch t' x (cursor_y t) = cell_ch t x (cursor_y t)) /\
   (forall x, cursor_x t <= x < con_width t - k ->
      cell_ch t' x (cursor_y t) = cell_ch t (x + k) (cursor_y t)) /\
   (forall x, con_width t - k <= x < con_width t ->
      cell_ch t' x (cursor_y t) = SPACE) /\
   (forall x y, 0 <= x < con_width t -> 0 <= y < con_height t -> y <> cursor_y t ->
      cell_ch t' x y = cell_ch t x y) /\
   line_dirty t' (cursor_y t) = true /\ must_refresh t' = true) /\
  grbuf t' = grbuf t /\
  (cursor_x t' = cursor_x t /\ cursor_y t' = cursor_y t).
Proof.
  intros H k t'. subst t'.
  split; [apply delete_characters_at_cursor_noop |].
  split.
  - intros Hn.
    pose proof (delete_characters_at_cursor_chars t n H Hn) as Hch. cbv zeta in Hch.
    fold k in Hch.
    pose proof (wf_cursor t H) as [Hw Hh Hmt Hmb Hcx Hcy].
    assert (Hk : 1 <= k <= con_width t - cursor_x t) by (subst k; lia).
    repeat split.
    + intros x Hx. rewrite Hch by lia. rewrite Z.eqb_refl.
      destruct (Z.ltb_spec x (cursor_x t)); [reflexivity | lia].
    + intros x Hx. rewrite Hch by lia. rewrite Z.eqb_refl.
      destruct (Z.ltb_spec x (cursor_x t)); [lia |].
      destruct (Z.ltb_spec x (con_width t - k)); [reflexivity | lia].
    + intros x Hx. rewrite Hch by lia. rewrite Z.eqb_refl.
      destruct (Z.ltb_spec x (cursor_x t)); [lia |].
      destruct (Z.ltb_spec x (con_width t - k)); [lia | reflexivity].
    + intros x y Hx Hy Hne. rewrite Hch by lia.
      destruct (Z.eqb_spec y (cursor_y t)); [contradiction | reflexivity].
    + rewrite delete_characters_at_cursor_flags by (assumption || lia).
      now rewrite Z.eqb_refl.
    + unfold delete_characters_at_cursor.
      destruct (Z.leb_spec n 0); [lia | reflexivity].
  - split; [apply delete_characters_at_cursor_grbuf |].
    unfold delete_characters_at_cursor. destruct (n <=? 0); split; reflexivity.
Qed.

(** ** Erasing twice, and in two parts *)

Section ListExt.

Context {A : Type}.
Variable d : A.

(** two buffers of one length that read the same everywhere are equal *)
Lemma rd_ext (l1 l2 : list A) :
  length l1 = length l2 ->
  (forall i, 0 <= i < Z.of_nat (length l1) -> rd d l1 i = rd d l2 i) ->
  l1 = l2.
Proof.
  intros Hlen Hrd. apply (nth_ext l1 l2 d d Hlen). intros n Hn.
  specialize (Hrd (Z.of_nat n) ltac:(lia)). unfold rd in Hrd.
  destruct (Z.ltb_spec (Z.of_nat n) 0); [lia |]. now rewrite Nat2Z.id in Hrd.
Qed.

End ListExt.

(** read every [memset] of the goal at an index inside the buffer and
    decide the range tests *)
Ltac rd_memsets :=
  repeat (rewrite rd_memset by (repeat rewrite length_memset; assumption));
  repeat match goal with
         | |- context [in_run ?a ?b ?c] => destruct (in_run a b c) eqn:?
         end.

Ltac buffers_ext :=
  first [apply (rd_ext 0) | apply (rd_ext false)];
  [ unfold store; repeat rewrite length_memset; reflexivity
  | unfold store; repeat rewrite length_memset; intros i Hi; rd_memsets ].

(** X22: each of the six erase operations is idempotent: erasing a
    second time changes nothing, not even a flag, whatever the state. *)
Theorem erase_twice (e : erase_op) (t : term_data) :
  erase e (erase e t) = erase e t.
Proof.
  destruct t as [fg bg w h chb grb cx cy mt mb mr lines].
  destruct e; unfold erase; exec; f_equal; buffers_ext; reflexivity.
Qed.

(** X23: erasing from the beginning of the display to the cursor and
    then from the cursor to its end, in either order, gives exactly the
    state [erase_display] gives. *)
Theorem erase_display_in_two_parts (t : term_data) :
  wf t ->
  erase_display_from_cursor_to_end (erase_display_from_beginning_to_cursor t)
  = erase_display t /\
  erase_display_from_beginning_to_cursor (erase_display_from_cursor_to_end t)
  = erase_display t.
Proof.
  intros H. open_wf.
  pose proof (row_offset_bounds w h cy ltac:(lia) ltac:(lia)) as Hrow.
  pose proof (row_offset_bounds w h (cy + 1) ltac:(lia) ltac:(lia)) as Hrow1.
  assert (Hhw : h * w = w * h) by lia.
  split; exec; unwrap_lia; rewrite ?Hhw; f_equal; buffers_ext;
    try reflexivity; exfalso; bool_props; lia.
Qed.

(** ** Margins given inside the screen *)

(** X24: [set_top_and_bottom_margins] takes a region that lies on the
    screen, [0 <= top < bottom <= con_height - 1], as it is given.  In
    general the top margin is [top] clamped to [0 .. con_height - 2]
    and the bottom margin is [bottom] clamped to
    [margin_top + 1 .. con_height - 1]. *)
Theorem set_top_and_bottom_margins_clamps (t : term_data) (top bottom : Z) :
  NR_MIN_VT102_SCREEN_ROWS <= con_height t <= Int.max_signed ->
  let t' := set_top_and_bottom_margins t top bottom in
  (margin_top t' = Z.max 0 (Z.min top (con_height t - 2)) /\
   margin_bottom t' = Z.min (con_height t - 1) (Z.max bottom (margin_top t' + 1))) /\
  (0 <= top -> top < bottom -> bottom <= con_height t - 1 ->
   margin_top t' = top /\ margin_bottom t' = bottom).
Proof.
  unfold NR_MIN_VT102_SCREEN_ROWS, Int.max_signed. intros Hh.
  destruct t as [fg bg w h chb grb cx cy mt mb mr lines]. fields_in Hh.
  exec. unwrap_lia.
  assert (Etop : (if h - 2 <=? (if top <? 0 then 0 else top) then h - 2
                  else if top <? 0 then 0 else top) = Z.max 0 (Z.min top (h - 2)))
    by (repeat case_if; lia).
  rewrite Etop. clear Etop.
  assert (Hin : 0 <= Z.max 0 (Z.min top (h - 2)) <= h - 2) by lia.
  assert (Hid : 0 <= top <= h - 2 -> Z.max 0 (Z.min top (h - 2)) = top) by lia.
  set (top' := Z.max 0 (Z.min top (h - 2))) in *. clearbody top'.
  unwrap_lia.
  split; [split; [reflexivity | repeat case_if; lia] |].
  intros H0 H1 H2. split; [lia | repeat case_if; lia].
Qed.

(** ** Reverse index, for every screen *)

(** X25: [cursor_reverse_index] moves the cursor one row up, kept
    inside the scrolling region, and to column
    [min(2 * cursor_x, con_width - 1)].  Away from the top margin no
    cell and no line flag changes.  On the top margin the region
    scrolls down by one row: its rows move down, its top row is filled
    with spaces whose rendition byte is 32, its rows are flagged and
    the rows outside it stay. *)
Theorem cursor_reverse_index_spec (t : term_data) :
  wf t ->
  let t' := cursor_reverse_index t in
  (cursor_x t' = Z.min (2 * cursor_x t) (con_width t - 1) /\
   cursor_y t' = Z.max (margin_top t) (Z.min (cursor_y t - 1) (margin_bottom t))) /\
  (cursor_y t <> margin_top t ->
   chbuf t' = chbuf t /\ grbuf t' = grbuf t /\
   must_refresh_line_buf t' = must_refresh_line_buf t) /\
  (cursor_y t = margin_top t ->
   (forall x y, 0 <= x < con_width t -> margin_top t < y <= margin_bottom t ->
      cell_ch t' x y = cell_ch t x (y - 1) /\ cell_gr t' x y = cell_gr t x (y - 1)) /\
   (forall x, 0 <= x < con_width t ->
      cell_ch t' x (margin_top t) = SPACE /\ cell_gr t' x (margin_top t) = 32) /\
   (forall x y, 0 <= x < con_width t ->
      0 <= y < margin_top t \/ margin_bottom t < y < con_height t ->
      cell_ch t' x y = cell_ch t x y /\ cell_gr t' x y = cell_gr t x y) /\
   (forall y, margin_top t <= y <= margin_bottom t -> line_dirty t' y = true)) /\
  must_refresh t' = true.
Proof.
  intros H. cbv zeta.
  pose proof (wf_cursor t H) as [Hw Hh Hmt Hmb Hcx Hcy].
  split.
  { destruct (cursor_reverse_index_cursor t H) as [Ex Ey].
    split; [rewrite Ex; f_equal; lia | exact Ey]. }
  split.
  { intros Hne. unfold cursor_reverse_index.
    destruct (Z.eqb_spec (cursor_y t) (margin_top t)); [contradiction |].
    repeat split. }
  split; [| reflexivity].
  intros Heq.
  destruct (cursor_reverse_index_scrolls_down t H Heq) as (Hcells & Hin & _).
  split; [| split; [| split]].
  - intros x y Hx Hy. destruct (Hcells x y Hx ltac:(lia)) as [-> ->].
    destruct (Z.ltb_spec (margin_top t) y); [| lia].
    destruct (Z.leb_spec y (margin_bottom t)); [| lia]. split; reflexivity.
  - intros x Hx. destruct (Hcells x (margin_top t) Hx ltac:(lia)) as [-> ->].
    rewrite Z.ltb_irrefl, Z.eqb_refl. split; reflexivity.
  - intros x y Hx Hy. destruct (Hcells x y Hx ltac:(lia)) as [-> ->].
    destruct (Z.eqb_spec y (margin_top t)); [lia |].
    destruct (Z.ltb_spec (margin_top t) y); destruct (Z.leb_spec y (margin_bottom t));
      cbn [andb]; try (split; reflexivity); lia.
  - exact Hin.
Qed.

(** ** The renderer *)

Lemma wf_flags (t : term_data) (lines : list bool) (b : bool) :
  wf t -> length lines = length (must_refresh_line_buf t) ->
  wf (set_must_refresh (set_must_refresh_line_buf t lines) b).
Proof.
  intros [Hinv Hsz Hch Hgr Hln] Hlen. constructor.
  - revert Hinv. apply cursor_inv_same_geometry; reflexivity.
  - exact Hsz.
  - exact Hch.
  - exact Hgr.
  - change (Z.of_nat (length lines) = con_height t). now rewrite Hlen.
Qed.

Lemma wf_set_must_refresh (t : term_data) (b : bool) :
  wf t -> wf (set_must_refresh t b).
Proof.
  intros [Hinv Hsz Hch Hgr Hln]. constructor; try assumption.
  now apply set_must_refresh_inv.
Qed.

(** a stride of a screen is a stride of every screen with the same
    cells *)
Lemma stride_of_same_cells (t t1 : term_data) (s : stride) :
  con_width t1 = con_width t -> con_height t1 = con_height t ->
  chbuf t1 = chbuf t -> grbuf t1 = grbuf t ->
  stride_of t1 s -> stride_of t s.
Proof.
  intros Ew Eh Ec Eg [H1 H2 H3 H4 H5].
  unfold cell_ch, cell_gr in H4, H5.
  constructor; unfold cell_ch, cell_gr; rewrite <- ?Ew, <- ?Eh, <- ?Ec, <- ?Eg;
    assumption.
Qed.

(** the index of a cell does not wrap around *)
Lemma cell_index_no_wrap (t : term_data) (x y : Z) :
  wf t -> 0 <= x < con_width t -> 0 <= y < con_height t ->
  Int.mul y (con_width t) = y * con_width t /\
  Int.add (Int.mul y (con_width t)) x = y * con_width t + x.
Proof.
  intros H Hx Hy. pose proof (wf_size t H) as Hsz.
  pose proof (cell_index_bounds _ _ _ _ Hx Hy) as Hi.
  pose proof (row_offset_bounds (con_width t) (con_height t) y ltac:(lia) ltac:(lia)).
  unfold Int.max_signed in Hsz.
  assert (E : Int.mul y (con_width t) = y * con_width t).
  { apply wrap_small. unfold Int.in_range, Int.min_signed, Int.max_signed. lia. }
  split; [exact E |]. unfold Int.add. rewrite E. apply wrap_small.
  unfold Int.in_range, Int.min_signed, Int.max_signed. lia.
Qed.

Lemma column_no_wrap (t : term_data) (a b : Z) :
  wf t -> - con_width t <= a <= con_width t -> - con_width t <= b <= con_width t ->
  Int.add a b = a + b /\ Int.sub a b = a - b.
Proof.
  intros H Ha Hb. pose proof (wf_cursor t H) as [Hw _ _ _ _ _].
  unfold Int.max_signed, NR_MIN_VT102_SCREEN_COLUMNS in Hw.
  split; apply wrap_small; unfold Int.in_range, Int.min_signed, Int.max_signed.
  - pose proof (wf_size t H) as Hsz. pose proof (wf_cursor t H) as [_ Hh _ _ _ _].
    unfold Int.max_signed, NR_MIN_VT102_SCREEN_ROWS in Hsz, Hh. nia.
  - pose proof (wf_size t H) as Hsz. pose proof (wf_cursor t H) as [_ Hh _ _ _ _].
    unfold Int.max_signed, NR_MIN_VT102_SCREEN_ROWS in Hsz, Hh. nia.
Qed.

(** the inner loop finds the end of the run of cells with rendition
    [g] that starts before column [k] *)
Lemma stride_end_spec (fuel : nat) (t : term_data) (i g : Z) :
  wf t -> 0 <= i < con_height t ->
  forall k, 1 <= k <= con_width t -> (Z.to_nat (con_width t - k) < fuel)%nat ->
  exists k',
    stride_end fuel t i k g = Some k' /\ k <= k' <= con_width t /\
    (forall x, k <= x < k' -> cell_gr t x i = g) /\
    (k' < con_width t -> cell_gr t k' i <> g).
Proof.
  intros H Hi. induction fuel as [| fuel IH]; intros k Hk Hfuel; [lia |].
  cbn [stride_end]. destruct (Z.ltb_spec k (con_width t)) as [Hlt | Hge].
  - destruct (cell_index_no_wrap t k i H ltac:(lia) Hi) as [_ ->].
    change (rd 0 (grbuf t) (i * con_width t + k)) with (cell_gr t k i).
    destruct (Z.eqb_spec (cell_gr t k i) g) as [Eg | Ng]; cbn [negb].
    + destruct (column_no_wrap t k 1 H ltac:(lia) ltac:(lia)) as [-> _].
      destruct (IH (k + 1) ltac:(lia) ltac:(lia)) as (k' & E & Hk' & Hrun & Hstop).
      exists k'. split; [exact E |]. split; [lia |]. split; [| exact Hstop].
      intros x Hx. destruct (Z.eq_dec x k) as [-> | Hne]; [exact Eg |].
      apply Hrun. lia.
    + exists k. split; [reflexivity |]. split; [lia |].
      split; [intros x Hx; lia | intros _; exact Ng].
  - exists k. split; [reflexivity |]. split; [lia |]. split; intros; lia.
Qed.

Lemma rd_bytes_at (buf : list Z) (off n i : Z) :
  0 <= i < n -> rd 0 (bytes_at buf off n) i = rd 0 buf (off + i).
Proof. intros Hi. unfold bytes_at. rewrite rd_tabulate by lia. reflexivity. Qed.

Lemma length_bytes_at (buf : list Z) (off n : Z) :
  0 <= n -> Z.of_nat (length (bytes_at buf off n)) = n.
Proof. intros Hn. unfold bytes_at. rewrite length_tabulate. lia. Qed.

(** the strides of one row, from column [j] on *)
Lemma update_row_spec (fuel : nat) (i : Z) :
  forall (t : term_data) (j : Z),
  wf t -> 0 <= i < con_height t -> 0 <= j <= con_width t ->
  (Z.to_nat (con_width t - j) < fuel)%nat ->
  exists ss,
    update_row fuel t i j =
      Some (ss, if j <? con_width t then set_must_refresh t true else t) /\
    Forall (stride_of t) ss /\
    Forall (fun s => stride_y s = i) ss /\
    (forall x, j <= x < con_width t -> exists s, In s ss /\ covers s x i).
Proof.
  induction fuel as [| fuel IH]; intros t j H Hi Hj Hfuel; [lia |].
  cbn [update_row]. destruct (Z.ltb_spec j (con_width t)) as [Hlt | Hge].
  - destruct (cell_index_no_wrap t j i H ltac:(lia) Hi) as [-> ->].
    change (rd 0 (grbuf t) (i * con_width t + j)) with (cell_gr t j i).
    destruct (column_no_wrap t j 1 H ltac:(lia) ltac:(lia)) as [-> _].
    destruct (stride_end_spec (S fuel) t i (cell_gr t j i) H Hi (j + 1)
                ltac:(lia) ltac:(lia)) as (k & -> & Hk & Hrun & Hstop).
    destruct (column_no_wrap t k j H ltac:(lia) ltac:(lia)) as [_ ->].
    unfold update_term_pixmap_stride.
    assert (Hk2 : 0 <= k <= con_width t) by lia.
    assert (Hfuel2 : (Z.to_nat (con_width t - k) < fuel)%nat) by lia.
    destruct (IH (set_must_refresh t true) k (wf_set_must_refresh t true H) Hi Hk2 Hfuel2)
      as (ss & E & Hss & Hrow & Hcov).
    change (con_width (set_must_refresh t true)) with (con_width t) in E.
    change (chbuf (set_must_refresh t true)) with (chbuf t).
    rewrite E.
    eexists. split.
    { destruct (k <? con_width t); reflexivity. }
    split; [| split].
    + constructor.
      * constructor; cbn [stride_x stride_y stride_fg_gc_idx stride_bg_gc_idx
                          stride_text stride_text_len].
        -- exact Hi.
        -- lia.
        -- apply length_bytes_at. lia.
        -- intros x Hx. rewrite rd_bytes_at by lia.
           assert (Eg : cell_gr t x i = cell_gr t j i).
           { destruct (Z.eq_dec x j) as [-> | Hne]; [reflexivity | apply Hrun; lia]. }
           rewrite Eg. split; [| split; reflexivity].
           unfold cell_ch. f_equal. lia.
        -- replace (j + (k - j)) with k by lia. exact Hstop.
      * revert Hss. apply Forall_impl. intros s.
        apply stride_of_same_cells; reflexivity.
    + constructor; [reflexivity | exact Hrow].
    + intros x Hx. destruct (Z_lt_le_dec x k) as [Hxk | Hxk].
      * eexists. split; [left; reflexivity |]. unfold covers.
        cbn [stride_x stride_y stride_text_len]. lia.
      * assert (Hx2 : k <= x < con_width t) by lia.
        destruct (Hcov x Hx2) as (s & Hin & Hs).
        exists s. split; [right; exact Hin | exact Hs].
  - exists []. split; [reflexivity |]. split; [constructor |].
    split; [constructor | intros x Hx; lia].
Qed.

(** the strides of the rows [i .. i + rows - 1] *)
Lemma update_rows_spec (rows : nat) :
  forall (t : term_data) (i : Z),
  wf t -> 0 <= i -> i + Z.of_nat rows <= con_height t ->
  exists ss t',
    update_rows rows (S (Z.to_nat (con_width t))) t i = Some (ss, t') /\
    t' = set_must_refresh
           (set_must_refresh_line_buf t (must_refresh_line_buf t')) (must_refresh t') /\
    length (must_refresh_line_buf t') = length (must_refresh_line_buf t) /\
    (forall y, 0 <= y < con_height t ->
       line_dirty t' y =
         if (i <=? y) && (y <? i + Z.of_nat rows) then false else line_dirty t y) /\
    must_refresh t' = match ss with [] => must_refresh t | _ :: _ => true end /\
    Forall (stride_of t) ss /\
    Forall (fun s => line_dirty t (stride_y s) = true) ss /\
    (forall x y, 0 <= x < con_width t -> i <= y < i + Z.of_nat rows ->
       line_dirty t y = true -> exists s, In s ss /\ covers s x y).
Proof.
  induction rows as [| rows IH]; intros t i H Hi Hrows.
  - exists [], t. cbn [update_rows].
    split; [reflexivity |]. split; [destruct t; reflexivity |].
    split; [reflexivity |]. split.
    { intros y Hy. destruct ((i <=? y) && (y <? i + Z.of_nat 0)) eqn:E; [| reflexivity].
      bool_props; lia. }
    split; [reflexivity |]. split; [constructor |]. split; [constructor |].
    intros x y Hx Hy. lia.
  - pose proof (wf_cursor t H) as [Hw Hh _ _ _ _].
    unfold NR_MIN_VT102_SCREEN_COLUMNS, NR_MIN_VT102_SCREEN_ROWS in Hw, Hh.
    assert (Ei : Int.add i 1 = i + 1).
    { apply wrap_small. unfold Int.in_range, Int.min_signed, Int.max_signed in *. lia. }
    cbn [update_rows]. rewrite Ei.
    change (rd false (must_refresh_line_buf t) i) with (line_dirty t i).
    destruct (line_dirty t i) eqn:Edirty; cbn [negb].
    + destruct (update_row_spec (S (Z.to_nat (con_width t))) i t 0 H ltac:(lia)
                  ltac:(lia) ltac:(lia)) as (ss1 & E1 & Hss1 & Hrow1 & Hcov1).
      rewrite E1. destruct (Z.ltb_spec 0 (con_width t)) as [_ | Hbad]; [| lia].
      set (t2 := set_must_refresh_line_buf (set_must_refresh t true)
                   (store false (must_refresh_line_buf (set_must_refresh t true)) i
                      false)).
      assert (H2 : wf t2).
      { destruct H as [Hinv Hsz Hch Hgr Hln]. constructor; try assumption.
        - revert Hinv. apply cursor_inv_same_geometry; reflexivity.
        - change (Z.of_nat (length (store false (must_refresh_line_buf t) i false))
                  = con_height t).
          now rewrite length_store. }
      assert (Hflags2 : forall y, 0 <= y < con_height t ->
                line_dirty t2 y = if y =? i then false else line_dirty t y).
      { intros y Hy. pose proof (wf_lines t H) as Hln.
        change (line_dirty t2 y)
          with (rd false (store false (must_refresh_line_buf t) i false) y).
        unfold store. rewrite rd_memset by lia. unfold line_dirty.
        destruct (in_run i 1 y) eqn:E; destruct (Z.eqb_spec y i);
          bool_props; try reflexivity; lia. }
      destruct (IH t2 (i + 1) H2 ltac:(lia) ltac:(change (con_height t2) with (con_height t); lia))
        as (ss2 & t' & E2 & Ht' & Hlen & Hflags & Hmr & Hss2 & Hdirty2 & Hcov2).
      change (con_width t2) with (con_width t) in E2. rewrite E2.
      exists (ss1 ++ ss2), t'.
      split; [reflexivity |]. split; [exact Ht' |].
      split.
      { rewrite Hlen. change (must_refresh_line_buf t2)
          with (store false (must_refresh_line_buf t) i false).
        apply length_store. }
      split.
      { intros y Hy. rewrite (Hflags y Hy), (Hflags2 y Hy).
        destruct ((i + 1 <=? y) && (y <? i + 1 + Z.of_nat rows)) eqn:Ea;
          destruct ((i <=? y) && (y <? i + Z.of_nat (S rows))) eqn:Eb;
          destruct (Z.eqb_spec y i); bool_props; try reflexivity; lia. }
      split.
      { destruct (Hcov1 0 ltac:(lia)) as (s & Hin & _).
        rewrite Hmr. destruct ss1 as [| s1 ss1]; [destruct Hin |].
        destruct ss2; reflexivity. }
      split.
      { apply Forall_app. split; [exact Hss1 |].
        revert Hss2. apply Forall_impl. intros s.
        apply stride_of_same_cells; reflexivity. }
      split.
      { apply Forall_app. split.
        - revert Hrow1. apply Forall_impl. intros s ->. exact Edirty.
        - apply Forall_forall. intros s Hin.
          pose proof (proj1 (Forall_forall _ _) Hdirty2 s Hin) as Hd.
          pose proof (proj1 (Forall_forall _ _) Hss2 s Hin) as [Hrow _ _ _ _].
          cbv beta in Hd. rewrite Hflags2 in Hd by exact Hrow.
          destruct (stride_y s =? i); [discriminate | exact Hd]. }
      intros x y Hx Hy Hd. destruct (Z.eq_dec y i) as [-> | Hne].
      * destruct (Hcov1 x ltac:(lia)) as (s & Hin & Hs).
        exists s. split; [apply in_or_app; left; exact Hin | exact Hs].
      * destruct (Hcov2 x y Hx ltac:(lia)) as (s & Hin & Hs).
        { rewrite Hflags2 by lia. destruct (Z.eqb_spec y i); [contradiction | exact Hd]. }
        exists s. split; [apply in_or_app; right; exact Hin | exact Hs].
    + destruct (IH t (i + 1) H ltac:(lia) ltac:(lia))
        as (ss2 & t' & E2 & Ht' & Hlen & Hflags & Hmr & Hss2 & Hdirty2 & Hcov2).
      exists ss2, t'. split; [exact E2 |]. split; [exact Ht' |]. split; [exact Hlen |].
      split.
      { intros y Hy. rewrite (Hflags y Hy).
        destruct ((i + 1 <=? y) && (y <? i + 1 + Z.of_nat rows)) eqn:Ea;
          destruct ((i <=? y) && (y <? i + Z.of_nat (S rows))) eqn:Eb;
          bool_props; try reflexivity; try lia.
        assert (y = i) by lia. subst y. exact Edirty. }
      split; [exact Hmr |]. split; [exact Hss2 |]. split; [exact Hdirty2 |].
      intros x y Hx Hy Hd. destruct (Z.eq_dec y i) as [-> | Hne]; [congruence |].
      apply Hcov2; [exact Hx | lia | exact Hd].
Qed.

Lemma update_term_pixmap_strides (t : term_data) :
  wf t ->
  exists ss t',
    update_term_pixmap t = Some (ss, t') /\
    t' = set_must_refresh
           (set_must_refresh_line_buf t (must_refresh_line_buf t')) (must_refresh t') /\
    length (must_refresh_line_buf t') = length (must_refresh_line_buf t) /\
    (forall y, 0 <= y < con_height t -> line_dirty t' y = false) /\
    must_refresh t' = match ss with [] => must_refresh t | _ :: _ => true end /\
    (forall s, In s ss -> stride_of t s /\ line_dirty t (stride_y s) = true) /\
    (forall x y, 0 <= x < con_width t -> 0 <= y < con_height t ->
       line_dirty t y = true -> exists s, In s ss /\ covers s x y).
Proof.
  intros H. pose proof (wf_cursor t H) as [_ Hh _ _ _ _].
  unfold NR_MIN_VT102_SCREEN_ROWS in Hh.
  destruct (update_rows_spec (Z.to_nat (con_height t)) t 0 H ltac:(lia) ltac:(lia))
    as (ss & t' & E & Ht' & Hlen & Hflags & Hmr & Hss & Hdirty & Hcov).
  exists ss, t'. split; [exact E |]. split; [exact Ht' |]. split; [exact Hlen |].
  split.
  { intros y Hy. rewrite (Hflags y Hy).
    destruct ((0 <=? y) && (y <? 0 + Z.of_nat (Z.to_nat (con_height t)))) eqn:Ea;
      [reflexivity |]. bool_props; lia. }
  split; [exact Hmr |]. split.
  { intros s Hin. split.
    - exact (proj1 (Forall_forall _ _) Hss s Hin).
    - exact (proj1 (Forall_forall _ _) Hdirty s Hin). }
  intros x y Hx Hy. apply Hcov; [exact Hx | lia].
Qed.

(** X26: on a well-formed screen [update_term_pixmap] returns, and it
    writes nothing but refresh flags.  It draws exactly the rows that
    are flagged: every stride it requests is a maximal run of cells of
    one rendition in a flagged row, with the characters of these cells
    as its text, and every cell of a flagged row is in one of the
    strides.  Afterwards no row is flagged, and [must_refresh] is set
    if anything was drawn. *)
Theorem update_term_pixmap_draws_flagged_rows (t : term_data) :
  wf t ->
  exists ss t',
    update_term_pixmap t = Some (ss, t') /\
    t' = set_must_refresh
           (set_must_refresh_line_buf t (must_refresh_line_buf t')) (must_refresh t') /\
    (forall y, 0 <= y < con_height t -> line_dirty t' y = false) /\
    must_refresh t' = match ss with [] => must_refresh t | _ :: _ => true end /\
    (forall s, In s ss -> stride_of t s /\ line_dirty t (stride_y s) = true) /\
    (forall x y, 0 <= x < con_width t -> 0 <= y < con_height t ->
       line_dirty t y = true -> exists s, In s ss /\ covers s x y).
Proof.
  intros H.
  destruct (update_term_pixmap_strides t H)
    as (ss & t' & E & Ht' & _ & Hflags & Hmr & Hss & Hcov).
  exists ss, t'. repeat split; try assumption; now apply Hss.
Qed.

(** X27: the colour indices the renderer passes to the drawing
    routine are, in every reachable state, exactly the foreground and
    background stored in the cells of the stride: the masks [& 7] lose
    nothing, and the indices are inside the table of 8 colours.  The
    reachable states are those of a screen created and resized with a
    number of cells that is an [int] and edited by calls that stay
    inside the buffers, so that every rendition byte was written by
    the backend. *)
Theorem renderer_colours_exact (t : term_data) :
  reachable t ->
  match update_term_pixmap t with
  | Some (ss, _) =>
      forall s x, In s ss -> stride_x s <= x < stride_x s + stride_text_len s ->
        (stride_fg_gc_idx s = cell_fg t x (stride_y s) /\
         stride_bg_gc_idx s = cell_bg t x (stride_y s)) /\
        0 <= stride_fg_gc_idx s <= 7 /\ 0 <= stride_bg_gc_idx s <= 7
  | None => False
  end.
Proof.
  intros Hr. pose proof (reachable_wf t Hr) as H.
  destruct (update_term_pixmap_strides t H)
    as (ss & t' & -> & _ & _ & _ & _ & Hss & _).
  intros s x Hin Hx.
  destruct (Hss s Hin) as [[_ _ _ Hcells _] _].
  destruct (Hcells x Hx) as (_ & -> & ->).
  destruct (reachable_palette t Hr) as (_ & _ & Hgr).
  unfold cell_fg, cell_bg, cell_gr.
  assert (Hb : rendition_ok (rd 0 (grbuf t) (stride_y s * con_width t + x)) = true)
    by (apply rd_Forall; [reflexivity | exact Hgr]).
  set (b := rd 0 (grbuf t) (stride_y s * con_width t + x)) in *. clearbody b.
  unfold rendition_ok in Hb. bool_props.
  assert (E15 : forall a, 0 <= Z.land a 15 <= 7 -> Z.land a 15 = Z.land a 7).
  { intros a Ha. change 7 with (Z.ones 3).
    rewrite <- (Z.mod_small (Z.land a 15) (2 ^ 3)) by lia.
    rewrite <- Z.land_ones by lia. rewrite <- Z.land_assoc. reflexivity. }
  pose proof (Z.land_nonneg b 15). pose proof (Z.land_nonneg (Z.shiftr b 4) 15).
  rewrite <- !E15 by lia. split; [split; reflexivity | lia].
Qed.

(** X28: a refresh repaints whatever a backend call changed.  After a
    backend call on a well-formed screen the refresh returns, and
    every cell of the screen is either in one of the strides it draws,
    with its present contents, or lies in a row that was not flagged
    before the call and has the character and rendition it had then,
    on a screen of unchanged dimensions.  The refresh leaves no row
    flagged, [must_refresh] clear, and buffers and cursor as they
    were. *)
Theorem refresh_repaints_changes (o : backend_op) (t t1 : term_data) :
  wf t -> op_args_ok o -> op_fits o -> line_count_ok o t -> step o t = Some t1 ->
  exists ss t2,
    refresh t1 = Some (ss, t2) /\
    (forall x y, 0 <= x < con_width t1 -> 0 <= y < con_height t1 ->
       (exists s, In s ss /\ covers s x y /\ stride_of t1 s) \/
       ((con_width t1 = con_width t /\ con_height t1 = con_height t) /\
        line_dirty t y = false /\
        cell_ch t1 x y = cell_ch t x y /\ cell_gr t1 x y = cell_gr t x y)) /\
    (forall y, 0 <= y < con_height t2 -> line_dirty t2 y = false) /\
    must_refresh t2 = false /\
    (chbuf t2 = chbuf t1 /\ grbuf t2 = grbuf t1 /\
     cursor_x t2 = cursor_x t1 /\ cursor_y t2 = cursor_y t1).
Proof.
  intros H Ho Hfit Hn Hstep.
  pose proof (step_wf o t t1 Ho Hfit H Hstep) as H1.
  destruct (update_term_pixmap_strides t1 H1)
    as (ss & t2 & E & Ht2 & _ & Hflags & _ & Hss & Hcov).
  exists ss, (set_must_refresh t2 false). unfold refresh. rewrite E.
  split; [reflexivity |].
  split.
  { intros x y Hx Hy. destruct (line_dirty t1 y) eqn:Ed.
    - left. destruct (Hcov x y Hx Hy Ed) as (s & Hin & Hs).
      exists s. split; [exact Hin |]. split; [exact Hs | now apply Hss].
    - right.
      assert (Htr : (exists w h, o = OpResizeBuffers w h) \/ tracked t t1)
        by (apply (step_tracked o t t1); assumption).
      destruct Htr as [(w & h & ->) | (Ew & Eh & Htr)].
      + cbn [step] in Hstep. injection Hstep as <-.
        rewrite resize_buffers_flags in Ed by exact Hy. discriminate.
      + split; [split; assumption |].
        destruct (Htr y ltac:(lia) Ed) as [Hd Hc].
        split; [exact Hd |]. apply Hc. lia. }
  split.
  { intros y Hy. apply (Hflags y).
    change (con_height (set_must_refresh t2 false)) with (con_height t2) in Hy.
    rewrite Ht2 in Hy. exact Hy. }
  split; [reflexivity |].
  rewrite Ht2. repeat split.
Qed.

(** ** The further properties at sample screens *)

Ltac range_by_eval := unfold Int.in_range, Int.min_signed, Int.max_signed; lia.

Lemma wf_screen_10_2 : wf screen_10_2.
Proof. wf_by_eval. Defined.

Lemma reachable_screen_10_2 : reachable screen_10_2.
Proof. apply reachable_init; [range_by_eval .. | vm_compute; discriminate]. Defined.

Lemma wf_screen_corner : wf screen_corner.
Proof. wf_by_eval. Defined.

Lemma wf_screen_corner_below_region : wf screen_corner_below_region.
Proof. wf_by_eval. Defined.

Lemma wf_screen_refreshed : wf screen_refreshed.
Proof. wf_by_eval. Defined.


Lemma display_char_writes_and_advances_witness :
  wf screen_cursor_3_5 /\
  (cursor_x screen_cursor_3_5 + 1 < con_width screen_cursor_3_5 \/
   cursor_y screen_cursor_3_5 + 1 < con_height screen_cursor_3_5) /\
  0 <= cur_fg_gc_idx screen_cursor_3_5 <= 7 /\
  0 <= cur_bg_gc_idx screen_cursor_3_5 <= 7 /\
  exists t', display_char screen_cursor_3_5 65 = Some t' /\
             cell_ch t' (cursor_x screen_cursor_3_5) (cursor_y screen_cursor_3_5)
             = 65 mod 256.
Proof.
  assert (H1 : cursor_x screen_cursor_3_5 + 1 < con_width screen_cursor_3_5 \/
               cursor_y screen_cursor_3_5 + 1 < con_height screen_cursor_3_5)
    by (left; vm_compute; reflexivity).
  assert (H2 : 0 <= cur_fg_gc_idx screen_cursor_3_5 <= 7)
    by (vm_compute; intuition discriminate).
  assert (H3 : 0 <= cur_bg_gc_idx screen_cursor_3_5 <= 7)
    by (vm_compute; intuition discriminate).
  split; [exact wf_screen_cursor_3_5 |]. split; [exact H1 |].
  split; [exact H2 |]. split; [exact H3 |].
  destruct (display_char_writes_and_advances screen_cursor_3_5 65
              wf_screen_cursor_3_5 H1 H2 H3) as (t' & E & _ & (Hch & _) & _).
  exists t'. split; [exact E | exact Hch].
Defined.

Lemma display_char_scrolls_at_corner_witness :
  wf screen_corner /\ cursor_x screen_corner = con_width screen_corner - 1 /\
  cursor_y screen_corner = con_height screen_corner - 1 /\
  margin_bottom screen_corner = con_height screen_corner - 1 /\
  exists t', display_char screen_corner 65 = Some t' /\
             cell_ch t' (con_width screen_corner - 1) (con_height screen_corner - 2)
             = 65 mod 256.
Proof.
  assert (H1 : cursor_x screen_corner = con_width screen_corner - 1)
    by (vm_compute; reflexivity).
  assert (H2 : cursor_y screen_corner = con_height screen_corner - 1)
    by (vm_compute; reflexivity).
  assert (H3 : margin_bottom screen_corner = con_height screen_corner - 1)
    by (vm_compute; reflexivity).
  split; [exact wf_screen_corner |]. split; [exact H1 |]. split; [exact H2 |].
  split; [exact H3 |].
  destruct (display_char_scrolls_at_corner screen_corner 65 wf_screen_corner H1 H2 H3)
    as (t' & E & _ & Hch & _).
  exists t'. split; [exact E | exact Hch].
Defined.

Lemma display_char_corner_below_region_witness :
  wf screen_corner_below_region /\
  cursor_x screen_corner_below_region = con_width screen_corner_below_region - 1 /\
  cursor_y screen_corner_below_region = con_height screen_corner_below_region - 1 /\
  margin_bottom screen_corner_below_region < con_height screen_corner_below_region - 1 /\
  exists t', display_char screen_corner_below_region 65 = Some t' /\
             cursor_x t' = 0 /\ cursor_y t' = margin_bottom screen_corner_below_region.
Proof.
  assert (H1 : cursor_x screen_corner_below_region
               = con_width screen_corner_below_region - 1)
    by (vm_compute; reflexivity).
  assert (H2 : cursor_y screen_corner_below_region
               = con_height screen_corner_below_region - 1)
    by (vm_compute; reflexivity).
  assert (H3 : margin_bottom screen_corner_below_region
               < con_height screen_corner_below_region - 1)
    by (vm_compute; reflexivity).
  split; [exact wf_screen_corner_below_region |]. split; [exact H1 |].
  split; [exact H2 |]. split; [exact H3 |].
  destruct (display_char_corner_below_region screen_corner_below_region 65
              wf_screen_corner_below_region H1 H2 H3) as (t' & E & Hc & _).
  exists t'. split; [exact E | exact Hc].
Defined.

Lemma handle_linefeed_spec_witness :
  wf screen_cursor_3_5 /\
  cursor_x (handle_linefeed screen_cursor_3_5) = cursor_x screen_cursor_3_5 /\
  cursor_y (handle_linefeed screen_cursor_3_5) =
    Z.max (margin_top screen_cursor_3_5)
      (Z.min (cursor_y screen_cursor_3_5 + 1) (margin_bottom screen_cursor_3_5)).
Proof.
  split; [exact wf_screen_cursor_3_5 |].
  exact (proj1 (handle_linefeed_spec screen_cursor_3_5 wf_screen_cursor_3_5)).
Defined.

Lemma handle_carriage_return_spec_witness :
  cursor_inv screen_cursor_below_region /\
  cursor_x (handle_carriage_return screen_cursor_below_region) = 0 /\
  cursor_y (handle_carriage_return screen_cursor_below_region) =
    Z.max (margin_top screen_cursor_below_region)
      (Z.min (cursor_y screen_cursor_below_region)
         (margin_bottom screen_cursor_below_region)).
Proof.
  assert (H : cursor_inv screen_cursor_below_region) by (constructor; by_eval).
  split; [exact H |].
  destruct (handle_carriage_return_spec screen_cursor_below_region H) as (Hx & Hy & _).
  split; [exact Hx | exact Hy].
Defined.

Lemma display_char_then_backspace_witness :
  wf screen_cursor_3_5 /\
  margin_top screen_cursor_3_5 <= cursor_y screen_cursor_3_5
    <= margin_bottom screen_cursor_3_5 /\
  (cursor_x screen_cursor_3_5 + 1 < con_width screen_cursor_3_5 \/
   cursor_y screen_cursor_3_5 + 1 < con_height screen_cursor_3_5) /\
  exists t1, display_char screen_cursor_3_5 65 = Some t1 /\
             cell_ch (handle_backspace t1) (cursor_x screen_cursor_3_5)
               (cursor_y screen_cursor_3_5) = 65 mod 256.
Proof.
  assert (H1 : margin_top screen_cursor_3_5 <= cursor_y screen_cursor_3_5
               <= margin_bottom screen_cursor_3_5)
    by (vm_compute; intuition discriminate).
  assert (H2 : cursor_x screen_cursor_3_5 + 1 < con_width screen_cursor_3_5 \/
               cursor_y screen_cursor_3_5 + 1 < con_height screen_cursor_3_5)
    by (left; vm_compute; reflexivity).
  split; [exact wf_screen_cursor_3_5 |]. split; [exact H1 |]. split; [exact H2 |].
  destruct (display_char_then_backspace screen_cursor_3_5 65 wf_screen_cursor_3_5 H1 H2)
    as (t1 & E & Hch & _).
  exists t1. split; [exact E | exact Hch].
Defined.

Lemma handle_horiz_tab_in_row_witness :
  wf screen_cursor_3_5 /\
  cursor_x screen_cursor_3_5 + (8 - cursor_x screen_cursor_3_5 mod 8)
  < con_width screen_cursor_3_5 /\
  exists t', handle_horiz_tab screen_cursor_3_5 = Some t' /\
             cursor_x t' = cursor_x screen_cursor_3_5
                           + (8 - cursor_x screen_cursor_3_5 mod 8).
Proof.
  assert (H1 : cursor_x screen_cursor_3_5 + (8 - cursor_x screen_cursor_3_5 mod 8)
               < con_width screen_cursor_3_5) by (vm_compute; reflexivity).
  split; [exact wf_screen_cursor_3_5 |]. split; [exact H1 |].
  destruct (handle_horiz_tab_in_row screen_cursor_3_5 wf_screen_cursor_3_5 H1)
    as (t' & E & (Hx & _) & _).
  exists t'. split; [exact E | exact Hx].
Defined.

Lemma insert_lines_at_cursor_spec_witness :
  wf screen_cursor_3_5 /\ 0 <= 2 /\ cursor_y screen_cursor_3_5 + 2 <= Int.max_signed /\
  cursor_x (insert_lines_at_cursor screen_cursor_3_5 2) = cursor_x screen_cursor_3_5 /\
  cursor_y (insert_lines_at_cursor screen_cursor_3_5 2) = cursor_y screen_cursor_3_5.
Proof.
  assert (H1 : 0 <= 2) by lia.
  assert (H2 : cursor_y screen_cursor_3_5 + 2 <= Int.max_signed)
    by (vm_compute; discriminate).
  split; [exact wf_screen_cursor_3_5 |]. split; [exact H1 |]. split; [exact H2 |].
  exact (proj2 (proj2 (insert_lines_at_cursor_spec screen_cursor_3_5 2
                         wf_screen_cursor_3_5 H1 H2))).
Defined.

Lemma delete_lines_at_cursor_spec_witness :
  wf screen_cursor_3_5 /\ 0 <= 2 /\ cursor_y screen_cursor_3_5 + 2 <= Int.max_signed /\
  cursor_x (delete_lines_at_cursor screen_cursor_3_5 2) = cursor_x screen_cursor_3_5 /\
  cursor_y (delete_lines_at_cursor screen_cursor_3_5 2) = cursor_y screen_cursor_3_5.
Proof.
  assert (H1 : 0 <= 2) by lia.
  assert (H2 : cursor_y screen_cursor_3_5 + 2 <= Int.max_signed)
    by (vm_compute; discriminate).
  split; [exact wf_screen_cursor_3_5 |]. split; [exact H1 |]. split; [exact H2 |].
  exact (proj2 (proj2 (delete_lines_at_cursor_spec screen_cursor_3_5 2
                         wf_screen_cursor_3_5 H1 H2))).
Defined.

Lemma insert_then_delete_lines_witness :
  wf screen_cursor_3_5 /\ 0 <= 2 /\ cursor_y screen_cursor_3_5 + 2 <= Int.max_signed /\
  cell_ch (delete_lines_at_cursor (insert_lines_at_cursor screen_cursor_3_5 2) 2) 0 23
  = (if (margin_bottom screen_cursor_3_5
         - Z.min 2 (margin_bottom screen_cursor_3_5 - cursor_y screen_cursor_3_5 + 1)
         <? 23) && (23 <=? margin_bottom screen_cursor_3_5)
     then SPACE else cell_ch screen_cursor_3_5 0 23).
Proof.
  assert (H1 : margin_top screen_cursor_3_5 <= cursor_y screen_cursor_3_5
               <= margin_bottom screen_cursor_3_5)
    by (vm_compute; intuition discriminate).
  assert (H2 : 0 <= 2) by lia.
  assert (H3 : cursor_y screen_cursor_3_5 + 2 <= Int.max_signed)
    by (vm_compute; discriminate).
  split; [exact wf_screen_cursor_3_5 |]. split; [exact H2 |]. split; [exact H3 |].
  exact (proj1 (proj2 (insert_then_delete_lines screen_cursor_3_5 2 wf_screen_cursor_3_5
                         H2 H3) H1 0 23 ltac:(vm_compute; intuition discriminate)
                  ltac:(vm_compute; intuition discriminate))).
Defined.

Lemma colours_within_palette_witness :
  reachable screen_cursor_3_5 /\
  0 <= cur_fg_gc_idx screen_cursor_3_5 <= 7 /\
  0 <= cell_bg screen_cursor_3_5 3 5 <= 7.
Proof.
  split; [exact reachable_screen_cursor_3_5 |].
  destruct (colours_within_palette screen_cursor_3_5 reachable_screen_cursor_3_5)
    as ((Hfg & _) & Hcells).
  split; [exact Hfg | exact (proj2 (Hcells 3 5))].
Defined.

Lemma changed_rows_are_flagged_witness :
  wf screen_refreshed /\ op_args_ok OpEraseLineAtCursor /\
  line_count_ok OpEraseLineAtCursor screen_refreshed /\
  step OpEraseLineAtCursor screen_refreshed
  = Some (erase_line_at_cursor screen_refreshed) /\
  0 <= 1 < con_height (erase_line_at_cursor screen_refreshed) /\
  line_dirty (erase_line_at_cursor screen_refreshed) 1 = false /\
  line_dirty screen_refreshed 1 = false /\
  forall x, 0 <= x < con_width screen_refreshed ->
    cell_ch (erase_line_at_cursor screen_refreshed) x 1 = cell_ch screen_refreshed x 1 /\
    cell_gr (erase_line_at_cursor screen_refreshed) x 1 = cell_gr screen_refreshed x 1.
Proof.
  assert (H1 : 0 <= 1 < con_height (erase_line_at_cursor screen_refreshed))
    by (vm_compute; intuition discriminate).
  assert (H2 : line_dirty (erase_line_at_cursor screen_refreshed) 1 = false)
    by (vm_compute; reflexivity).
  split; [exact wf_screen_refreshed |]. split; [exact I |]. split; [exact I |].
  split; [reflexivity |]. split; [exact H1 |]. split; [exact H2 |].
  exact (proj2 (changed_rows_are_flagged OpEraseLineAtCursor screen_refreshed
                  (erase_line_at_cursor screen_refreshed) 1 wf_screen_refreshed I I
                  eq_refl H1 H2)).
Defined.

Lemma must_refresh_signals_changes_witness :
  step OpEraseLineAtCursor screen_refreshed
  = Some (erase_line_at_cursor screen_refreshed) /\
  (must_refresh (erase_line_at_cursor screen_refreshed) = true \/
   (chbuf (erase_line_at_cursor screen_refreshed) = chbuf screen_refreshed /\
    grbuf (erase_line_at_cursor screen_refreshed) = grbuf screen_refreshed /\
    must_refresh_line_buf (erase_line_at_cursor screen_refreshed)
    = must_refresh_line_buf screen_refreshed /\
    (cursor_x (erase_line_at_cursor screen_refreshed) = cursor_x screen_refreshed /\
     cursor_y (erase_line_at_cursor screen_refreshed) = cursor_y screen_refreshed) /\
    (con_width (erase_line_at_cursor screen_refreshed) = con_width screen_refreshed /\
     con_height (erase_line_at_cursor screen_refreshed) = con_height screen_refreshed) /\
    must_refresh (erase_line_at_cursor screen_refreshed)
    = must_refresh screen_refreshed)).
Proof.
  split; [reflexivity |].
  exact (must_refresh_signals_changes OpEraseLineAtCursor screen_refreshed
           (erase_line_at_cursor screen_refreshed) eq_refl).
Defined.

Lemma move_cursor_absolute_clamps_witness :
  cursor_inv screen_cursor_below_region /\
  cursor_x (move_cursor_absolute screen_cursor_below_region 100 (-3)) =
    Z.max 0 (Z.min 100 (con_width screen_cursor_below_region - 1)) /\
  cursor_y (move_cursor_absolute screen_cursor_below_region 100 (-3)) =
    Z.max (margin_top screen_cursor_below_region)
      (Z.min (-3) (margin_bottom screen_cursor_below_region)).
Proof.
  assert (H : cursor_inv screen_cursor_below_region) by (constructor; by_eval).
  split; [exact H |].
  exact (proj1 (move_cursor_absolute_clamps screen_cursor_below_region 100 (-3) H)).
Defined.

Lemma move_cursor_relative_clamps_witness :
  cursor_inv screen_cursor_3_5 /\
  Int.in_range (cursor_x screen_cursor_3_5 + -5) /\
  Int.in_range (cursor_y screen_cursor_3_5 + 2) /\
  move_cursor_relative screen_cursor_3_5 (-5) 2 =
    move_cursor_absolute screen_cursor_3_5 (cursor_x screen_cursor_3_5 + -5)
      (cursor_y screen_cursor_3_5 + 2).
Proof.
  assert (H1 : Int.in_range (cursor_x screen_cursor_3_5 + -5))
    by (vm_compute; intuition discriminate).
  assert (H2 : Int.in_range (cursor_y screen_cursor_3_5 + 2))
    by (vm_compute; intuition discriminate).
  split; [exact (wf_cursor _ wf_screen_cursor_3_5) |]. split; [exact H1 |].
  split; [exact H2 |].
  exact (proj1 (move_cursor_relative_clamps screen_cursor_3_5 (-5) 2
                  (wf_cursor _ wf_screen_cursor_3_5) H1 H2)).
Defined.

Lemma select_graphic_rendition_sequence_witness :
  0 <= 2 /\ 0 <= 3 <= 7 /\
  select_graphic_rendition screen_10_2 ([31] ++ [44; 7]) (Z.of_nat (length [31]) + 2) =
    select_graphic_rendition
      (select_graphic_rendition screen_10_2 [31] (Z.of_nat (length [31]))) [44; 7] 2 /\
  cur_fg_gc_idx (select_graphic_rendition screen_10_2 [30 + 3] 1) = 3.
Proof.
  assert (H1 : 0 <= 2) by lia.
  assert (H2 : 0 <= 3 <= 7) by lia.
  split; [exact H1 |]. split; [exact H2 |].
  destruct (select_graphic_rendition_sequence screen_10_2 [31] [44; 7] 2 3 H1 H2)
    as (Hseq & _ & (Hfg & _) & _).
  split; [exact Hseq | exact Hfg].
Defined.

Lemma init_creates_screen_witness :
  Int.in_range 3 /\ Int.in_range 0 /\
  Z.max 3 NR_MIN_VT102_SCREEN_COLUMNS * Z.max 0 NR_MIN_VT102_SCREEN_ROWS
  <= Int.max_signed /\
  wf (init_vt102_generic_backend 3 0) /\
  init_vt102_generic_backend 3 0 =
    init_vt102_generic_backend (Z.max 3 NR_MIN_VT102_SCREEN_COLUMNS)
      (Z.max 0 NR_MIN_VT102_SCREEN_ROWS).
Proof.
  assert (H1 : Int.in_range 3) by range_by_eval.
  assert (H2 : Int.in_range 0) by range_by_eval.
  assert (H3 : Z.max 3 NR_MIN_VT102_SCREEN_COLUMNS * Z.max 0 NR_MIN_VT102_SCREEN_ROWS
               <= Int.max_signed) by (vm_compute; discriminate).
  split; [exact H1 |]. split; [exact H2 |]. split; [exact H3 |].
  destruct (init_creates_screen 3 0 H1 H2 H3) as (Hwf & Heq & _).
  split; [exact Hwf | exact Heq].
Defined.

Lemma delete_characters_at_cursor_spec_witness :
  wf screen_cursor_3_5 /\
  grbuf (delete_characters_at_cursor screen_cursor_3_5 2) = grbuf screen_cursor_3_5 /\
  cursor_x (delete_characters_at_cursor screen_cursor_3_5 2) = cursor_x screen_cursor_3_5 /\
  cursor_y (delete_characters_at_cursor screen_cursor_3_5 2) = cursor_y screen_cursor_3_5.
Proof.
  split; [exact wf_screen_cursor_3_5 |].
  exact (proj2 (proj2 (delete_characters_at_cursor_spec screen_cursor_3_5 2
                         wf_screen_cursor_3_5))).
Defined.

Lemma erase_display_in_two_parts_witness :
  wf screen_cursor_3_5 /\
  erase_display_from_cursor_to_end
    (erase_display_from_beginning_to_cursor screen_cursor_3_5)
  = erase_display screen_cursor_3_5.
Proof.
  split; [exact wf_screen_cursor_3_5 |].
  exact (proj1 (erase_display_in_two_parts screen_cursor_3_5 wf_screen_cursor_3_5)).
Defined.

Lemma set_top_and_bottom_margins_clamps_witness :
  NR_MIN_VT102_SCREEN_ROWS <= con_height screen_80_24 <= Int.max_signed /\
  0 <= 5 /\ 5 < 10 /\ 10 <= con_height screen_80_24 - 1 /\
  margin_top (set_top_and_bottom_margins screen_80_24 5 10) = 5 /\
  margin_bottom (set_top_and_bottom_margins screen_80_24 5 10) = 10.
Proof.
  assert (H : NR_MIN_VT102_SCREEN_ROWS <= con_height screen_80_24 <= Int.max_signed)
    by (vm_compute; intuition discriminate).
  assert (H1 : 0 <= 5) by lia.
  assert (H2 : 5 < 10) by lia.
  assert (H3 : 10 <= con_height screen_80_24 - 1) by (vm_compute; discriminate).
  split; [exact H |]. split; [exact H1 |]. split; [exact H2 |]. split; [exact H3 |].
  exact (proj2 (set_top_and_bottom_margins_clamps screen_80_24 5 10 H) H1 H2 H3).
Defined.

Lemma cursor_reverse_index_spec_witness :
  wf screen_10_2 /\ cursor_y screen_10_2 = margin_top screen_10_2 /\
  forall x, 0 <= x < con_width screen_10_2 ->
    cell_ch (cursor_reverse_index screen_10_2) x (margin_top screen_10_2) = SPACE /\
    cell_gr (cursor_reverse_index screen_10_2) x (margin_top screen_10_2) = 32.
Proof.
  assert (H : cursor_y screen_10_2 = margin_top screen_10_2)
    by (vm_compute; reflexivity).
  split; [exact wf_screen_10_2 |]. split; [exact H |].
  destruct (cursor_reverse_index_spec screen_10_2 wf_screen_10_2) as (_ & _ & Hs & _).
  exact (proj1 (proj2 (Hs H))).
Defined.

Lemma update_term_pixmap_draws_flagged_rows_witness :
  wf screen_10_2 /\
  exists ss t',
    update_term_pixmap screen_10_2 = Some (ss, t') /\
    forall y, 0 <= y < con_height screen_10_2 -> line_dirty t' y = false.
Proof.
  split; [exact wf_screen_10_2 |].
  destruct (update_term_pixmap_draws_flagged_rows screen_10_2 wf_screen_10_2)
    as (ss & t' & E & _ & Hflags & _).
  exists ss, t'. split; [exact E | exact Hflags].
Defined.

Lemma renderer_colours_exact_witness :
  reachable screen_10_2 /\
  match update_term_pixmap screen_10_2 with
  | Some (ss, _) =>
      forall s x, In s ss -> stride_x s <= x < stride_x s + stride_text_len s ->
        (stride_fg_gc_idx s = cell_fg screen_10_2 x (stride_y s) /\
         stride_bg_gc_idx s = cell_bg screen_10_2 x (stride_y s)) /\
        0 <= stride_fg_gc_idx s <= 7 /\ 0 <= stride_bg_gc_idx s <= 7
  | None => False
  end.
Proof.
  split; [exact reachable_screen_10_2 |].
  exact (renderer_colours_exact screen_10_2 reachable_screen_10_2).
Defined.

Lemma refresh_repaints_changes_witness :
  wf screen_refreshed /\ op_args_ok OpEraseLineAtCursor /\ op_fits OpEraseLineAtCursor /\
  line_count_ok OpEraseLineAtCursor screen_refreshed /\
  step OpEraseLineAtCursor screen_refreshed
  = Some (erase_line_at_cursor screen_refreshed) /\
  exists ss t2,
    refresh (erase_line_at_cursor screen_refreshed) = Some (ss, t2) /\
    must_refresh t2 = false.
Proof.
  split; [exact wf_screen_refreshed |]. split; [exact I |]. split; [exact I |].
  split; [exact I |]. split; [reflexivity |].
  destruct (refresh_repaints_changes OpEraseLineAtCursor screen_refreshed
              (erase_line_at_cursor screen_refreshed) wf_screen_refreshed I I I eq_refl)
    as (ss & t2 & E & _ & _ & Hmr & _).
  exists ss, t2. split; [exact E | exact Hmr].
Defined.
